(** * Resume Analyzer backend: the sanitizer, the analysis pipeline and the
      resume controller, embedded from the JavaScript sources.

    - [services/analysisService.js]: [extractTextFromPDF], [analyzeWithAI],
      [validateAndSanitizeAnalysis], [validateRating], [analyzeResume];
    - [controllers/resumeController.js]: [uploadResume], [getAllResumes],
      [getResumeById], [deleteResume], [getResumeStats];
    - [routes/resumeRoutes.js]: [validateResumeId], [fileFilter],
      [validateFileUpload];
    - [middleware/errorHandler.js]: [globalErrorHandler] and its handlers;
    - [db/index.js]: the [resumes] table.

    JavaScript values are modelled as they come out of [JSON.parse]; the
    built-ins the code calls ([parseInt], [||], [Array.isArray], [.length],
    [substring], [trim], [includes], ...) follow ECMAScript.  The database
    is PostgreSQL behind the [pg] driver: text is counted in characters
    there, an [integer] has 32 bits, and the driver returns a JSONB column
    parsed. *)

From Stdlib Require Import List ZArith NArith Lia Bool.
From Stdlib Require Decimal DecimalN Ascii String.
Import String.StringSyntax.
Bind Scope string_scope with String.string.
Delimit Scope string_scope with string.
From Stdlib Require Import Permutation Sorted.
Import ListNotations.

Set Implicit Arguments.
Set Warnings "-register-all".
Local Open Scope Z_scope.

(* ================================================================== *)
(** ** JavaScript strings *)

(** A JavaScript string is a sequence of UTF-16 code units. *)
Definition jsstring := list N.

(** A source literal (all literals of the program are ASCII). *)
Definition lit (s : String.string) : jsstring :=
  map Ascii.N_of_ascii (String.list_ascii_of_string s).

Fixpoint jsstring_eqb (a b : jsstring) : bool :=
  match a, b with
  | [], [] => true
  | x :: a', y :: b' => N.eqb x y && jsstring_eqb a' b'
  | _, _ => false
  end.

Fixpoint starts_with (p s : jsstring) : bool :=
  match p, s with
  | [], _ => true
  | x :: p', y :: s' => N.eqb x y && starts_with p' s'
  | _ :: _, [] => false
  end.

(** [s.includes(p)] *)
Fixpoint includes (s p : jsstring) : bool :=
  starts_with p s ||
  match s with
  | [] => false
  | _ :: s' => includes s' p
  end.

(** ECMAScript WhiteSpace and LineTerminator code units, the ones [trim] and
    [parseInt] skip. *)
Definition is_whitespace (c : N) : bool :=
  existsb (N.eqb c)
    [9; 10; 11; 12; 13; 32; 160; 5760; 8192; 8193; 8194; 8195; 8196; 8197;
     8198; 8199; 8200; 8201; 8202; 8232; 8233; 8239; 8287; 12288; 65279]%N.

Fixpoint trimStart (s : jsstring) : jsstring :=
  match s with
  | c :: s' => if is_whitespace c then trimStart s' else s
  | [] => []
  end.

Definition trim (s : jsstring) : jsstring :=
  rev (trimStart (rev (trimStart s))).

(** [s.substring(a, b)] for non-negative integer arguments: both are clamped
    to the length and swapped when [a > b]. *)
Definition substring (s : jsstring) (a b : nat) : jsstring :=
  let a' := Nat.min a (length s) in
  let b' := Nat.min b (length s) in
  let lo := Nat.min a' b' in
  let hi := Nat.max a' b' in
  firstn (hi - lo) (skipn lo s).

(** [s.indexOf(c)] and [s.lastIndexOf(c)] for a one-character pattern;
    [None] is JavaScript's [-1]. *)
Fixpoint indexOf (s : jsstring) (c : N) : option nat :=
  match s with
  | [] => None
  | x :: s' => if N.eqb x c then Some O
               else option_map S (indexOf s' c)
  end.

Fixpoint lastIndexOf (s : jsstring) (c : N) : option nat :=
  match s with
  | [] => None
  | x :: s' =>
      match lastIndexOf s' c with
      | Some i => Some (S i)
      | None => if N.eqb x c then Some O else None
      end
  end.

(* ================================================================== *)
(** ** JavaScript numbers *)

(** A Number is NaN, an infinity, or a finite double.  A finite double is
    kept as a decimal [(-1)^neg * m * 10^e]: every double has such a form
    (the digits that [Number::toString] prints), which is all the program
    ever looks at. *)
Inductive number : Type :=
| NaN
| Infinity (neg : bool)
| Finite (neg : bool) (m : N) (e : Z).

Definition number_of_Z (z : Z) : number :=
  Finite (z <? 0) (Z.to_N (Z.abs z)) 0.

Definition number_of_nat (n : nat) : number := Finite false (N.of_nat n) 0.

Fixpoint uint_digits (u : Decimal.uint) : list N :=
  match u with
  | Decimal.Nil => []
  | Decimal.D0 u => 0%N :: uint_digits u
  | Decimal.D1 u => 1%N :: uint_digits u
  | Decimal.D2 u => 2%N :: uint_digits u
  | Decimal.D3 u => 3%N :: uint_digits u
  | Decimal.D4 u => 4%N :: uint_digits u
  | Decimal.D5 u => 5%N :: uint_digits u
  | Decimal.D6 u => 6%N :: uint_digits u
  | Decimal.D7 u => 7%N :: uint_digits u
  | Decimal.D8 u => 8%N :: uint_digits u
  | Decimal.D9 u => 9%N :: uint_digits u
  end.

(** Decimal digits of a natural number, most significant first. *)
Definition digits (n : N) : list N := uint_digits (N.to_uint n).

(** A digit value as its character. *)
Definition digit_char (d : N) : N := (48 + d)%N.

Definition decimal (n : N) : jsstring := map digit_char (digits n).

Fixpoint drop_zeros (ds : list N) : list N :=
  match ds with
  | 0%N :: ds' => drop_zeros ds'
  | _ => ds
  end.

(** [Number::toString] (radix 10) on a positive finite number [m * 10^e]:
    with [s] the digits of [m] without trailing zeros, [k] their count and
    [n] the position of the decimal point, ECMAScript 6.1.6.1.20. *)
Definition positive_toString (m : N) (e : Z) : jsstring :=
  let all := digits m in
  let s := rev (drop_zeros (rev all)) in
  let k := Z.of_nat (length s) in
  let n := Z.of_nat (length all) + e in
  let sc := map digit_char s in
  if (k <=? n) && (n <=? 21) then
    sc ++ repeat (digit_char 0) (Z.to_nat (n - k))
  else if (0 <? n) && (n <=? 21) then
    firstn (Z.to_nat n) sc ++ lit "." ++ skipn (Z.to_nat n) sc
  else if (-6 <? n) && (n <=? 0) then
    lit "0." ++ repeat (digit_char 0) (Z.to_nat (- n)) ++ sc
  else
    let ex := (if n - 1 <? 0 then lit "-" else lit "+")
              ++ decimal (Z.to_N (Z.abs (n - 1))) in
    match sc with
    | [d] => [d] ++ lit "e" ++ ex
    | d :: ds => [d] ++ lit "." ++ ds ++ lit "e" ++ ex
    | [] => []
    end.

Definition sign (neg : bool) : jsstring := if neg then lit "-" else [].

Definition Number_toString (x : number) : jsstring :=
  match x with
  | NaN => lit "NaN"
  | Infinity neg => sign neg ++ lit "Infinity"
  | Finite _ 0%N _ => lit "0"
  | Finite neg m e => sign neg ++ positive_toString m e
  end.

(** [x > b] for a Number [x] and an integer [b]. *)
Definition number_gt (x : number) (b : Z) : bool :=
  match x with
  | NaN => false
  | Infinity neg => negb neg
  | Finite neg m e =>
      let M := if neg then - Z.of_N m else Z.of_N m in
      if 0 <=? e then b <? M * 10 ^ e else b * 10 ^ (- e) <? M
  end.

(* ================================================================== *)
(** ** Errors and results *)

(** A thrown error object: its message, the [code] some errors carry, and,
    for an [AppError], its [statusCode]. *)
Record error : Type := mkError {
  message : jsstring;
  code : option jsstring;
  statusCode : option Z
}.

(** [new AppError(message, statusCode)] (middleware/errorHandler.js) *)
Definition AppError (msg : String.string) (status : Z) : error :=
  mkError (lit msg) None (Some status).

(** [error instanceof AppError] *)
Definition instanceof_AppError (e : error) : bool :=
  match statusCode e with Some _ => true | None => false end.

(** An error of the engine itself (TypeError, SyntaxError). *)
Definition EngineError (msg : jsstring) : error := mkError msg None None.

Inductive result (A : Type) : Type :=
| Ok (a : A)
| Throw (e : error).
Arguments Ok {A} a.
Arguments Throw {A} e.

Definition bind {A B} (r : result A) (f : A -> result B) : result B :=
  match r with
  | Ok a => f a
  | Throw e => Throw e
  end.

Notation "'let*' x ':=' r 'in' k" := (bind r (fun x => k))
  (at level 10, x name, r at level 100, k at level 200).

Fixpoint mapM {A B} (f : A -> result B) (l : list A) : result (list B) :=
  match l with
  | [] => Ok []
  | x :: r =>
      let* y := f x in
      let* ys := mapM f r in
      Ok (y :: ys)
  end.

(* ================================================================== *)
(** ** JavaScript values *)

(** What [JSON.parse] builds.  [undefined] (a missing property) is the
    [None] of [option value]. *)
Inductive value : Type :=
| VNull
| VBool (b : bool)
| VNum (x : number)
| VStr (s : jsstring)
| VArr (l : list value)
| VObj (kv : list (jsstring * value)).

Definition undefined : option value := None.

(** ToBoolean *)
Definition truthy (v : value) : bool :=
  match v with
  | VNull => false
  | VBool b => b
  | VNum NaN => false
  | VNum (Finite _ 0%N _) => false
  | VNum _ => true
  | VStr [] => false
  | VStr _ => true
  | VArr _ | VObj _ => true
  end.

(** [a || d] where [d] is a value. *)
Definition or_else (a : option value) (d : value) : value :=
  match a with
  | Some v => if truthy v then v else d
  | None => d
  end.

Fixpoint has_key (k : jsstring) (kv : list (jsstring * value)) : bool :=
  match kv with
  | [] => false
  | (k', _) :: r => jsstring_eqb k k' || has_key k r
  end.

(** ToString.  An array is its elements joined by commas, [null] elements
    printing as nothing.  A plain object prints through
    [Object.prototype.toString], unless a property of its own named
    [toString] hides that method: a JSON value is not callable, and the
    conversion throws. *)
Fixpoint ToString (v : value) : result jsstring :=
  match v with
  | VNull => Ok (lit "null")
  | VBool true => Ok (lit "true")
  | VBool false => Ok (lit "false")
  | VNum x => Ok (Number_toString x)
  | VStr s => Ok s
  | VArr l =>
      (fix join (l : list value) : result jsstring :=
         match l with
         | [] => Ok []
         | [x] => match x with VNull => Ok [] | _ => ToString x end
         | x :: r =>
             let* a := match x with VNull => Ok [] | _ => ToString x end in
             let* b := join r in
             Ok (a ++ lit "," ++ b)
         end) l
  | VObj kv =>
      if has_key (lit "toString") kv then
        Throw (EngineError (lit "Cannot convert object to primitive value"))
      else Ok (lit "[object Object]")
  end.

Definition ToString_opt (o : option value) : result jsstring :=
  match o with Some v => ToString v | None => Ok (lit "undefined") end.

Fixpoint lookup (k : jsstring) (kv : list (jsstring * value)) : option value :=
  match kv with
  | [] => None
  | (k', v) :: r => if jsstring_eqb k k' then Some v else lookup k r
  end.

(** Property read [v.k] for the data keys the program reads.  Reading from
    [null] throws; a string or an array has a [length]; any other read from
    a primitive or an array is [undefined]. *)
Definition get (v : value) (k : String.string) : result (option value) :=
  match v with
  | VNull =>
      Throw (EngineError (lit "Cannot read properties of null (reading '"
                          ++ lit k ++ lit "')"))
  | VObj kv => Ok (lookup (lit k) kv)
  | VStr s =>
      Ok (if String.eqb k "length" then Some (VNum (number_of_nat (length s)))
          else None)
  | VArr l =>
      Ok (if String.eqb k "length" then Some (VNum (number_of_nat (length l)))
          else None)
  | VBool _ | VNum _ => Ok None
  end.

(* ================================================================== *)
(** ** parseInt *)

(** The value of [c] as a digit in the given radix, if it is one. *)
Definition digit_value (radix c : N) : option N :=
  let d := (if (48 <=? c) && (c <=? 57) then Some (c - 48)
            else if (97 <=? c) && (c <=? 122) then Some (c - 87)
            else if (65 <=? c) && (c <=? 90) then Some (c - 55)
            else None)%N in
  match d with
  | Some v => if (v <? radix)%N then Some v else None
  | None => None
  end.

(** The integer written by the longest prefix of radix digits; [acc] is
    [None] until a first digit is read. *)
Fixpoint read_digits (radix : N) (s : jsstring) (acc : option N) : option N :=
  match s with
  | c :: s' =>
      match digit_value radix c with
      | Some d =>
          read_digits radix s'
            (Some (radix * match acc with Some a => a | None => 0 end + d)%N)
      | None => acc
      end
  | [] => acc
  end.

(** [parseInt(string)] without a radix, ECMAScript 19.2.5: leading white
    space, a sign, a [0x]/[0X] prefix, then the digits; [None] is NaN.  The
    result is the integer that was read: the double [parseInt] returns is
    that integer rounded, which compares with 1 and 10 as the integer does and
    is the integer itself between them. *)
Definition parseInt_string (input : jsstring) : option Z :=
  let S := trimStart input in
  let '(neg, S1) :=
    match S with
    | 45%N :: r => (true, r)
    | 43%N :: r => (false, r)
    | _ => (false, S)
    end in
  let '(R, S2) :=
    match S1 with
    | 48%N :: x :: r =>
        if (x =? 120)%N || (x =? 88)%N then (16%N, r) else (10%N, S1)
    | _ => (10%N, S1)
    end in
  match read_digits R S2 None with
  | None => None
  | Some n => Some (if neg then - Z.of_N n else Z.of_N n)
  end.

(** [parseInt(v)]: the argument goes through ToString first. *)
Definition parseInt (v : option value) : result (option Z) :=
  let* inputString := ToString_opt v in
  Ok (parseInt_string inputString).

(* ================================================================== *)
(** ** services/analysisService.js: the sanitizer *)

(** [validateRating]: a rating between 1 and 10. *)
Definition validateRating (rating : option value) : result Z :=
  let* numRating := parseInt rating in
  match numRating with
  | None => Ok 1                          (* isNaN(numRating) *)
  | Some numRating =>
      if numRating <? 1 then Ok 1
      else if 10 <? numRating then Ok 10
      else Ok numRating
  end.

(** What the engine provides and the program relies on without fixing here:
    the Number a string converts to and the double a decimal literal rounds
    to (ECMAScript leaves the rounding of long literals to the
    implementation), [toFixed(2)] on a number other than NaN, and the JSON
    codec ([JSON.parse] may throw). *)
Class Engine : Type := {
  StringToNumber : jsstring -> number;
  round_literal : jsstring -> number;
  toFixed_2 : number -> jsstring;
  JSON_parse : jsstring -> result value;
  JSON_stringify : value -> jsstring
}.

Section Sanitizer.
Context {engine : Engine}.

(** ToNumber; an array or an object converts through its string. *)
Definition ToNumber (v : value) : result number :=
  match v with
  | VNull => Ok (Finite false 0 0)
  | VBool b => Ok (Finite false (if b then 1 else 0) 0)
  | VNum x => Ok x
  | VStr s => Ok (StringToNumber s)
  | VArr _ | VObj _ => let* s := ToString v in Ok (StringToNumber s)
  end.

(** [a > b] with [b] an integer literal; [undefined] converts to NaN. *)
Definition gt (a : option value) (b : Z) : result bool :=
  match a with
  | None => Ok false
  | Some v => let* x := ToNumber v in Ok (number_gt x b)
  end.

(** [Array.isArray(x) ? x : []] *)
Definition array_or_empty (x : option value) : list value :=
  match x with
  | Some (VArr l) => l
  | _ => []
  end.

Definition str (s : String.string) : value := VStr (lit s).

(** [Array.isArray(d) ? d : (d ? [d] : ['No description provided'])] *)
Definition description_list (description : option value) : list value :=
  match description with
  | Some (VArr l) => l
  | Some d => if truthy d then [d] else [str "No description provided"]
  | None => [str "No description provided"]
  end.

(** The work-experience item of [sanitized.work_experience.map(...)]. *)
Definition sanitize_work (exp : value) : result value :=
  let* role := get exp "role" in
  let* company := get exp "company" in
  let* duration := get exp "duration" in
  let* description := get exp "description" in
  Ok (VObj
    [ (lit "role", or_else role (str "Not specified"));
      (lit "company", or_else company (str "Not specified"));
      (lit "duration", or_else duration (str "Not specified"));
      (lit "description", VArr (description_list description)) ]).

Definition sanitize_education (edu : value) : result value :=
  let* degree := get edu "degree" in
  let* institution := get edu "institution" in
  let* graduation_year := get edu "graduation_year" in
  Ok (VObj
    [ (lit "degree", or_else degree (str "Not specified"));
      (lit "institution", or_else institution (str "Not specified"));
      (lit "graduation_year", or_else graduation_year (str "Not specified")) ]).

Definition sanitize_project (project : value) : result value :=
  let* name := get project "name" in
  let* description := get project "description" in
  let* technologies := get project "technologies" in
  Ok (VObj
    [ (lit "name", or_else name (str "Unnamed Project"));
      (lit "description", or_else description (str "No description provided"));
      (lit "technologies", VArr (array_or_empty technologies)) ]).

Definition sanitize_certification (cert : value) : result value :=
  let* name := get cert "name" in
  let* issuer := get cert "issuer" in
  let* year := get cert "year" in
  Ok (VObj
    [ (lit "name", or_else name (str "Not specified"));
      (lit "issuer", or_else issuer (str "Not specified"));
      (lit "year", or_else year (str "Not specified")) ]).

(** [if (v && v.length > limit) v = v.substring(0, keep) + '...']; only a
    string has a [substring] to call. *)
Definition truncate (field : String.string) (v : value) (limit : Z)
    (keep : nat) : result value :=
  if truthy v then
    let* len := get v "length" in
    let* longer := gt len limit in
    if longer then
      match v with
      | VStr s => Ok (VStr (substring s 0 keep ++ lit "..."))
      | _ => Throw (EngineError (lit "sanitized." ++ lit field
                                 ++ lit ".substring is not a function"))
      end
    else Ok v
  else Ok v.

(** [validateAndSanitizeAnalysis(analysis, fileName)]; [fileName] is only
    logged. *)
Definition validateAndSanitizeAnalysis (analysis : value)
    (fileName : jsstring) : result value :=
  let* name := get analysis "name" in
  let* email := get analysis "email" in
  let* phone := get analysis "phone" in
  let* linkedin_url := get analysis "linkedin_url" in
  let* portfolio_url := get analysis "portfolio_url" in
  let* summary := get analysis "summary" in
  let* work_experience := get analysis "work_experience" in
  let* education := get analysis "education" in
  let* technical_skills := get analysis "technical_skills" in
  let* soft_skills := get analysis "soft_skills" in
  let* projects := get analysis "projects" in
  let* certifications := get analysis "certifications" in
  let* resume_rating := get analysis "resume_rating" in
  let* resume_rating' := validateRating resume_rating in
  let* improvement_areas := get analysis "improvement_areas" in
  let* upskill_suggestions := get analysis "upskill_suggestions" in
  let* work_experience' := mapM sanitize_work (array_or_empty work_experience) in
  let* education' := mapM sanitize_education (array_or_empty education) in
  let* projects' := mapM sanitize_project (array_or_empty projects) in
  let* certifications' :=
    mapM sanitize_certification (array_or_empty certifications) in
  let* summary' := truncate "summary" (or_else summary VNull) 1000 997 in
  let* improvement_areas' :=
    truncate "improvement_areas"
      (or_else improvement_areas
         (str "No specific improvement areas identified.")) 2000 1997 in
  Ok (VObj
    [ (lit "name", or_else name VNull);
      (lit "email", or_else email VNull);
      (lit "phone", or_else phone VNull);
      (lit "linkedin_url", or_else linkedin_url VNull);
      (lit "portfolio_url", or_else portfolio_url VNull);
      (lit "summary", summary');
      (lit "work_experience", VArr work_experience');
      (lit "education", VArr education');
      (lit "technical_skills", VArr (array_or_empty technical_skills));
      (lit "soft_skills", VArr (array_or_empty soft_skills));
      (lit "projects", VArr projects');
      (lit "certifications", VArr certifications');
      (lit "resume_rating", VNum (number_of_Z resume_rating'));
      (lit "improvement_areas", improvement_areas');
      (lit "upskill_suggestions", VArr (array_or_empty upskill_suggestions)) ]).

End Sanitizer.

(** [v.k] on the result of the sanitizer (or any object). *)
Definition field (k : String.string) (v : value) : option value :=
  match v with
  | VObj kv => lookup (lit k) kv
  | _ => None
  end.

(** The object the sanitizer returns, from its parts. *)
Definition sanitized (name email phone linkedin_url portfolio_url summary
    : value) (work_experience education technical_skills soft_skills projects
    certifications : list value) (resume_rating : Z) (improvement_areas : value)
    (upskill_suggestions : list value) : value :=
  VObj
    [ (lit "name", name);
      (lit "email", email);
      (lit "phone", phone);
      (lit "linkedin_url", linkedin_url);
      (lit "portfolio_url", portfolio_url);
      (lit "summary", summary);
      (lit "work_experience", VArr work_experience);
      (lit "education", VArr education);
      (lit "technical_skills", VArr technical_skills);
      (lit "soft_skills", VArr soft_skills);
      (lit "projects", VArr projects);
      (lit "certifications", VArr certifications);
      (lit "resume_rating", VNum (number_of_Z resume_rating));
      (lit "improvement_areas", improvement_areas);
      (lit "upskill_suggestions", VArr upskill_suggestions) ].

(* ================================================================== *)
(** ** services/analysisService.js: the pipeline *)

(** What the collaborators answer during one request: whether
    [process.env.GOOGLE_API_KEY] is set, [pdf(buffer)] (the extracted
    [data.text], or the error it throws), [model.generateContent(prompt)]
    (the text of the response, or the error it throws), and the clock. *)
Record world : Type := mkWorld {
  GOOGLE_API_KEY : bool;
  pdf : list N -> result jsstring;
  generateContent : jsstring -> result jsstring;
  toISOString : jsstring;
  CURRENT_TIMESTAMP : Z
}.

(** [try { body } catch (error) { handler }] *)
Definition try_catch {A} (body : result A) (handler : error -> result A)
    : result A :=
  match body with
  | Ok a => Ok a
  | Throw e => handler e
  end.

Definition msg_includes (e : error) (p : String.string) : bool :=
  includes (message e) (lit p).

(** [extractTextFromPDF(pdfBuffer, fileName)] *)
Definition extractTextFromPDF (w : world) (pdfBuffer : list N)
    (fileName : jsstring) : result jsstring :=
  try_catch
    (let* extractedText := pdf w pdfBuffer in
     if negb (truthy (VStr extractedText))
        || (length (trim extractedText) =? 0)%nat then
       Throw (AppError "PDF appears to be empty or contains only images. Please upload a PDF with text content." 400)
     else if (length (trim extractedText) <? 50)%nat then
       Throw (AppError "PDF contains very little text content. Please ensure the PDF is a proper resume document." 400)
     else Ok extractedText)
    (fun error =>
       if instanceof_AppError error then Throw error
       else if msg_includes error "Invalid PDF" then
         Throw (AppError "Invalid PDF file format. Please upload a valid PDF document." 400)
       else if msg_includes error "password"
               || msg_includes error "encrypted" then
         Throw (AppError "PDF is password protected or encrypted. Please upload an unprotected PDF." 400)
       else if msg_includes error "damaged"
               || msg_includes error "corrupted" then
         Throw (AppError "PDF file appears to be corrupted. Please try uploading a different file." 400)
       else
         Throw (AppError "PDF parsing failed. Please ensure the file is a valid PDF document." 400)).

(** The text of the prompt template before and after the resume text. *)
Definition dq : jsstring := [34%N].
Definition nl : jsstring := [10%N].

Definition prompt_head : jsstring :=
  nl
  ++ lit "You are an expert technical recruiter and career coach with 10+ years of experience. Analyze the following resume text and extract information into a valid JSON object." ++ nl
  ++ nl
  ++ lit "IMPORTANT INSTRUCTIONS:" ++ nl
  ++ lit "1. Return ONLY a valid JSON object - no markdown, no explanations, no additional text" ++ nl
  ++ lit "2. If information is not available, use null for strings/objects and empty arrays [] for arrays" ++ nl
  ++ lit "3. Be thorough but concise in your analysis" ++ nl
  ++ lit "4. For rating, consider: formatting, content quality, skills relevance, experience clarity, achievements quantification" ++ nl
  ++ lit "5. Provide actionable improvement suggestions" ++ nl
  ++ nl
  ++ lit "Resume Text:" ++ nl
  ++ dq ++ dq ++ dq ++ nl.

Definition prompt_tail : jsstring :=
  nl
  ++ dq ++ dq ++ dq ++ nl
  ++ nl
  ++ lit "Return a JSON object with this EXACT structure:" ++ nl
  ++ nl
  ++ lit "{" ++ nl
  ++ lit "  " ++ dq ++ lit "name" ++ dq ++ lit ": " ++ dq ++ lit "Full name from resume or null" ++ dq ++ lit "," ++ nl
  ++ lit "  " ++ dq ++ lit "email" ++ dq ++ lit ": " ++ dq ++ lit "Email address or null" ++ dq ++ lit ", " ++ nl
  ++ lit "  " ++ dq ++ lit "phone" ++ dq ++ lit ": " ++ dq ++ lit "Phone number or null" ++ dq ++ lit "," ++ nl
  ++ lit "  " ++ dq ++ lit "linkedin_url" ++ dq ++ lit ": " ++ dq ++ lit "LinkedIn profile URL or null" ++ dq ++ lit "," ++ nl
  ++ lit "  " ++ dq ++ lit "portfolio_url" ++ dq ++ lit ": " ++ dq ++ lit "Portfolio/website URL or null" ++ dq ++ lit "," ++ nl
  ++ lit "  " ++ dq ++ lit "summary" ++ dq ++ lit ": " ++ dq ++ lit "Professional summary/objective or null" ++ dq ++ lit "," ++ nl
  ++ lit "  " ++ dq ++ lit "work_experience" ++ dq ++ lit ": [" ++ nl
  ++ lit "    {" ++ nl
  ++ lit "      " ++ dq ++ lit "role" ++ dq ++ lit ": " ++ dq ++ lit "Job title" ++ dq ++ lit "," ++ nl
  ++ lit "      " ++ dq ++ lit "company" ++ dq ++ lit ": " ++ dq ++ lit "Company name" ++ dq ++ lit ", " ++ nl
  ++ lit "      " ++ dq ++ lit "duration" ++ dq ++ lit ": " ++ dq ++ lit "Employment duration (e.g., 'Jan 2020 - Present')" ++ dq ++ lit "," ++ nl
  ++ lit "      " ++ dq ++ lit "description" ++ dq ++ lit ": [" ++ dq ++ lit "Key responsibility 1" ++ dq ++ lit ", " ++ dq ++ lit "Achievement 2" ++ dq ++ lit ", " ++ dq ++ lit "Task 3" ++ dq ++ lit "]" ++ nl
  ++ lit "    }" ++ nl
  ++ lit "  ]," ++ nl
  ++ lit "  " ++ dq ++ lit "education" ++ dq ++ lit ": [" ++ nl
  ++ lit "    {" ++ nl
  ++ lit "      " ++ dq ++ lit "degree" ++ dq ++ lit ": " ++ dq ++ lit "Degree name and field" ++ dq ++ lit "," ++ nl
  ++ lit "      " ++ dq ++ lit "institution" ++ dq ++ lit ": " ++ dq ++ lit "University/College name" ++ dq ++ lit "," ++ nl
  ++ lit "      " ++ dq ++ lit "graduation_year" ++ dq ++ lit ": " ++ dq ++ lit "Year or expected year" ++ dq ++ nl
  ++ lit "    }" ++ nl
  ++ lit "  ]," ++ nl
  ++ lit "  " ++ dq ++ lit "technical_skills" ++ dq ++ lit ": [" ++ dq ++ lit "skill1" ++ dq ++ lit ", " ++ dq ++ lit "skill2" ++ dq ++ lit ", " ++ dq ++ lit "skill3" ++ dq ++ lit "]," ++ nl
  ++ lit "  " ++ dq ++ lit "soft_skills" ++ dq ++ lit ": [" ++ dq ++ lit "skill1" ++ dq ++ lit ", " ++ dq ++ lit "skill2" ++ dq ++ lit ", " ++ dq ++ lit "skill3" ++ dq ++ lit "]," ++ nl
  ++ lit "  " ++ dq ++ lit "projects" ++ dq ++ lit ": [" ++ nl
  ++ lit "    {" ++ nl
  ++ lit "      " ++ dq ++ lit "name" ++ dq ++ lit ": " ++ dq ++ lit "Project name" ++ dq ++ lit "," ++ nl
  ++ lit "      " ++ dq ++ lit "description" ++ dq ++ lit ": " ++ dq ++ lit "Brief project description" ++ dq ++ lit "," ++ nl
  ++ lit "      " ++ dq ++ lit "technologies" ++ dq ++ lit ": [" ++ dq ++ lit "tech1" ++ dq ++ lit ", " ++ dq ++ lit "tech2" ++ dq ++ lit "]" ++ nl
  ++ lit "    }" ++ nl
  ++ lit "  ]," ++ nl
  ++ lit "  " ++ dq ++ lit "certifications" ++ dq ++ lit ": [" ++ nl
  ++ lit "    {" ++ nl
  ++ lit "      " ++ dq ++ lit "name" ++ dq ++ lit ": " ++ dq ++ lit "Certification name" ++ dq ++ lit "," ++ nl
  ++ lit "      " ++ dq ++ lit "issuer" ++ dq ++ lit ": " ++ dq ++ lit "Issuing organization" ++ dq ++ lit "," ++ nl
  ++ lit "      " ++ dq ++ lit "year" ++ dq ++ lit ": " ++ dq ++ lit "Year obtained" ++ dq ++ nl
  ++ lit "    }" ++ nl
  ++ lit "  ]," ++ nl
  ++ lit "  " ++ dq ++ lit "resume_rating" ++ dq ++ lit ": 7," ++ nl
  ++ lit "  " ++ dq ++ lit "improvement_areas" ++ dq ++ lit ": " ++ dq ++ lit "Specific areas for improvement with actionable advice. Include suggestions for better formatting, missing sections, weak descriptions, lack of quantified achievements, etc." ++ dq ++ lit "," ++ nl
  ++ lit "  " ++ dq ++ lit "upskill_suggestions" ++ dq ++ lit ": [" ++ dq ++ lit "skill1 to learn" ++ dq ++ lit ", " ++ dq ++ lit "technology2 to master" ++ dq ++ lit ", " ++ dq ++ lit "certification3 to pursue" ++ dq ++ lit "]" ++ nl
  ++ lit "}" ++ nl
  ++ nl
  ++ lit "Remember: Return ONLY the JSON object, nothing else." ++ nl.

(** [createAnalysisPrompt(resumeText)] *)
Definition createAnalysisPrompt (resumeText : jsstring) : jsstring :=
  prompt_head ++ resumeText ++ prompt_tail.

(** [s.replace(/pat\n?/g, '')]: every occurrence of [pat], with the newline
    that may follow it, is removed, left to right; [skip] counts the
    characters of the current occurrence still to drop. *)
Fixpoint remove_fence (pat s : jsstring) (skip : nat) : jsstring :=
  match s with
  | [] => []
  | c :: s' =>
      match skip with
      | S k => remove_fence pat s' k
      | O =>
          if starts_with pat s then
            let newline :=
              match skipn (length pat) s with
              | 10%N :: _ => 1%nat
              | _ => 0%nat
              end in
            remove_fence pat s' (length pat - 1 + newline)
          else c :: remove_fence pat s' 0
      end
  end.

Definition code_is (e : error) (c : String.string) : bool :=
  match code e with
  | Some c' => jsstring_eqb c' (lit c)
  | None => false
  end.

Section Service.
Context {engine : Engine}.

(** [analyzeWithAI(resumeText, fileName)] *)
Definition analyzeWithAI (w : world) (resumeText fileName : jsstring)
    : result value :=
  try_catch
    (if negb (GOOGLE_API_KEY w) then
       Throw (AppError "Google AI API key not configured. Please contact support." 500)
     else
       let prompt := createAnalysisPrompt resumeText in
       let* aiResponse := generateContent w prompt in
       let cleanResponse := trim aiResponse in
       let cleanResponse :=
         remove_fence (lit "```")
           (remove_fence (lit "```json") cleanResponse 0) 0 in
       match indexOf cleanResponse 123, lastIndexOf cleanResponse 125 with
       | Some firstBrace, Some lastBrace =>
           let cleanResponse :=
             substring cleanResponse firstBrace (lastBrace + 1) in
           let* analysisResult :=
             try_catch (JSON_parse cleanResponse)
               (fun parseError =>
                  Throw (AppError "AI returned invalid JSON format. Please try again." 500)) in
           validateAndSanitizeAnalysis analysisResult fileName
       | _, _ =>
           Throw (AppError "AI did not return a valid JSON response." 500)
       end)
    (fun error =>
       if instanceof_AppError error then Throw error
       else if msg_includes error "API key" then
         Throw (AppError "AI service configuration error. Please contact support." 500)
       else if msg_includes error "quota"
               || msg_includes error "QUOTA_EXCEEDED" then
         Throw (AppError "AI service temporarily unavailable due to usage limits. Please try again later." 503)
       else if msg_includes error "RATE_LIMIT" then
         Throw (AppError "Too many requests. Please wait a moment and try again." 429)
       else if msg_includes error "timeout" || code_is error "ECONNRESET" then
         Throw (AppError "AI analysis is taking longer than expected. Please try again." 408)
       else
         Throw (AppError "AI analysis service is temporarily unavailable. Please try again later." 503)).

(** [obj.k = v]: replaces the property or adds it at the end. *)
Fixpoint set_key (k : jsstring) (v : value) (kv : list (jsstring * value))
    : list (jsstring * value) :=
  match kv with
  | [] => [(k, v)]
  | (k', v') :: r =>
      if jsstring_eqb k k' then (k, v) :: r else (k', v') :: set_key k v r
  end.

Definition set (obj : value) (k : String.string) (v : value) : value :=
  match obj with
  | VObj kv => VObj (set_key (lit k) v kv)
  | _ => obj
  end.

(** [analyzeResume(pdfBuffer, fileName)]; its [catch] rethrows. *)
Definition analyzeResume (w : world) (pdfBuffer : list N)
    (fileName : jsstring) : result value :=
  let* extractedText := extractTextFromPDF w pdfBuffer fileName in
  let* analysisResult := analyzeWithAI w extractedText fileName in
  let analysisResult :=
    set analysisResult "processed_at" (VStr (toISOString w)) in
  let analysisResult := set analysisResult "file_name" (VStr fileName) in
  let analysisResult :=
    set analysisResult "text_length"
      (VNum (number_of_nat (length extractedText))) in
  Ok analysisResult.

End Service.

(* ================================================================== *)
(** ** db/index.js: the [resumes] table *)

(** A row of [resumes], in the column order of CREATE TABLE.  [J] is what a
    JSONB column holds: on the server's side the text the server prints for
    it (or NULL), on the program's side a JavaScript value, because the
    driver ([pg]) parses every json and jsonb column of the rows it
    returns. *)
Module Row.
Record t (J : Type) : Type := mk {
  id : Z;
  file_name : option jsstring;
  uploaded_at : Z;
  name : option jsstring;
  email : option jsstring;
  phone : option jsstring;
  linkedin_url : option jsstring;
  portfolio_url : option jsstring;
  summary : option jsstring;
  work_experience : J;
  education : J;
  technical_skills : J;
  soft_skills : J;
  projects : J;
  certifications : J;
  resume_rating : option Z;
  improvement_areas : option jsstring;
  upskill_suggestions : J;
  created_at : Z;
  updated_at : Z
}.
End Row.

(** A JSONB value on the server's side, by the text that the server prints
    for it and sends to the driver. *)
Definition jsonb : Type := jsstring.

(** [stored] is a row as the server keeps and sends it, [resume] a row as
    [pool.query] hands it to the program ([result.rows[0]]). *)
Definition stored : Type := Row.t (option jsonb).
Definition resume : Type := Row.t value.

(** The table, and the next value of the sequence behind [id SERIAL]. *)
Record database : Type := mkDatabase {
  rows : list stored;
  next_id : Z
}.

(** What the database server and its driver decide, left open here: the
    text sent for a parameter that is neither null nor a string; the text
    the server prints for a JSONB column written with a given text; the
    checks on a new row other than the primary key (column lengths, NOT
    NULL, the rating CHECK, well-formed JSON, a NUL character in a text);
    how a text parameter is read where an integer is expected; the text of
    AVG over a non-empty column. *)
Class Postgres : Type := {
  param_text : value -> jsstring;
  json_out : jsstring -> jsonb;
  constraint_violation : stored -> option error;
  integer_in : jsstring -> result Z;
  avg_text : list Z -> jsstring
}.

(** The error of a duplicate primary key. *)
Definition unique_violation : error :=
  mkError
    (lit "duplicate key value violates unique constraint "
     ++ dq ++ lit "resumes_pkey" ++ dq)
    (Some (lit "23505")) None.

Definition bind_error : error :=
  mkError (lit "bind message supplies the wrong number of parameters")
    (Some (lit "08P01")) None.

(** Text on the server's side (a database in UTF8) is a sequence of
    characters, not of UTF-16 code units: a high surrogate followed by a low
    one is one character. *)
Definition is_high_surrogate (c : N) : bool :=
  ((55296 <=? c) && (c <=? 56319))%N.

Definition is_low_surrogate (c : N) : bool :=
  ((56320 <=? c) && (c <=? 57343))%N.

Fixpoint characters (s : jsstring) : list jsstring :=
  match s with
  | [] => []
  | h :: s' =>
      match s' with
      | l :: s'' =>
          if is_high_surrogate h && is_low_surrogate l
          then [h; l] :: characters s''
          else [h] :: characters s'
      | [] => [[h]]
      end
  end.

(** The driver writes a string parameter in UTF-8, where a surrogate
    without its pair becomes U+FFFD. *)
Fixpoint toWellFormed (s : jsstring) : jsstring :=
  match s with
  | [] => []
  | h :: s' =>
      match s' with
      | l :: s'' =>
          if is_high_surrogate h && is_low_surrogate l
          then h :: l :: toWellFormed s''
          else (if is_high_surrogate h || is_low_surrogate h
                then 65533%N else h) :: toWellFormed s'
      | [] =>
          [if is_high_surrogate h || is_low_surrogate h then 65533%N else h]
      end
  end.

(** How PostgreSQL reads a text as an [integer] (int4, the type of [id
    SERIAL] and of [resume_rating]), in its decimal form: white space, an
    optional sign, decimal digits, white space, and nothing else (error
    22P02); the value must fit in 32 bits (error 22003).  (From version 16
    on the server also reads the prefixes 0x, 0o and 0b and underscores
    between digits.) *)
Definition is_space (c : N) : bool :=
  existsb (N.eqb c) [32; 9; 10; 11; 12; 13]%N.

Fixpoint skip_spaces (s : jsstring) : jsstring :=
  match s with
  | c :: s' => if is_space c then skip_spaces s' else s
  | [] => []
  end.

Fixpoint decimal_digits (s : jsstring) (acc : N) : N * jsstring :=
  match s with
  | c :: s' =>
      if ((48 <=? c) && (c <=? 57))%N
      then decimal_digits s' (10 * acc + (c - 48))%N
      else (acc, s)
  | [] => (acc, [])
  end.

Definition invalid_integer (s : jsstring) : error :=
  mkError (lit "invalid input syntax for type integer: " ++ dq ++ s ++ dq)
    (Some (lit "22P02")) None.

Definition integer_out_of_range (s : jsstring) : error :=
  mkError (lit "value " ++ dq ++ s ++ dq
           ++ lit " is out of range for type integer")
    (Some (lit "22003")) None.

Definition int4in (s : jsstring) : result Z :=
  let s1 := skip_spaces s in
  let '(neg, s2) :=
    match s1 with
    | 45%N :: r => (true, r)
    | 43%N :: r => (false, r)
    | _ => (false, s1)
    end in
  match s2 with
  | c :: _ =>
      if ((48 <=? c) && (c <=? 57))%N then
        let '(n, rest) := decimal_digits s2 0 in
        match skip_spaces rest with
        | [] =>
            let z := if neg then - Z.of_N n else Z.of_N n in
            if (- 2 ^ 31 <=? z) && (z <? 2 ^ 31) then Ok z
            else Throw (integer_out_of_range s)
        | _ :: _ => Throw (invalid_integer s)
        end
      else Throw (invalid_integer s)
  | [] => Throw (invalid_integer s)
  end.

Section Storage.
Context {postgres : Postgres}.

(** A query parameter as the driver sends it; [None] is NULL. *)
Definition param (v : option value) : option jsstring :=
  match v with
  | None => None
  | Some VNull => None
  | Some (VStr s) => Some (toWellFormed s)
  | Some v => Some (param_text v)
  end.

Definition integer_param (p : option jsstring) : result (option Z) :=
  match p with
  | None => Ok None
  | Some t => let* n := integer_in t in Ok (Some n)
  end.

(** [INSERT INTO resumes (file_name, name, email, phone, linkedin_url,
    portfolio_url, summary, work_experience, education, technical_skills,
    soft_skills, projects, certifications, resume_rating, improvement_areas,
    upskill_suggestions) VALUES ($1, ..., $16) RETURNING *]: the parameters
    fill the named columns in order, [id] comes from the sequence and the
    three timestamps default to the current time. *)
Definition insert_resume (db : database) (now : Z)
    (values : list (option jsstring)) : result stored * database :=
  match values with
  | [ file_name; name; email; phone; linkedin_url; portfolio_url; summary;
      work_experience; education; technical_skills; soft_skills; projects;
      certifications; resume_rating; improvement_areas;
      upskill_suggestions ] =>
      match integer_param resume_rating with
      | Throw e => (Throw e, db)
      | Ok rating =>
          let r : stored :=
            Row.mk (next_id db) file_name now name email phone linkedin_url
              portfolio_url summary
              (option_map json_out work_experience)
              (option_map json_out education)
              (option_map json_out technical_skills)
              (option_map json_out soft_skills)
              (option_map json_out projects)
              (option_map json_out certifications)
              rating improvement_areas
              (option_map json_out upskill_suggestions)
              now now in
          let used := mkDatabase (rows db) (next_id db + 1) in
          match constraint_violation r with
          | Some e => (Throw e, used)
          | None =>
              if existsb (fun x => Row.id x =? next_id db) (rows db)
              then (Throw unique_violation, used)
              else (Ok r, mkDatabase (rows db ++ [r]) (next_id db + 1))
          end
      end
  | _ => (Throw bind_error, db)
  end.

(** [SELECT * FROM resumes WHERE id = $1]; the id of a request is sent as
    it is (a decoded path parameter has no surrogate without its pair). *)
Definition select_by_id (db : database) (id : jsstring)
    : result (list stored) :=
  let* n := integer_in id in
  Ok (filter (fun r => Row.id r =? n) (rows db)).

(** [DELETE FROM resumes WHERE id = $1 RETURNING id, file_name] *)
Definition delete_by_id (db : database) (id : jsstring)
    : result (list (Z * option jsstring)) * database :=
  match integer_in id with
  | Throw e => (Throw e, db)
  | Ok n =>
      (Ok (map (fun r => (Row.id r, Row.file_name r))
             (filter (fun r => Row.id r =? n) (rows db))),
       mkDatabase (filter (fun r => negb (Row.id r =? n)) (rows db))
         (next_id db))
  end.

(** The row of the list query. *)
Record summary_row : Type := mkSummary {
  s_id : Z;
  s_file_name : option jsstring;
  s_uploaded_at : Z;
  s_name : option jsstring;
  s_email : option jsstring;
  s_resume_rating : option Z;
  improvement_summary : option jsstring
}.

(** [CASE WHEN LENGTH(improvement_areas) > 100
         THEN SUBSTRING(improvement_areas FROM 1 FOR 100) || '...'
         ELSE improvement_areas END]: LENGTH and SUBSTRING count
    characters. *)
Definition preview (improvement_areas : option jsstring) : option jsstring :=
  match improvement_areas with
  | Some s =>
      if (100 <? length (characters s))%nat
      then Some (concat (firstn 100 (characters s)) ++ lit "...")
      else Some s
  | None => None
  end.

Definition summary_of (r : stored) : summary_row :=
  mkSummary (Row.id r) (Row.file_name r) (Row.uploaded_at r) (Row.name r)
    (Row.email r) (Row.resume_rating r) (preview (Row.improvement_areas r)).

(** [ORDER BY uploaded_at DESC], as an insertion sort (rows with equal
    times stay in table order). *)
Fixpoint insert_desc (r : stored) (l : list stored) : list stored :=
  match l with
  | [] => [r]
  | x :: l' =>
      if Row.uploaded_at x <? Row.uploaded_at r then r :: l
      else x :: insert_desc r l'
  end.

Definition order_by_uploaded_at_desc (l : list stored) : list stored :=
  fold_right insert_desc [] l.

(** [SELECT id, file_name, uploaded_at, name, email, resume_rating, CASE ...
    END as improvement_summary FROM resumes ORDER BY uploaded_at DESC] *)
Definition select_summaries (db : database) : list summary_row :=
  map summary_of (order_by_uploaded_at_desc (rows db)).

(** The row of the statistics query, as the driver returns it: counts
    (bigint) as text, the average (numeric) as text or NULL, the extremes
    (integer) as numbers or NULL. *)
Record stats_row : Type := mkStatsRow {
  q_total_resumes : jsstring;
  q_avg_rating : option jsstring;
  q_max_rating : option Z;
  q_min_rating : option Z;
  q_high_rated_count : jsstring;
  q_medium_rated_count : jsstring;
  q_low_rated_count : jsstring
}.

(** The non-NULL ratings of the table. *)
Definition ratings (db : database) : list Z :=
  flat_map (fun r => match Row.resume_rating r with
                     | Some z => [z]
                     | None => []
                     end) (rows db).

Definition count_text (p : Z -> bool) (l : list Z) : jsstring :=
  decimal (N.of_nat (length (filter p l))).

Definition extreme (pick : Z -> Z -> Z) (l : list Z) : option Z :=
  match l with
  | [] => None
  | z :: l' => Some (fold_left pick l' z)
  end.

(** [SELECT COUNT( * ), AVG(resume_rating), MAX(resume_rating),
    MIN(resume_rating), COUNT(CASE WHEN resume_rating >= 8 THEN 1 END),
    COUNT(CASE WHEN resume_rating BETWEEN 5 AND 7 THEN 1 END),
    COUNT(CASE WHEN resume_rating < 5 THEN 1 END) FROM resumes]: one row,
    also for an empty table, where the aggregates other than COUNT are
    NULL. *)
Definition select_stats (db : database) : stats_row :=
  let rs := ratings db in
  mkStatsRow
    (decimal (N.of_nat (length (rows db))))
    (match rs with [] => None | _ => Some (avg_text rs) end)
    (extreme Z.max rs)
    (extreme Z.min rs)
    (count_text (fun z => 8 <=? z) rs)
    (count_text (fun z => (5 <=? z) && (z <=? 7)) rs)
    (count_text (fun z => z <? 5) rs).

End Storage.

(* ================================================================== *)
(** ** routes/resumeRoutes.js and controllers/resumeController.js *)

(** [validateResumeId]: the error passed to [next], or [None] when the
    request goes on to the controller. *)
Definition validateResumeId (id : jsstring) : option error :=
  if negb (truthy (VStr id)) then Some (AppError "Resume ID is required." 400)
  else
    match parseInt_string id with
    | None =>
        Some (AppError "Invalid resume ID. ID must be a positive number." 400)
    | Some n =>
        if n <=? 0 then
          Some (AppError "Invalid resume ID. ID must be a positive number." 400)
        else None
    end.

(** [req.file] *)
Record file : Type := mkFile {
  mimetype : jsstring;
  size : Z;
  originalname : jsstring;
  buffer : list N
}.

(** The statistics the controller sends: [None] is the NaN of [parseInt]. *)
Record stats : Type := mkStats {
  total_resumes : option Z;
  avg_rating : number;
  max_rating : option Z;
  min_rating : option Z;
  high_rated_count : option Z;
  medium_rated_count : option Z;
  low_rated_count : option Z
}.

Inductive payload : Type :=
| Resume (r : resume)
| Summaries (l : list summary_row)
| Deleted (id : Z) (file_name : option jsstring)
| Statistics (s : stats).

(** [res.status(status).json({ success, message, data, count })] *)
Module Res.
Record t : Type := mk {
  status : Z;
  success : bool;
  message : jsstring;
  data : option payload;
  count : option nat
}.
End Res.

Definition respond (status : Z) (success : bool) (msg : String.string)
    : Res.t :=
  Res.mk status success (lit msg) None None.

(** The [catch] of [uploadResume]. *)
Definition uploadResume_catch (error : error) : Res.t :=
  if msg_includes error "PDF parsing failed" then
    respond 400 false "Unable to process PDF file. Please ensure it's a valid, non-encrypted PDF."
  else if msg_includes error "AI analysis failed" then
    respond 500 false "AI analysis service is temporarily unavailable. Please try again later."
  else if code_is error "23505" then
    respond 400 false "A resume with this name already exists."
  else
    respond 500 false "An error occurred while processing your resume. Please try again.".

(** Whether a string starts a decimal literal that [parseFloat] reads: after
    a sign, a digit, a point before a digit, or [Infinity]. *)
Definition is_digit (c : N) : bool := ((48 <=? c) && (c <=? 57))%N.

Definition starts_decimal (s : jsstring) : bool :=
  let s := match s with
           | 43%N :: r => r
           | 45%N :: r => r
           | _ => s
           end in
  match s with
  | 46%N :: c :: _ => is_digit c
  | c :: _ => is_digit c || starts_with (lit "Infinity") s
  | [] => false
  end.

Section Controller.
Context {engine : Engine} {postgres : Postgres}.

(** [JSON.stringify(x)]; [undefined] stays [undefined]. *)
Definition stringify (x : option value) : option value :=
  match x with
  | Some v => Some (VStr (JSON_stringify v))
  | None => None
  end.

(** The [values] array of [uploadResume]. *)
Definition upload_values (f : file) (analysisResult : value)
    : result (list (option value)) :=
  let* name := get analysisResult "name" in
  let* email := get analysisResult "email" in
  let* phone := get analysisResult "phone" in
  let* linkedin_url := get analysisResult "linkedin_url" in
  let* portfolio_url := get analysisResult "portfolio_url" in
  let* summary := get analysisResult "summary" in
  let* work_experience := get analysisResult "work_experience" in
  let* education := get analysisResult "education" in
  let* technical_skills := get analysisResult "technical_skills" in
  let* soft_skills := get analysisResult "soft_skills" in
  let* projects := get analysisResult "projects" in
  let* certifications := get analysisResult "certifications" in
  let* resume_rating := get analysisResult "resume_rating" in
  let* improvement_areas := get analysisResult "improvement_areas" in
  let* upskill_suggestions := get analysisResult "upskill_suggestions" in
  Ok [ Some (VStr (originalname f));
       name; email; phone; linkedin_url; portfolio_url; summary;
       stringify work_experience;
       stringify education;
       stringify technical_skills;
       stringify soft_skills;
       stringify (Some (or_else projects (VArr [])));
       stringify (Some (or_else certifications (VArr [])));
       resume_rating;
       improvement_areas;
       stringify upskill_suggestions ].

(** The driver's parser for a json or jsonb column ([pg-types]):
    [JSON.parse] of the text the server sent, [null] for NULL. *)
Definition json_column (column : option jsonb) : result value :=
  match column with
  | Some text => JSON_parse text
  | None => Ok VNull
  end.

(** A row as [pool.query] returns it: the seven JSONB columns parsed. *)
Definition driver_row (r : stored) : result resume :=
  let* work_experience := json_column (Row.work_experience r) in
  let* education := json_column (Row.education r) in
  let* technical_skills := json_column (Row.technical_skills r) in
  let* soft_skills := json_column (Row.soft_skills r) in
  let* projects := json_column (Row.projects r) in
  let* certifications := json_column (Row.certifications r) in
  let* upskill_suggestions := json_column (Row.upskill_suggestions r) in
  Ok (Row.mk (Row.id r) (Row.file_name r) (Row.uploaded_at r) (Row.name r)
        (Row.email r) (Row.phone r) (Row.linkedin_url r)
        (Row.portfolio_url r) (Row.summary r)
        work_experience education technical_skills soft_skills projects
        certifications
        (Row.resume_rating r) (Row.improvement_areas r)
        upskill_suggestions
        (Row.created_at r) (Row.updated_at r)).

(** [JSON.parse(column || '[]')] on a column of such a row: the column is a
    value already, and [JSON.parse] converts its argument to a string
    first. *)
Definition parse_column (column : value) : result value :=
  let* text := ToString (or_else (Some column) (str "[]")) in
  JSON_parse text.

(** The seven [JSON.parse] assignments on a row that was read. *)
Definition parse_lists (r : resume) : result resume :=
  let* work_experience := parse_column (Row.work_experience r) in
  let* education := parse_column (Row.education r) in
  let* technical_skills := parse_column (Row.technical_skills r) in
  let* soft_skills := parse_column (Row.soft_skills r) in
  let* projects := parse_column (Row.projects r) in
  let* certifications := parse_column (Row.certifications r) in
  let* upskill_suggestions := parse_column (Row.upskill_suggestions r) in
  Ok (Row.mk (Row.id r) (Row.file_name r) (Row.uploaded_at r) (Row.name r)
        (Row.email r) (Row.phone r) (Row.linkedin_url r)
        (Row.portfolio_url r) (Row.summary r)
        work_experience education technical_skills soft_skills projects
        certifications
        (Row.resume_rating r) (Row.improvement_areas r)
        upskill_suggestions
        (Row.created_at r) (Row.updated_at r)).

(** [uploadResume(req, res)]: the response and the table afterwards. *)
Definition uploadResume (db : database) (w : world) (req_file : option file)
    : Res.t * database :=
  match req_file with
  | None => (respond 400 false "No file uploaded. Please select a PDF file.", db)
  | Some f =>
      if negb (jsstring_eqb (mimetype f) (lit "application/pdf")) then
        (respond 400 false "Only PDF files are allowed.", db)
      else if 5 * 1024 * 1024 <? size f then
        (respond 400 false "File size too large. Maximum size allowed is 5MB.", db)
      else
        match
          (let* analysisResult :=
             analyzeResume w (buffer f) (originalname f) in
           upload_values f analysisResult)
        with
        | Throw error => (uploadResume_catch error, db)
        | Ok values =>
            let '(result, db') :=
              insert_resume db (CURRENT_TIMESTAMP w) (map param values) in
            match (let* row := result in
                   let* savedResume := driver_row row in
                   parse_lists savedResume) with
            | Throw error => (uploadResume_catch error, db')
            | Ok savedResume =>
                (Res.mk 201 true
                   (lit "Resume uploaded and analyzed successfully!")
                   (Some (Resume savedResume)) None, db')
            end
        end
  end.

(** [getAllResumes(req, res)] *)
Definition getAllResumes (db : database) : Res.t :=
  let rows := select_summaries db in
  Res.mk 200 true (lit "Resumes retrieved successfully")
    (Some (Summaries rows)) (Some (length rows)).

(** [!id || isNaN(parseInt(id))] *)
Definition invalid_id (id : jsstring) : bool :=
  negb (truthy (VStr id)) ||
  match parseInt_string id with None => true | Some _ => false end.

(** [getResumeById(req, res)] with [req.params.id = id] *)
Definition getResumeById (db : database) (id : jsstring) : Res.t :=
  if invalid_id id then respond 400 false "Invalid resume ID provided."
  else
    match (let* rows := select_by_id db id in mapM driver_row rows) with
    | Throw error =>
        respond 500 false "An error occurred while fetching the resume."
    | Ok [] => respond 404 false "Resume not found."
    | Ok (resume :: _) =>
        match parse_lists resume with
        | Throw error =>
            respond 500 false "An error occurred while fetching the resume."
        | Ok resume =>
            Res.mk 200 true (lit "Resume retrieved successfully")
              (Some (Resume resume)) None
        end
    end.

(** [deleteResume(req, res)] with [req.params.id = id] *)
Definition deleteResume (db : database) (id : jsstring) : Res.t * database :=
  if invalid_id id then (respond 400 false "Invalid resume ID provided.", db)
  else
    match delete_by_id db id with
    | (Throw error, db') =>
        (respond 500 false "An error occurred while deleting the resume.", db')
    | (Ok [], db') => (respond 404 false "Resume not found.", db')
    | (Ok ((deleted_id, deleted_file_name) :: _), db') =>
        (Res.mk 200 true
           (lit "Resume " ++ dq
            ++ match deleted_file_name with
               | Some s => s
               | None => lit "null"
               end
            ++ dq ++ lit " deleted successfully")
           (Some (Deleted deleted_id deleted_file_name)) None, db')
    end.

(** [parseFloat(v)]: NaN unless the string form starts a decimal literal,
    which the engine then rounds to a double. *)
Definition parseFloat (v : option value) : result number :=
  let* inputString := ToString_opt v in
  let s := trimStart inputString in
  Ok (if starts_decimal s then round_literal s else NaN).

(** [x.toFixed(2)] *)
Definition toFixed2 (x : number) : jsstring :=
  match x with
  | NaN => lit "NaN"
  | _ => toFixed_2 x
  end.

Definition opt_str (s : option jsstring) : option value :=
  Some (match s with Some t => VStr t | None => VNull end).

Definition opt_int (z : option Z) : option value :=
  Some (match z with Some n => VNum (number_of_Z n) | None => VNull end).

(** [getResumeStats(req, res)] *)
Definition getResumeStats (db : database) : Res.t :=
  let stats := select_stats db in
  match
    (let* total_resumes := parseInt (Some (VStr (q_total_resumes stats))) in
     let* avg := parseFloat (opt_str (q_avg_rating stats)) in
     let* avg_rating := parseFloat (Some (VStr (toFixed2 avg))) in
     let* max_rating := parseInt (opt_int (q_max_rating stats)) in
     let* min_rating := parseInt (opt_int (q_min_rating stats)) in
     let* high_rated_count :=
       parseInt (Some (VStr (q_high_rated_count stats))) in
     let* medium_rated_count :=
       parseInt (Some (VStr (q_medium_rated_count stats))) in
     let* low_rated_count :=
       parseInt (Some (VStr (q_low_rated_count stats))) in
     Ok (mkStats total_resumes avg_rating max_rating min_rating
           high_rated_count medium_rated_count low_rated_count))
  with
  | Throw error =>
      respond 500 false "An error occurred while fetching resume statistics."
  | Ok stats =>
      Res.mk 200 true (lit "Resume statistics retrieved successfully")
        (Some (Statistics stats)) None
  end.

End Controller.

(* ================================================================== *)
(** ** Shapes and examples *)

(** The seven list-typed fields and the scalar fields of the analysis. *)
Definition list_fields : list String.string :=
  [ "work_experience"; "education"; "technical_skills"; "soft_skills";
    "projects"; "certifications"; "upskill_suggestions" ]%string.

Definition scalar_fields : list String.string :=
  [ "name"; "email"; "phone"; "linkedin_url"; "portfolio_url"; "summary";
    "improvement_areas" ]%string.

(** The shape the sanitizer promises: every field present, the list fields
    arrays, the rating an integer from 1 to 10. *)
Definition Analysis_schema (out : value) : Prop :=
  (forall k, In k scalar_fields -> exists v, field k out = Some v) /\
  (forall k, In k list_fields -> exists l, field k out = Some (VArr l)) /\
  (exists r, field "resume_rating" out = Some (VNum (number_of_Z r))
             /\ 1 <= r <= 10).

(** The shape of the records in the four lists of records: every field
    present, the nested lists arrays. *)
Definition work_item (v : value) : Prop :=
  exists role company duration description,
    v = VObj [ (lit "role", role); (lit "company", company);
               (lit "duration", duration);
               (lit "description", VArr description) ].

Definition education_item (v : value) : Prop :=
  exists degree institution graduation_year,
    v = VObj [ (lit "degree", degree); (lit "institution", institution);
               (lit "graduation_year", graduation_year) ].

Definition project_item (v : value) : Prop :=
  exists name description technologies,
    v = VObj [ (lit "name", name); (lit "description", description);
               (lit "technologies", VArr technologies) ].

Definition certification_item (v : value) : Prop :=
  exists name issuer year,
    v = VObj [ (lit "name", name); (lit "issuer", issuer);
               (lit "year", year) ].

Definition Analysis_items (out : value) : Prop :=
  (forall l, field "work_experience" out = Some (VArr l) ->
             Forall work_item l) /\
  (forall l, field "education" out = Some (VArr l) ->
             Forall education_item l) /\
  (forall l, field "projects" out = Some (VArr l) ->
             Forall project_item l) /\
  (forall l, field "certifications" out = Some (VArr l) ->
             Forall certification_item l).

(** The integer part of [m * 10^e], the same with its sign, and the clamp
    of a rating. *)
Definition integer_part (m : N) (e : Z) : Z :=
  if 0 <=? e then Z.of_N m * 10 ^ e else Z.of_N m / 10 ^ (- e).

Definition signed (neg : bool) (z : Z) : Z := if neg then - z else z.

Definition clamp (z : Z) : Z :=
  if z <? 1 then 1 else if 10 <? z then 10 else z.

(** The finite numbers that [Number::toString] prints without an exponent:
    zero and those from [1e-6] up to, not including, [1e21]. *)
Definition prints_plainly (m : N) (e : Z) : Prop :=
  -6 < Z.of_nat (length (digits m)) + e <= 21.

(** The number a list of decimal digits writes after the digits [acc]. *)
Definition digits_value (ds : list N) (acc : N) : N :=
  fold_left (fun a d => (10 * a + d)%N) ds acc.

(** Where [parseInt] stops reading: at the end or at a character that is
    not a decimal digit. *)
Definition stops (rest : jsstring) : Prop :=
  match rest with
  | [] => True
  | c :: _ => digit_value 10 c = None
  end.

(** The record [analyzeResume] returns: the sanitized object with its three
    annotations. *)
Definition annotated (sanitized : value) (processed_at file_name : jsstring)
    (text_length : nat) : value :=
  set (set (set sanitized "processed_at" (VStr processed_at))
         "file_name" (VStr file_name))
    "text_length" (VNum (number_of_nat text_length)).

(** Newest first: the order of the list endpoint, on its rows. *)
Definition newer_first (a b : summary_row) : Prop :=
  s_uploaded_at b <= s_uploaded_at a.

Definition stored_newer_first (a b : stored) : Prop :=
  Row.uploaded_at b <= Row.uploaded_at a.

(** A value that is not an array or an object (or is missing). *)
Definition plain (o : option value) : Prop :=
  match o with
  | Some (VArr _) | Some (VObj _) => False
  | _ => True
  end.

(** A field that is missing, [null] or a string. *)
Definition text_or_absent (o : option value) : Prop :=
  o = None \/ o = Some VNull \/ exists s, o = Some (VStr s).

(** [deleteResume] called [k] times in a row with the same id. *)
Section Repeat.
Context {engine : Engine} {postgres : Postgres}.

Fixpoint delete_times (k : nat) (db : database) (id : jsstring)
    : list Res.t * database :=
  match k with
  | O => ([], db)
  | S k' =>
      let '(r, db1) := deleteResume db id in
      let '(rs, db2) := delete_times k' db1 id in
      (r :: rs, db2)
  end.

(** What the program reads in a JSONB column that it wrote as
    [JSON.stringify(v)]. *)
Definition read_back (v : value) : result value :=
  JSON_parse (json_out (toWellFormed (JSON_stringify v))).

(** The server and the driver are faithful on the seven lists of an
    analysis: each list comes back as an array, and the records of
    [work_experience] come back as records (the server may reorder the
    keys of a record, and print its numbers differently). *)
Definition is_record (v : value) : Prop := exists kv, v = VObj kv.

Definition lists_come_back (a : value) : Prop :=
  (forall k v, In k list_fields -> field k a = Some v ->
     exists l, read_back v = Ok (VArr l)) /\
  (forall v l, field "work_experience" a = Some v ->
     read_back v = Ok (VArr l) -> Forall is_record l).

(** [JSON.parse] refuses a text that is not JSON with a SyntaxError, an
    error of the engine whose message describes the text; so it does with
    the empty text and with a text that starts [[object Object]]. *)
Definition not_JSON (s : jsstring) : bool :=
  match s with
  | [] => true
  | _ => starts_with (lit "[object Object]") s
  end.

Definition JSON_parse_refuses : Prop :=
  forall s, not_JSON s = true ->
    exists m, JSON_parse s = Throw (EngineError m) /\
              includes m (lit "PDF parsing failed") = false /\
              includes m (lit "AI analysis failed") = false.

(** An upload that stored its record. *)
Definition stores_record (db db' : database) : Prop :=
  exists r, rows db' = rows db ++ [r] /\ Row.id r = next_id db.

End Repeat.

(** Equality of values, to look a value up in a table. *)
Definition number_eqb (x y : number) : bool :=
  match x, y with
  | NaN, NaN => true
  | Infinity a, Infinity b => Bool.eqb a b
  | Finite a m e, Finite b m' e' => Bool.eqb a b && N.eqb m m' && Z.eqb e e'
  | _, _ => false
  end.

Fixpoint value_eqb (a b : value) : bool :=
  match a, b with
  | VNull, VNull => true
  | VBool x, VBool y => Bool.eqb x y
  | VNum x, VNum y => number_eqb x y
  | VStr s, VStr t => jsstring_eqb s t
  | VArr l, VArr m =>
      (fix all (l m : list value) : bool :=
         match l, m with
         | [], [] => true
         | x :: l', y :: m' => value_eqb x y && all l' m'
         | _, _ => false
         end) l m
  | VObj l, VObj m =>
      (fix all (l m : list (jsstring * value)) : bool :=
         match l, m with
         | [], [] => true
         | (k, x) :: l', (k', y) :: m' =>
             jsstring_eqb k k' && value_eqb x y && all l' m'
         | _, _ => false
         end) l m
  | _, _ => false
  end.

(** A small engine and server on which the model runs.  The codec of the
    engine knows a handful of documents, and the engine does not compute
    with decimal literals (a string converts to NaN, a literal rounds to
    NaN).  The server prints a JSONB column
    as these documents are written, reads an integer with [int4in], checks
    a new row against the column types and constraints of CREATE TABLE and
    prints an average with sixteen decimals; the driver sends a parameter
    that is not a string as [pg] prepares it. *)
Module Demo.

(** [["Rocq"]] and [{"technical_skills":["Rocq"]}] *)
Definition skills_text : jsstring :=
  lit "[" ++ dq ++ lit "Rocq" ++ dq ++ lit "]".

Definition answer_text : jsstring :=
  lit "{" ++ dq ++ lit "technical_skills" ++ dq ++ lit ":" ++ skills_text
  ++ lit "}".

Definition documents : list (jsstring * value) :=
  [ (lit "{}", VObj []);
    (lit "[]", VArr []);
    (skills_text, VArr [str "Rocq"]);
    (answer_text, VObj [(lit "technical_skills", VArr [str "Rocq"])]) ].

Definition engine : Engine := {|
  StringToNumber := fun _ => NaN;
  round_literal := fun _ => NaN;
  toFixed_2 := fun _ => lit "0.00";
  JSON_parse := fun s =>
    match find (fun d => jsstring_eqb s (fst d)) documents with
    | Some d => Ok (snd d)
    | None => Throw (EngineError (lit "Unexpected token in JSON"))
    end;
  JSON_stringify := fun v =>
    match find (fun d => value_eqb v (snd d)) documents with
    | Some d => fst d
    | None => lit "null"
    end
|}.

(** [escapeElement] of the driver: an element of an array literal between
    double quotes, its backslashes and double quotes escaped. *)
Definition escapeElement (s : jsstring) : jsstring :=
  dq ++ flat_map (fun c => if ((c =? 92) || (c =? 34))%N then [92%N; c]
                           else [c]) s ++ dq.

(** [prepareValue] of the driver on a value that is not [null]: a string as
    it is, a number or a boolean as its string, an array as an array
    literal, an object as its JSON text. *)
Fixpoint prepareValue (v : value) : jsstring :=
  match v with
  | VNull => []
  | VBool _ | VNum _ => match ToString v with Ok s => s | Throw _ => [] end
  | VStr s => s
  | VArr l =>
      lit "{"
      ++ (fix elements (l : list value) : jsstring :=
            let element x :=
              match x with
              | VNull => lit "NULL"
              | VArr _ => prepareValue x
              | _ => escapeElement (prepareValue x)
              end in
            match l with
            | [] => []
            | [x] => element x
            | x :: r => element x ++ lit "," ++ elements r
            end) l
      ++ lit "}"
  | VObj _ => JSON_stringify (Engine := engine) v
  end.

(** The errors of the checks on a new row. *)
Definition pg_error (msg code : String.string) : error :=
  mkError (lit msg) (Some (lit code)) None.

Definition too_long (limit : nat) (column : option jsstring) : bool :=
  match column with
  | Some s => (limit <? length (characters s))%nat
  | None => false
  end.

Definition has_NUL (column : option jsstring) : bool :=
  match column with
  | Some s => existsb (N.eqb 0) s
  | None => false
  end.

Definition check_row (r : stored) : option error :=
  if existsb has_NUL
       [ Row.file_name r; Row.name r; Row.email r; Row.phone r;
         Row.linkedin_url r; Row.portfolio_url r; Row.summary r;
         Row.improvement_areas r ]
  then Some (pg_error "invalid byte sequence for encoding UTF8: 0x00" "22021")
  else if existsb (too_long 255)
            [ Row.file_name r; Row.name r; Row.email r; Row.linkedin_url r;
              Row.portfolio_url r ]
  then Some (pg_error "value too long for type character varying(255)" "22001")
  else if too_long 50 (Row.phone r)
  then Some (pg_error "value too long for type character varying(50)" "22001")
  else match Row.file_name r with
       | None => Some (pg_error "null value in column file_name of relation resumes violates not-null constraint" "23502")
       | Some _ =>
           match Row.resume_rating r with
           | Some z =>
               if (1 <=? z) && (z <=? 10) then None
               else Some (pg_error "new row for relation resumes violates check constraint resumes_resume_rating_check" "23514")
           | None => None
           end
       end.

(** AVG over integers, as the server prints it for an average of one or
    more: rounded to sixteen decimals. *)
Definition average (l : list Z) : jsstring :=
  let sum := fold_right Z.add 0 l in
  let n := Z.of_nat (length l) in
  let scaled := (2 * sum * 10 ^ 16 + n) / (2 * n) in
  let fraction := decimal (Z.to_N (scaled mod 10 ^ 16)) in
  decimal (Z.to_N (scaled / 10 ^ 16)) ++ lit "."
  ++ repeat 48%N (16 - length fraction) ++ fraction.

Definition postgres : Postgres := {|
  param_text := prepareValue;
  json_out := fun s => s;
  constraint_violation := check_row;
  integer_in := int4in;
  avg_text := average
|}.

Definition resume_text : jsstring :=
  lit "Jane Roe. Software engineer, ten years of experience in compilers.".

Definition cv : file :=
  mkFile (lit "application/pdf") 1024 (lit "cv.pdf") [37; 80; 68; 70]%N.

(** A request during which extraction and the AI both answer. *)
Definition fine (now : Z) : world :=
  mkWorld true (fun _ => Ok resume_text) (fun _ => Ok answer_text)
    (lit "2024-01-01T00:00:00.000Z") now.

(** A request during which the AI call times out. *)
Definition timed_out : world :=
  mkWorld true (fun _ => Ok resume_text)
    (fun _ => Throw (mkError (lit "Request timeout") None None))
    (lit "2024-01-01T00:00:00.000Z") 0.

(** A request whose PDF holds ten characters of text. *)
Definition short_pdf : world :=
  mkWorld true (fun _ => Ok (lit "John Smith")) (fun _ => Ok (lit "{}"))
    (lit "2024-01-01T00:00:00.000Z") 0.

Definition empty_table : database := mkDatabase [] 1.

(** A decoded AI answer with missing fields, an over-long summary, a
    fractional rating and a work item that is not an object. *)
Definition answer : list (jsstring * value) :=
  [ (lit "name", str "Jane Roe");
    (lit "summary", VStr (repeat 65%N 1200));
    (lit "work_experience",
       VArr [ VObj [(lit "role", str "Engineer")]; str "freelance" ]);
    (lit "technical_skills", VArr [str "Rocq"]);
    (lit "resume_rating", VNum (Finite false 79 (-1))) ].

Definition no_work : value :=
  VObj [ (lit "role", str "Not specified");
         (lit "company", str "Not specified");
         (lit "duration", str "Not specified");
         (lit "description", VArr [str "No description provided"]) ].

Definition answer_sanitized : value :=
  sanitized (str "Jane Roe") VNull VNull VNull VNull
    (VStr (repeat 65%N 997 ++ lit "..."))
    [ VObj [ (lit "role", str "Engineer");
             (lit "company", str "Not specified");
             (lit "duration", str "Not specified");
             (lit "description", VArr [str "No description provided"]) ];
      no_work ]
    [] [str "Rocq"] [] [] [] 7
    (str "No specific improvement areas identified.") [].

(** Three uploads on an empty table, the second the newest. *)
Definition up1 : Res.t * database :=
  uploadResume (engine := engine) (postgres := postgres)
    empty_table (fine 10) (Some cv).

Definition up2 : Res.t * database :=
  uploadResume (engine := engine) (postgres := postgres)
    (snd up1) (fine 30) (Some cv).

Definition up3 : Res.t * database :=
  uploadResume (engine := engine) (postgres := postgres)
    (snd up2) (fine 20) (Some cv).

(** The record the pipeline returns during [fine]. *)
Definition record : value :=
  annotated
    (sanitized VNull VNull VNull VNull VNull VNull [] [] [str "Rocq"] [] []
       [] 1 (str "No specific improvement areas identified.") [])
    (lit "2024-01-01T00:00:00.000Z") (lit "cv.pdf") (length resume_text).

End Demo.

(* ================================================================== *)
(** ** More of the code: names for the statements *)

(** The five short text fields and the three flat lists of the analysis,
    and its four lists of records. *)
Definition contact_fields : list String.string :=
  [ "name"; "email"; "phone"; "linkedin_url"; "portfolio_url" ]%string.

Definition flat_list_fields : list String.string :=
  [ "technical_skills"; "soft_skills"; "upskill_suggestions" ]%string.

Definition record_list_fields : list String.string :=
  [ "work_experience"; "education"; "projects"; "certifications" ]%string.

(* ================================================================== *)
(** ** services/analysisService.js: what [analyzeWithAI] reads and throws *)

(** The text [analyzeWithAI] hands to [JSON.parse]: the response trimmed,
    its code fences removed, cut from the first [{] to the last [}]; [None]
    when a brace is missing. *)
Definition json_span (aiResponse : jsstring) : option jsstring :=
  let cleanResponse := trim aiResponse in
  let cleanResponse :=
    remove_fence (lit "```")
      (remove_fence (lit "```json") cleanResponse 0) 0 in
  match indexOf cleanResponse 123, lastIndexOf cleanResponse 125 with
  | Some firstBrace, Some lastBrace =>
      Some (substring cleanResponse firstBrace (lastBrace + 1))
  | _, _ => None
  end.

(** The [catch] of [analyzeWithAI]. *)
Definition analyzeWithAI_catch (error : error) : result value :=
  if instanceof_AppError error then Throw error
  else if msg_includes error "API key" then
    Throw (AppError "AI service configuration error. Please contact support." 500)
  else if msg_includes error "quota"
          || msg_includes error "QUOTA_EXCEEDED" then
    Throw (AppError "AI service temporarily unavailable due to usage limits. Please try again later." 503)
  else if msg_includes error "RATE_LIMIT" then
    Throw (AppError "Too many requests. Please wait a moment and try again." 429)
  else if msg_includes error "timeout" || code_is error "ECONNRESET" then
    Throw (AppError "AI analysis is taking longer than expected. Please try again." 408)
  else
    Throw (AppError "AI analysis service is temporarily unavailable. Please try again later." 503).

(** The errors the sanitizer can throw: a read from [null] (the object
    itself, or an item of one of the four lists of records, at the first
    property read from it), a rating or a length with no string form, and
    [substring] called on something that is not a string. *)
Definition sanitizer_errors : list error :=
  map EngineError
    [ lit "Cannot read properties of null (reading 'name')";
      lit "Cannot read properties of null (reading 'role')";
      lit "Cannot read properties of null (reading 'degree')";
      lit "Cannot convert object to primitive value";
      lit "sanitized.summary.substring is not a function";
      lit "sanitized.improvement_areas.substring is not a function" ].

(** A JSON text inside a Markdown code fence. *)
Definition fenced (body : jsstring) : jsstring :=
  lit "```json" ++ nl ++ body ++ nl ++ lit "```".

(* ================================================================== *)
(** ** The table over a run of requests *)

(** The ids of the table are distinct and below the next value of the
    sequence. *)
Definition ids (db : database) : list Z :=
  map (fun r => Row.id r) (rows db).

Definition fresh_ids (db : database) : Prop :=
  NoDup (ids db) /\ Forall (fun n => n < next_id db) (ids db).

(** The requests that write to the table, and a run of them. *)
Inductive request : Type :=
| Upload (w : world) (req_file : option file)
| Delete (id : jsstring).

Section Requests.
Context {engine : Engine} {postgres : Postgres}.

Definition serve (db : database) (r : request) : Res.t * database :=
  match r with
  | Upload w req_file => uploadResume db w req_file
  | Delete id => deleteResume db id
  end.

Fixpoint serve_all (db : database) (rs : list request) : database :=
  match rs with
  | [] => db
  | r :: rs' => serve_all (snd (serve db r)) rs'
  end.

End Requests.

(** The three classes of rating the statistics count. *)
Definition high_rated (z : Z) : bool := 8 <=? z.
Definition medium_rated (z : Z) : bool := (5 <=? z) && (z <=? 7).
Definition low_rated (z : Z) : bool := z <? 5.

(* ================================================================== *)
(** ** routes/resumeRoutes.js: the checks on an upload *)

(** [fileFilter]: the error given to multer's callback, or [None] when the
    file is accepted. *)
Definition fileFilter (mimetype : jsstring) : option error :=
  if jsstring_eqb mimetype (lit "application/pdf") then None
  else Some (AppError "Only PDF files are allowed!" 400).

(** [validateFileUpload]: the error passed to [next], or [None] when the
    request goes on to the controller. *)
Definition validateFileUpload (req_file : option file) : option error :=
  match req_file with
  | None => Some (AppError "No file uploaded. Please select a PDF file." 400)
  | Some f =>
      if negb (existsb (jsstring_eqb (mimetype f)) [lit "application/pdf"])
      then Some (AppError "Invalid file type. Only PDF files are allowed." 400)
      else if 5 * 1024 * 1024 <? size f then
        Some (AppError "File too large. Maximum size is 5MB." 400)
      else if size f =? 0 then
        Some (AppError "Empty file uploaded. Please select a valid PDF file." 400)
      else None
  end.

(* ================================================================== *)
(** ** middleware/errorHandler.js *)

(** What the handler reads of an error object: [err.name], [err.message] (a
    string, as the [Error] constructor makes it) and its own enumerable
    properties, the ones [{ ...err }] copies. *)
Record exception : Type := mkException {
  ex_name : jsstring;
  ex_message : jsstring;
  ex_props : list (jsstring * value)
}.

(** The object held by the variable [error]: the copy of [err] or the
    [AppError] a handler made, with its message and its properties. *)
Record error_object : Type := mkErrorObject {
  eo_message : jsstring;
  eo_props : list (jsstring * value)
}.

(** [new AppError(message, statusCode)]: [status] is ['fail'] when the
    status code, printed, starts with a 4. *)
Definition AppError_props (statusCode : Z) : list (jsstring * value) :=
  [ (lit "statusCode", VNum (number_of_Z statusCode));
    (lit "status",
       VStr (if starts_with (lit "4") (Number_toString (number_of_Z statusCode))
             then lit "fail" else lit "error"));
    (lit "isOperational", VBool true) ].

Definition new_AppError (message : jsstring) (statusCode : Z) : error_object :=
  mkErrorObject message (AppError_props statusCode).

(** An error of the program as the object that is thrown or passed to
    [next]: an [AppError], or a plain [Error] with the [code] it may carry. *)
Definition thrown (e : error) : exception :=
  mkException (lit "Error") (message e)
    (match statusCode e with
     | Some s => AppError_props s
     | None =>
         match code e with
         | Some c => [(lit "code", VStr c)]
         | None => []
         end
     end).

(** [x === z] for a Number [x] and an integer literal [z]. *)
Definition number_is (x : number) (z : Z) : bool :=
  match x with
  | Finite neg m e =>
      let M := if neg then - Z.of_N m else Z.of_N m in
      if 0 <=? e then M * 10 ^ e =? z else M =? z * 10 ^ (- e)
  | _ => false
  end.

(** [x === s] for a string literal [s]. *)
Definition is_string (x : option value) (s : String.string) : bool :=
  match x with
  | Some (VStr t) => jsstring_eqb t (lit s)
  | _ => false
  end.

Definition TypeError (msg : String.string) : error := EngineError (lit msg).

(** [Object.keys(x)] and [Object.values(x)] *)
Definition indices (n : nat) : list jsstring :=
  map (fun i => decimal (N.of_nat i)) (seq 0 n).

Definition Object_keys (x : option value) : result (list jsstring) :=
  match x with
  | None | Some VNull =>
      Throw (TypeError "Cannot convert undefined or null to object")
  | Some (VObj kv) => Ok (map fst kv)
  | Some (VArr l) => Ok (indices (length l))
  | Some (VStr s) => Ok (indices (length s))
  | Some (VBool _) | Some (VNum _) => Ok []
  end.

Definition Object_values (x : option value) : result (list value) :=
  match x with
  | None | Some VNull =>
      Throw (TypeError "Cannot convert undefined or null to object")
  | Some (VObj kv) => Ok (map snd kv)
  | Some (VArr l) => Ok l
  | Some (VStr s) => Ok (map (fun c => VStr [c]) s)
  | Some (VBool _) | Some (VNum _) => Ok []
  end.

(** [x[k]] for a key [k] that [Object.keys(x)[0]] gave ([None] when there
    was no key). *)
Definition first_value (x : option value) : option value :=
  match x with
  | Some (VObj ((_, v) :: _)) => Some v
  | Some (VArr (v :: _)) => Some v
  | Some (VStr (c :: _)) => Some (VStr [c])
  | _ => None
  end.

(** [l.join(sep)]: [undefined] and [null] print as nothing. *)
Fixpoint join (sep : jsstring) (l : list (option value)) : result jsstring :=
  let item (x : option value) :=
    match x with
    | None | Some VNull => Ok []
    | Some v => ToString v
    end in
  match l with
  | [] => Ok []
  | [x] => item x
  | x :: r =>
      let* a := item x in
      let* b := join sep r in
      Ok (a ++ sep ++ b)
  end.

(** The regular expression [/Key \((.+)\)=\((.+)\)/]: [.] is any character
    but a line terminator, [(.+)] takes as many as it can and gives back
    one at a time, and the match is tried from each position in turn. *)
Definition is_line_terminator (c : N) : bool :=
  ((c =? 10) || (c =? 13) || (c =? 8232) || (c =? 8233))%N.

Fixpoint dot_run (s : jsstring) : nat :=
  match s with
  | c :: s' => if is_line_terminator c then O else S (dot_run s')
  | [] => O
  end.

Fixpoint greedy {A} (n : nat) (s : jsstring)
    (k : jsstring -> jsstring -> option A) : option A :=
  match n with
  | O => None
  | S n' =>
      match k (firstn n s) (skipn n s) with
      | Some r => Some r
      | None => greedy n' s k
      end
  end.

Definition match_key_at (s : jsstring) : option (jsstring * jsstring) :=
  if starts_with (lit "Key (") s then
    let s1 := skipn 5 s in
    greedy (dot_run s1) s1 (fun g1 r1 =>
      if starts_with (lit ")=(") r1 then
        let s2 := skipn 3 r1 in
        greedy (dot_run s2) s2 (fun g2 r2 =>
          if starts_with (lit ")") r2 then Some (g1, g2) else None)
      else None)
  else None.

Fixpoint match_key (s : jsstring) : option (jsstring * jsstring) :=
  match match_key_at s with
  | Some r => Some r
  | None =>
      match s with
      | [] => None
      | _ :: s' => match_key s'
      end
  end.

(** [/^[0-9A-Z]{5}$/] *)
Definition is_sqlstate (s : jsstring) : bool :=
  (length s =? 5)%nat
  && forallb (fun c => is_digit c || ((65 <=? c) && (c <=? 90))%N) s.

Definition prop (err : error_object) (k : String.string) : option value :=
  lookup (lit k) (eo_props err).

Definition handleCastErrorDB (err : error_object) : result error_object :=
  let* path := ToString_opt (prop err "path") in
  let* value := ToString_opt (prop err "value") in
  Ok (new_AppError (lit "Invalid " ++ path ++ lit ": " ++ value) 400).

Definition handleDuplicateFieldsDB (err : error_object) : result error_object :=
  let* keys := Object_keys (prop err "keyValue") in
  let field := option_map VStr (hd_error keys) in
  let value := first_value (prop err "keyValue") in
  let* value := ToString_opt value in
  let* field := ToString_opt field in
  Ok (new_AppError
        (lit "Duplicate field value: " ++ dq ++ value ++ dq
         ++ lit " for field " ++ dq ++ field ++ dq
         ++ lit ". Please use another value.") 400).

Definition handlePostgreSQLError (err : error_object) : result error_object :=
  let code := prop err "code" in
  if is_string code "23505" then
    let* found :=
      match prop err "detail" with
      | None | Some VNull => Ok None
      | Some (VStr detail) => Ok (match_key detail)
      | Some _ => Throw (TypeError "err.detail?.match is not a function")
      end in
    let field := match found with Some (f, _) => f | None => lit "field" end in
    let value := match found with Some (_, v) => v | None => lit "value" end in
    Ok (new_AppError
          (lit "Duplicate " ++ field ++ lit ": " ++ value
           ++ lit " already exists.") 400)
  else if is_string code "23502" then
    let* column :=
      ToString (or_else (prop err "column") (str "required field")) in
    Ok (new_AppError (lit "Missing required field: " ++ column) 400)
  else if is_string code "23514" then
    Ok (new_AppError (lit "Data validation failed. Please check your input.") 400)
  else if is_string code "42P01" then
    Ok (new_AppError (lit "Database table not found. Please contact support.") 500)
  else if is_string code "42703" then
    Ok (new_AppError (lit "Invalid data structure. Please contact support.") 500)
  else if is_string code "28P01" then
    Ok (new_AppError (lit "Database authentication failed.") 500)
  else if is_string code "3D000" then
    Ok (new_AppError (lit "Database not found.") 500)
  else if is_string code "53300" then
    Ok (new_AppError (lit "Service temporarily unavailable. Please try again later.") 503)
  else
    Ok (new_AppError (lit "Database operation failed.") 500).

Definition handleValidationError (err : error_object) : result error_object :=
  let* values := Object_values (prop err "errors") in
  let* errors := mapM (fun el => get el "message") values in
  let* joined := join (lit ". ") errors in
  Ok (new_AppError (lit "Invalid input data: " ++ joined) 400).

Definition handleJWTError : error_object :=
  new_AppError (lit "Invalid token. Please log in again.") 401.

Definition handleJWTExpiredError : error_object :=
  new_AppError (lit "Your token has expired. Please log in again.") 401.

Definition handleMulterError (err : error_object) : error_object :=
  let code := prop err "code" in
  if is_string code "LIMIT_FILE_SIZE" then
    new_AppError (lit "File too large. Maximum size is 5MB.") 400
  else if is_string code "LIMIT_FILE_COUNT" then
    new_AppError (lit "Too many files. Please upload one file at a time.") 400
  else if is_string code "LIMIT_UNEXPECTED_FILE" then
    new_AppError
      (lit "Unexpected field name. Please use " ++ dq ++ lit "resume" ++ dq
       ++ lit " as field name.") 400
  else if is_string code "LIMIT_PART_COUNT" then
    new_AppError (lit "Too many parts in the request.") 400
  else if is_string code "LIMIT_FIELD_KEY" then
    new_AppError (lit "Field name too long.") 400
  else if is_string code "LIMIT_FIELD_VALUE" then
    new_AppError (lit "Field value too long.") 400
  else if is_string code "LIMIT_FIELD_COUNT" then
    new_AppError (lit "Too many fields in the request.") 400
  else
    new_AppError (lit "File upload failed.") 400.

Definition handlePDFError (err : error_object) : error_object :=
  if includes (eo_message err) (lit "PDF parsing failed")
     || includes (eo_message err) (lit "Invalid PDF") then
    new_AppError (lit "Unable to process PDF file. Please ensure it's a valid, non-encrypted PDF.") 400
  else if includes (eo_message err) (lit "password") then
    new_AppError (lit "PDF is password protected. Please upload an unprotected PDF.") 400
  else
    new_AppError (lit "PDF processing failed. Please try with a different file.") 400.

Definition handleAIServiceError (err : error_object) : error_object :=
  if includes (eo_message err) (lit "API key") then
    new_AppError (lit "AI service configuration error. Please contact support.") 500
  else if includes (eo_message err) (lit "quota")
          || includes (eo_message err) (lit "limit") then
    new_AppError (lit "AI service temporarily unavailable due to usage limits. Please try again later.") 503
  else if includes (eo_message err) (lit "timeout") then
    new_AppError (lit "AI analysis is taking longer than expected. Please try again.") 408
  else
    new_AppError (lit "AI analysis service is temporarily unavailable. Please try again later.") 503.

(** [res.status(...).json({ success: false, message, timestamp, ... })]; in
    development the body also carries the error object (and its stack, the
    engine's text, which is left out). *)
Record error_response : Type := mkErrorResponse {
  er_status : option value;
  er_message : jsstring;
  er_timestamp : jsstring;
  er_error : option error_object
}.

Definition sendErrorDev (err : error_object) (now : jsstring)
    : error_response :=
  mkErrorResponse (prop err "statusCode") (eo_message err) now (Some err).

Definition sendErrorProd (err : error_object) (now : jsstring)
    : error_response :=
  if match prop err "isOperational" with
     | Some v => truthy v
     | None => false
     end
  then mkErrorResponse (prop err "statusCode") (eo_message err) now None
  else mkErrorResponse (Some (VNum (number_of_Z 500)))
         (lit "Something went wrong! Please try again later.") now None.

(** [err.code && err.code.startsWith('LIMIT_')]: only a string has a
    [startsWith] to call. *)
Definition code_starts_with_LIMIT (code : option value) : result bool :=
  match code with
  | None => Ok false
  | Some v =>
      if truthy v then
        match v with
        | VStr s => Ok (starts_with (lit "LIMIT_") s)
        | _ => Throw (TypeError "err.code.startsWith is not a function")
        end
      else Ok false
  end.

(** [globalErrorHandler(err, req, res, next)]: [development] is whether
    [NODE_ENV] is ['development'], [now] the time of the response.  What
    [logError] prints is left out. *)
Definition globalErrorHandler (development : bool) (now : jsstring)
    (err : exception) : result error_response :=
  let props :=
    set_key (lit "statusCode")
      (or_else (lookup (lit "statusCode") (ex_props err))
         (VNum (number_of_Z 500)))
      (ex_props err) in
  let props :=
    set_key (lit "status")
      (or_else (lookup (lit "status") props) (str "error")) props in
  let code := lookup (lit "code") props in
  let error := mkErrorObject (ex_message err) props in
  let* error :=
    if jsstring_eqb (ex_name err) (lit "CastError")
    then handleCastErrorDB error else Ok error in
  let* error :=
    if match code with Some (VNum x) => number_is x 11000 | _ => false end
    then handleDuplicateFieldsDB error else Ok error in
  let* error :=
    if jsstring_eqb (ex_name err) (lit "ValidationError")
    then handleValidationError error else Ok error in
  let error :=
    if jsstring_eqb (ex_name err) (lit "JsonWebTokenError")
    then handleJWTError else error in
  let error :=
    if jsstring_eqb (ex_name err) (lit "TokenExpiredError")
    then handleJWTExpiredError else error in
  let* error :=
    if match code with
       | Some (VStr s) => truthy (VStr s) && is_sqlstate s
       | _ => false
       end
    then handlePostgreSQLError error else Ok error in
  let* limit := code_starts_with_LIMIT code in
  let error := if limit then handleMulterError error else error in
  let error :=
    if truthy (VStr (ex_message err))
       && (includes (ex_message err) (lit "PDF")
           || includes (ex_message err) (lit "pdf"))
    then handlePDFError error else error in
  let error :=
    if truthy (VStr (ex_message err))
       && (includes (ex_message err) (lit "AI analysis")
           || includes (ex_message err) (lit "Gemini")
           || includes (ex_message err) (lit "API key"))
    then handleAIServiceError error else error in
  Ok (if development then sendErrorDev error now
      else sendErrorProd error now).

(** The messages [handlePDFError] and [handleAIServiceError] choose from. *)
Definition PDF_messages : list jsstring :=
  [ lit "Unable to process PDF file. Please ensure it's a valid, non-encrypted PDF.";
    lit "PDF is password protected. Please upload an unprotected PDF.";
    lit "PDF processing failed. Please try with a different file." ].

Definition AI_answers : list (Z * jsstring) :=
  [ (500, lit "AI service configuration error. Please contact support.");
    (503, lit "AI service temporarily unavailable due to usage limits. Please try again later.");
    (408, lit "AI analysis is taking longer than expected. Please try again.");
    (503, lit "AI analysis service is temporarily unavailable. Please try again later.") ].

(** The last two steps of the handler and the answer. *)
Definition finish (development : bool) (now : jsstring) (err : exception)
    (error : error_object) : error_response :=
  let error :=
    if truthy (VStr (ex_message err))
       && (includes (ex_message err) (lit "PDF")
           || includes (ex_message err) (lit "pdf"))
    then handlePDFError error else error in
  let error :=
    if truthy (VStr (ex_message err))
       && (includes (ex_message err) (lit "AI analysis")
           || includes (ex_message err) (lit "Gemini")
           || includes (ex_message err) (lit "API key"))
    then handleAIServiceError error else error in
  if development then sendErrorDev error now else sendErrorProd error now.

(* ================================================================== *)
(** ** More examples *)

(** More requests on which the model runs. *)
Module Cases.

(** [{"work_experience":[null]}] *)
Definition null_item_text : jsstring :=
  lit "{" ++ dq ++ lit "work_experience" ++ dq ++ lit ":[null]}".

Definition documents : list (jsstring * value) :=
  (null_item_text, VObj [(lit "work_experience", VArr [VNull])])
  :: Demo.documents.

Definition engine : Engine := {|
  StringToNumber := fun _ => NaN;
  round_literal := fun _ => NaN;
  toFixed_2 := fun _ => lit "0.00";
  JSON_parse := fun s =>
    match find (fun d => jsstring_eqb s (fst d)) documents with
    | Some d => Ok (snd d)
    | None => Throw (EngineError (lit "Unexpected token in JSON"))
    end;
  JSON_stringify := fun v =>
    match find (fun d => value_eqb v (snd d)) documents with
    | Some d => fst d
    | None => lit "null"
    end
|}.

Definition answering (response : jsstring) : world :=
  mkWorld true (fun _ => Ok Demo.resume_text) (fun _ => Ok response)
    (lit "2024-01-01T00:00:00.000Z") 0.

Definition unreadable (message : jsstring) : world :=
  mkWorld true (fun _ => Throw (mkError message None None))
    (fun _ => Ok Demo.answer_text) (lit "2024-01-01T00:00:00.000Z") 0.

(** The 404 of a route that is not there, for a path that ends in [.pdf]. *)
Definition missing_page : exception :=
  thrown (mkError (lit "Can't find /files/report.pdf on this server!") None
            (Some 404)).

(** The error of a missing API key. *)
Definition missing_key : exception :=
  thrown (AppError "Google AI API key not configured. Please contact support." 500).

(** A duplicate-key error of MongoDB. *)
Definition duplicate_key : exception :=
  mkException (lit "MongoServerError")
    (lit "E11000 duplicate key error collection: resumes")
    [ (lit "code", VNum (Finite false 11000 0));
      (lit "keyValue", VObj [(lit "email", str "jane@example.org")]) ].

(** A programming error. *)
Definition type_error : exception :=
  mkException (lit "TypeError")
    (lit "Cannot read properties of undefined (reading 'rows')") [].

End Cases.

(* ================================================================== *)
(** * Facts and theorems *)

Unset Implicit Arguments.

(* ================================================================== *)
(** ** Decimal numerals and [parseInt] *)

Lemma uint_digits_lt10 (u : Decimal.uint) :
  Forall (fun d => (d < 10)%N) (uint_digits u).
Proof. induction u; constructor; (reflexivity || assumption). Qed.

Lemma digits_value_acc (u : Decimal.uint) (acc : positive) :
  digits_value (uint_digits u) (N.pos acc) = N.pos (Pos.of_uint_acc u acc).
Proof.
  revert acc. unfold digits_value.
  induction u as [|u IH|u IH|u IH|u IH|u IH|u IH|u IH|u IH|u IH|u IH];
    intros acc; cbn [uint_digits fold_left Pos.of_uint_acc];
    [reflexivity|..]; rewrite <- IH; f_equal; lia.
Qed.

Lemma digits_value_uint (u : Decimal.uint) :
  digits_value (uint_digits u) 0 = Pos.of_uint u.
Proof.
  induction u as [|u IH|u IH|u IH|u IH|u IH|u IH|u IH|u IH|u IH|u IH];
    cbn [uint_digits Pos.of_uint]; [reflexivity|exact IH|..];
    rewrite <- digits_value_acc; reflexivity.
Qed.

Lemma digits_value_digits (n : N) : digits_value (digits n) 0 = n.
Proof.
  unfold digits. rewrite digits_value_uint.
  apply DecimalN.Unsigned.of_to.
Qed.

Lemma digits_not_nil (n : N) : digits n <> [].
Proof.
  intros E. pose proof (digits_value_digits n) as V. rewrite E in V.
  destruct n; [discriminate E|discriminate V].
Qed.

(** A decimal digit as a character: not white space, not a sign, not the
    [x] of a hexadecimal prefix, and read back as itself. *)
Lemma digit_char_read (d : N) :
  (d < 10)%N ->
  is_whitespace (digit_char d) = false /\
  digit_value 10 (digit_char d) = Some d /\
  ((digit_char d =? 120) || (digit_char d =? 88))%N = false.
Proof.
  intros H.
  assert (C : (d = 0 \/ d = 1 \/ d = 2 \/ d = 3 \/ d = 4 \/ d = 5 \/ d = 6
               \/ d = 7 \/ d = 8 \/ d = 9)%N) by lia.
  repeat destruct C as [C|C]; subst d; repeat split; reflexivity.
Qed.

Lemma read_digits_some (ds : list N) (rest : jsstring) (a : N) :
  Forall (fun d => (d < 10)%N) ds -> stops rest ->
  read_digits 10 (map digit_char ds ++ rest) (Some a) =
  Some (digits_value ds a).
Proof.
  intros Hd Hr. revert a.
  induction Hd as [|d ds Hlt _ IH]; intros a.
  - destruct rest as [|c rest]; [reflexivity|].
    simpl in Hr |- *. rewrite Hr. reflexivity.
  - cbn [map app read_digits].
    destruct (digit_char_read d Hlt) as (_ & -> & _).
    rewrite IH. reflexivity.
Qed.

Lemma read_digits_none (d : N) (ds : list N) (rest : jsstring) :
  Forall (fun d => (d < 10)%N) (d :: ds) -> stops rest ->
  read_digits 10 (map digit_char (d :: ds) ++ rest) None =
  Some (digits_value (d :: ds) 0).
Proof.
  intros Hd Hr. inversion Hd as [|? ? Hlt Hds]; subst.
  cbn [map app read_digits].
  destruct (digit_char_read d Hlt) as (_ & -> & _).
  rewrite (read_digits_some ds rest _ Hds Hr). reflexivity.
Qed.

(** [parseInt] of an optional minus sign and digits, followed by something
    that is not a digit, is the number the digits write, with its sign. *)
Lemma parseInt_string_signed_digits (neg : bool) (d : N) (ds : list N) (rest : jsstring) :
  Forall (fun d => (d < 10)%N) (d :: ds) -> stops rest ->
  (ds = [] -> match rest with
              | c :: _ => ((c =? 120) || (c =? 88))%N = false
              | [] => True
              end) ->
  parseInt_string (sign neg ++ map digit_char (d :: ds) ++ rest) =
  Some (signed neg (Z.of_N (digits_value (d :: ds) 0))).
Proof.
  intros Hd Hr Hx.
  pose proof (read_digits_none d ds rest Hd Hr) as R.
  inversion Hd as [|? ? Hlt Hds]; subst.
  assert (C : (d = 0 \/ d = 1 \/ d = 2 \/ d = 3 \/ d = 4 \/ d = 5 \/ d = 6
               \/ d = 7 \/ d = 8 \/ d = 9)%N) by lia.
  unfold parseInt_string. cbn [map app] in *.
  destruct neg; cbn [sign signed app];
    [change (lit "-") with [45%N]; cbn [app];
     change (trimStart (45%N :: ?x)) with (45%N :: x); cbv beta iota zeta|].
  all: destruct C as [C|C].
  all: try (subst d; change (digit_char 0) with 48%N in *;
    try change (trimStart (48%N :: ?x)) with (48%N :: x);
    cbv beta iota zeta;
    destruct ds as [|d2 ds];
    [ cbn [map app] in *; specialize (Hx eq_refl);
      destruct rest as [|c rest]; [rewrite R; reflexivity|];
      rewrite Hx, R; reflexivity
    | cbn [map app] in *; inversion Hds as [|? ? Hlt2 _]; subst;
      destruct (digit_char_read d2 Hlt2) as (_ & _ & ->);
      rewrite R; reflexivity ]).
  all: repeat destruct C as [C|C]; subst d;
      match goal with
      | |- context [digit_char ?k :: ?x] =>
          let c := eval vm_compute in (digit_char k) in
          change (digit_char k) with c in *;
          try change (trimStart (c :: x)) with (c :: x)
      end;
      cbv beta iota zeta; rewrite R; reflexivity.
Qed.

Lemma parseInt_string_digits (d : N) (ds : list N) (rest : jsstring) :
  Forall (fun d => (d < 10)%N) (d :: ds) -> stops rest ->
  (ds = [] -> match rest with
              | c :: _ => ((c =? 120) || (c =? 88))%N = false
              | [] => True
              end) ->
  parseInt_string (map digit_char (d :: ds) ++ rest) =
  Some (Z.of_N (digits_value (d :: ds) 0)).
Proof. exact (parseInt_string_signed_digits false d ds rest). Qed.

(** [parseInt] reads the decimal numeral of [n] as [n]. *)
Lemma parseInt_string_decimal (n : N) :
  parseInt_string (decimal n) = Some (Z.of_N n).
Proof.
  unfold decimal. pose proof (uint_digits_lt10 (N.to_uint n)) as L.
  fold (digits n) in L.
  destruct (digits n) as [|d ds] eqn:E; [destruct (digits_not_nil n E)|].
  rewrite <- (app_nil_r (map digit_char (d :: ds))).
  rewrite parseInt_string_digits; [|exact L|exact I|intros _; exact I].
  rewrite <- E, digits_value_digits. reflexivity.
Qed.

Lemma digits_value_app (ds ds' : list N) (a : N) :
  digits_value (ds ++ ds') a = digits_value ds' (digits_value ds a).
Proof. unfold digits_value. apply fold_left_app. Qed.

Lemma digits_value_zeros (j : nat) (a : N) :
  Z.of_N (digits_value (repeat 0%N j) a) = Z.of_N a * 10 ^ Z.of_nat j.
Proof.
  revert a. induction j as [|j IH]; intros a.
  - simpl. lia.
  - cbn [repeat]. unfold digits_value in *. cbn [fold_left].
    rewrite IH, Nat2Z.inj_succ, Z.pow_succ_r by lia. lia.
Qed.

Lemma digits_value_shift (ds : list N) :
  Forall (fun d => (d < 10)%N) ds ->
  forall a,
    Z.of_N (digits_value ds a) =
      Z.of_N a * 10 ^ Z.of_nat (length ds) + Z.of_N (digits_value ds 0) /\
    0 <= Z.of_N (digits_value ds 0) < 10 ^ Z.of_nat (length ds).
Proof.
  induction 1 as [|d ds Hd _ IH]; intros a.
  - simpl. lia.
  - unfold digits_value in *. cbn [fold_left length].
    rewrite Nat2Z.inj_succ, Z.pow_succ_r by lia.
    destruct (IH (10 * a + d)%N) as [E1 B].
    destruct (IH (10 * 0 + d)%N) as [E2 _].
    rewrite E1, E2.
    assert (P : 0 < 10 ^ Z.of_nat (length ds)) by (apply Z.pow_pos_nonneg; lia).
    split; [lia|]. split; [lia|]. nia.
Qed.

Lemma drop_zeros_zeros (r : list N) :
  exists z, r = repeat 0%N z ++ drop_zeros r.
Proof.
  induction r as [|x r [z IH]].
  - exists O. reflexivity.
  - destruct x as [|p].
    + exists (S z). simpl. f_equal. exact IH.
    + exists O. reflexivity.
Qed.

Lemma rev_zeros (z : nat) : rev (repeat 0%N z) = repeat 0%N z.
Proof.
  induction z as [|z IH]; [reflexivity|].
  simpl. rewrite IH. symmetry. apply repeat_cons.
Qed.

Lemma strip_trailing_zeros (all : list N) :
  exists z, all = rev (drop_zeros (rev all)) ++ repeat 0%N z.
Proof.
  destruct (drop_zeros_zeros (rev all)) as [z E].
  exists z. rewrite <- (rev_involutive all) at 1.
  rewrite E at 1. rewrite rev_app_distr, rev_zeros. reflexivity.
Qed.

Lemma integer_part_zero (e : Z) : integer_part 0 e = 0.
Proof. unfold integer_part. destruct (0 <=? e); reflexivity. Qed.

(** [parseInt] of the string of a number that prints without an exponent
    is the integer part of the number. *)
Lemma parseInt_positive_toString (neg : bool) (m : N) (e : Z) :
  m <> 0%N -> prints_plainly m e ->
  parseInt_string (sign neg ++ positive_toString m e) =
  Some (signed neg (integer_part m e)).
Proof.
  intros Hm Hp. unfold prints_plainly in Hp. unfold positive_toString.
  pose proof (uint_digits_lt10 (N.to_uint m)) as L. fold (digits m) in L.
  pose proof (digits_value_digits m) as V.
  destruct (strip_trailing_zeros (digits m)) as [z E].
  set (all := digits m) in *.
  set (s := rev (drop_zeros (rev all))) in *.
  assert (Ls : Forall (fun d => (d < 10)%N) s).
  { rewrite E in L. apply Forall_app in L. apply L. }
  assert (Len : length all = (length s + z)%nat)
    by (rewrite E at 1; rewrite length_app, repeat_length; reflexivity).
  assert (Vz : Z.of_N m = Z.of_N (digits_value s 0) * 10 ^ Z.of_nat z).
  { rewrite <- V, E, digits_value_app. apply digits_value_zeros. }
  assert (Pz : 0 < 10 ^ Z.of_nat z) by (apply Z.pow_pos_nonneg; lia).
  assert (Sv : 0 < Z.of_N (digits_value s 0)) by nia.
  destruct s as [|d ds] eqn:Es; [simpl in Sv; lia|].
  rewrite <- Es in *.
  set (k := Z.of_nat (length s)) in *.
  set (n := Z.of_nat (length all) + e) in *.
  assert (Kn : n = k + Z.of_nat z + e) by (unfold n, k; lia).
  assert (Kpos : 1 <= k) by (unfold k; rewrite Es; simpl; lia).
  destruct ((k <=? n) && (n <=? 21)) eqn:A.
  - (* digits then zeros *)
    apply andb_prop in A. destruct A as [A1 A2].
    apply Z.leb_le in A1, A2.
    change (digit_char 0) with (digit_char 0%N).
    rewrite <- map_repeat, <- map_app.
    rewrite <- (app_nil_r (map digit_char _)).
    assert (Es' : s ++ repeat 0%N (Z.to_nat (n - k)) =
                  d :: (ds ++ repeat 0%N (Z.to_nat (n - k))))
      by (rewrite Es; reflexivity).
    rewrite Es'.
    rewrite parseInt_string_signed_digits;
      [| rewrite <- Es'; apply Forall_app; split;
         [exact Ls|apply Forall_forall; intros x Hx;
                   apply repeat_spec in Hx; subst x; reflexivity]
       | exact I | intros _; exact I].
    rewrite <- Es', digits_value_app, digits_value_zeros.
    rewrite Z2Nat.id by lia. f_equal. f_equal.
    unfold integer_part. replace (n - k) with (Z.of_nat z + e) by lia.
    destruct (0 <=? e) eqn:Ee.
    + apply Z.leb_le in Ee. rewrite Vz, Z.pow_add_r by lia. ring.
    + apply Z.leb_gt in Ee. rewrite Vz.
      replace (Z.of_nat z) with ((Z.of_nat z + e) + (- e)) at 2 by lia.
      rewrite (Z.pow_add_r 10 (Z.of_nat z + e) (- e)) by lia.
      rewrite Z.mul_assoc, Z.div_mul; [reflexivity|].
      apply Z.pow_nonzero; lia.
  - destruct ((0 <? n) && (n <=? 21)) eqn:B.
    + (* a decimal point inside the digits *)
      apply andb_prop in B. destruct B as [B1 B2].
      apply Z.ltb_lt in B1. apply Z.leb_le in B2.
      assert (Hk : n < k).
      { destruct (k <=? n) eqn:K; [|apply Z.leb_gt in K; exact K].
        apply Z.leb_le in K. simpl in A. apply Z.leb_gt in A. lia. }
      rewrite firstn_map.
      assert (Ef : exists ds', firstn (Z.to_nat n) s = d :: ds').
      { rewrite Es. destruct (Z.to_nat n) eqn:N0; [lia|].
        simpl. eexists. reflexivity. }
      destruct Ef as [ds' Ef].
      assert (Lf : Forall (fun d => (d < 10)%N) (firstn (Z.to_nat n) s)).
      { rewrite <- (firstn_skipn (Z.to_nat n) s) in Ls.
        apply Forall_app in Ls. apply Ls. }
      assert (Lk : Forall (fun d => (d < 10)%N) (skipn (Z.to_nat n) s)).
      { rewrite <- (firstn_skipn (Z.to_nat n) s) in Ls.
        apply Forall_app in Ls. apply Ls. }
      rewrite Ef in *.
      rewrite parseInt_string_signed_digits;
        [| exact Lf | reflexivity | intros _; reflexivity].
      f_equal. f_equal. rewrite <- Ef.
      assert (Sp : Z.of_N (digits_value s 0) =
                   Z.of_N (digits_value (firstn (Z.to_nat n) s) 0)
                   * 10 ^ (k - n)
                   + Z.of_N (digits_value (skipn (Z.to_nat n) s) 0) /\
                   0 <= Z.of_N (digits_value (skipn (Z.to_nat n) s) 0)
                     < 10 ^ (k - n)).
      { rewrite <- (firstn_skipn (Z.to_nat n) s) at 1.
        rewrite digits_value_app.
        destruct (digits_value_shift _ Lk
                    (digits_value (firstn (Z.to_nat n) s) 0)) as [E1 B].
        rewrite length_skipn in E1, B.
        replace (Z.of_nat (length s - Z.to_nat n)) with (k - n) in E1, B
          by (unfold k; lia).
        rewrite Ef in *. split; [exact E1|exact B]. }
      destruct Sp as [Sp Bp]. rewrite Ef in *.
      unfold integer_part.
      assert (Ee : (0 <=? e) = false) by (apply Z.leb_gt; lia).
      rewrite Ee, Vz.
      replace (- e) with ((k - n) + Z.of_nat z) by lia.
      rewrite Z.pow_add_r by lia.
      rewrite Z.div_mul_cancel_r by (apply Z.pow_nonzero; lia).
      apply Z.div_unique with
        (r := Z.of_N (digits_value (skipn (Z.to_nat n) s) 0)); [lia|].
      rewrite Sp. ring.
    + destruct ((-6 <? n) && (n <=? 0)) eqn:C.
      * (* below one *)
        apply andb_prop in C. destruct C as [C1 C2].
        apply Z.ltb_lt in C1. apply Z.leb_le in C2.
        change (lit "0.") with (map digit_char [0%N] ++ [46%N]).
        rewrite <- app_assoc.
        rewrite parseInt_string_signed_digits;
          [| repeat constructor | reflexivity | intros _; reflexivity].
        f_equal. f_equal. unfold integer_part.
        assert (Ee : (0 <=? e) = false) by (apply Z.leb_gt; lia).
        rewrite Ee. symmetry. apply Z.div_small.
        destruct (digits_value_shift _ L 0%N) as [_ Bm].
        fold all in V. rewrite V in Bm. split; [lia|].
        eapply Z.lt_le_trans; [apply Bm|].
        apply Z.pow_le_mono_r; lia.
      * exfalso.
        apply andb_false_iff in A, B, C.
        rewrite !Z.leb_gt, ?Z.ltb_ge in *.
        destruct A as [A|A], B as [B|B], C as [C|C];
          rewrite ?Z.ltb_ge, ?Z.leb_gt in *; lia.
Qed.

(** A number that prints without an exponent is rated by its integer part,
    1 below 1 and 10 above 10. *)
Lemma validateRating_truncates (neg : bool) (m : N) (e : Z) :
  prints_plainly m e ->
  validateRating (Some (VNum (Finite neg m e))) =
  Ok (clamp (signed neg (integer_part m e))).
Proof.
  intros Hp. unfold validateRating, parseInt.
  cbn [ToString_opt ToString bind]. unfold Number_toString.
  destruct m as [|p].
  - rewrite integer_part_zero. destruct neg; reflexivity.
  - cbn [bind].
    assert (Hm : N.pos p <> 0%N) by discriminate.
    pose proof (parseInt_positive_toString neg (N.pos p) e Hm Hp) as R.
    rewrite R. unfold clamp.
    destruct (signed neg (integer_part (N.pos p) e) <? 1); [reflexivity|].
    destruct (10 <? signed neg (integer_part (N.pos p) e)); reflexivity.
Qed.


(* ================================================================== *)
(** ** Facts about the sanitizer *)

Lemma or_else_idem (a : option value) (d : value) :
  or_else (Some (or_else a d)) d = or_else a d.
Proof.
  unfold or_else at 1.
  destruct (truthy (or_else a d)) eqn:E; [reflexivity|].
  destruct a as [v|]; simpl in *; [|reflexivity].
  destruct (truthy v) eqn:Ev; [congruence|reflexivity].
Qed.

Lemma validateRating_range (rating : option value) (r : Z) :
  validateRating rating = Ok r -> 1 <= r <= 10.
Proof.
  unfold validateRating.
  destruct (parseInt rating) as [[n|]|]; cbn [bind];
    [| intros H; inversion H; lia | discriminate].
  destruct (n <? 1) eqn:E1; [intros H; inversion H; lia|].
  destruct (10 <? n) eqn:E2; intros H; inversion H; subst; lia.
Qed.

Lemma validateRating_fixed (r : Z) :
  1 <= r <= 10 -> validateRating (Some (VNum (number_of_Z r))) = Ok r.
Proof.
  intros Hr.
  assert (H : r = 1 \/ r = 2 \/ r = 3 \/ r = 4 \/ r = 5 \/ r = 6 \/ r = 7
              \/ r = 8 \/ r = 9 \/ r = 10) by lia.
  repeat destruct H as [H|H]; subst r; reflexivity.
Qed.

(** A value that is not an array or an object always has a rating. *)
Lemma validateRating_plain (rating : option value) :
  plain rating -> exists r, validateRating rating = Ok r.
Proof.
  intros H. unfold validateRating, parseInt.
  assert (E : exists s, ToString_opt rating = Ok s).
  { destruct rating as [[| [|] | x | s | l | kv]|]; simpl in H;
      try destruct H; eexists; reflexivity. }
  destruct E as [s ->]. cbn [bind].
  destruct (parseInt_string s) as [n|]; [|eexists; reflexivity].
  destruct (n <? 1); [eexists; reflexivity|].
  destruct (10 <? n); eexists; reflexivity.
Qed.

Lemma substring_prefix (s : jsstring) (keep : nat) :
  (keep <= length s)%nat -> substring s 0 keep = firstn keep s.
Proof.
  intros H. unfold substring.
  rewrite Nat.min_0_l, (Nat.min_l keep) by assumption.
  rewrite Nat.min_0_l, Nat.max_0_l, Nat.sub_0_r. reflexivity.
Qed.

Section SanitizerFacts.
Context {engine : Engine}.

Lemma gt_length (n : nat) (limit : Z) :
  gt (Some (VNum (number_of_nat n))) limit = Ok (limit <? Z.of_nat n).
Proof.
  unfold gt, ToNumber, number_of_nat, number_gt, bind.
  change (0 <=? 0) with true. cbv iota.
  rewrite Z.pow_0_r, Z.mul_1_r, nat_N_Z. reflexivity.
Qed.

Lemma truncate_string (field : String.string) (s : jsstring) (limit : Z)
    (keep : nat) :
  0 <= limit ->
  truncate field (VStr s) limit keep =
  Ok (VStr (if limit <? Z.of_nat (length s)
            then substring s 0 keep ++ lit "..." else s)).
Proof.
  intros Hl. unfold truncate.
  destruct s as [|c s]; [simpl; destruct (limit <? 0) eqn:E; [lia|reflexivity]|].
  change (truthy (VStr (c :: s))) with true. cbv iota.
  unfold get, bind. change (String.eqb "length" "length") with true. cbv iota.
  rewrite gt_length. cbn [bind]. destruct (limit <? _); reflexivity.
Qed.

(** Only a string is ever changed by [truncate]. *)
Lemma truncate_other (field : String.string) (v v' : value) (limit : Z)
    (keep : nat) :
  (forall s, v <> VStr s) ->
  truncate field v limit keep = Ok v' -> v' = v.
Proof.
  intros Hs. unfold truncate.
  destruct (truthy v); [|intros H; inversion H; reflexivity].
  destruct (get v "length") as [len|e]; unfold bind; [|discriminate].
  destruct (gt len limit) as [[|]|]; [|intros H; inversion H; reflexivity|];
    [|discriminate].
  destruct v; try discriminate. destruct (Hs s eq_refl).
Qed.

(** Whatever [truncate] returns is left alone by a second pass. *)
Lemma truncate_idem (field : String.string) (v v' : value) (limit : Z)
    (keep : nat) :
  0 <= limit -> Z.of_nat keep + 3 <= limit ->
  truncate field v limit keep = Ok v' ->
  truncate field v' limit keep = Ok v'.
Proof.
  intros Hl Hk H.
  destruct v as [| b | x | s | l | kv];
    try (assert (E : v' = _)
           by (eapply truncate_other; [|exact H]; intros ? ?; discriminate);
         subst v'; exact H).
  rewrite truncate_string in H by assumption. inversion H; subst; clear H.
  rewrite truncate_string by assumption.
  destruct (limit <? Z.of_nat (length s)) eqn:E; [|rewrite E; reflexivity].
  assert (Hlen : (keep <= length s)%nat) by lia.
  rewrite substring_prefix by assumption.
  replace (limit <? _) with false; [reflexivity|].
  symmetry. apply Z.ltb_ge.
  rewrite length_app, firstn_length_le by assumption.
  change (length (lit "...")) with 3%nat. lia.
Qed.

(** A string that [truncate] returns is within the limit. *)
Lemma truncate_length (field : String.string) (v : value) (s' : jsstring)
    (limit : Z) (keep : nat) :
  0 <= limit -> Z.of_nat keep + 3 <= limit ->
  truncate field v limit keep = Ok (VStr s') ->
  Z.of_nat (length s') <= limit.
Proof.
  intros Hl Hk H.
  destruct v as [| b | x | s | l | kv];
    try (apply truncate_other in H; [discriminate H|intros ? ?; discriminate]).
  rewrite truncate_string in H by assumption. inversion H; subst; clear H.
  destruct (limit <? Z.of_nat (length s)) eqn:E.
  - rewrite length_app. change (length (lit "...")) with 3%nat.
    assert (Hlen : (keep <= length s)%nat) by lia.
    rewrite substring_prefix, firstn_length_le by assumption. lia.
  - apply Z.ltb_ge in E. exact E.
Qed.

Lemma get_not_null (v : value) (k : String.string) :
  v <> VNull -> exists o, get v k = Ok o.
Proof.
  destruct v; intros H; try (eexists; reflexivity). destruct (H eq_refl).
Qed.

Lemma get_null (k : String.string) (o : option value) :
  get VNull k <> Ok o.
Proof. discriminate. Qed.

Ltac item_idem :=
  match goal with
  | |- forall x y, ?f x = Ok y -> _ =>
      intros x y; unfold f;
      destruct x; try discriminate;
      (intros H; unfold bind in H;
       repeat match type of H with
              | context [get ?v ?k] =>
                  let o := fresh "o" in
                  let E := fresh "E" in
                  destruct (get v k) as [o|] eqn:E; [clear E|discriminate]
              end;
       inversion H; subst; clear H);
      unfold get, bind; cbn [lookup];
      repeat match goal with
             | |- context [jsstring_eqb ?a ?b] =>
                 let r := eval vm_compute in (jsstring_eqb a b) in
                 change (jsstring_eqb a b) with r
             end;
      cbv iota;
      rewrite ?or_else_idem; reflexivity
  end.

Lemma sanitize_work_idem :
  forall x y, sanitize_work x = Ok y -> sanitize_work y = Ok y.
Proof. item_idem. Qed.

Lemma sanitize_education_idem :
  forall x y, sanitize_education x = Ok y -> sanitize_education y = Ok y.
Proof. item_idem. Qed.

Lemma sanitize_project_idem :
  forall x y, sanitize_project x = Ok y -> sanitize_project y = Ok y.
Proof. item_idem. Qed.

Lemma sanitize_certification_idem :
  forall x y,
    sanitize_certification x = Ok y -> sanitize_certification y = Ok y.
Proof. item_idem. Qed.

(** A map whose item function fixes its own results fixes its own result. *)
Lemma mapM_idem (f : value -> result value) :
  (forall x y, f x = Ok y -> f y = Ok y) ->
  forall l l', mapM f l = Ok l' -> mapM f l' = Ok l'.
Proof.
  intros Hf. induction l as [|x l IH]; intros l' H; simpl in H.
  - inversion H. reflexivity.
  - destruct (f x) as [y|] eqn:Ex; [|discriminate].
    destruct (mapM f l) as [ys|] eqn:El; [|discriminate].
    simpl in H. inversion H; subst. simpl.
    rewrite (Hf _ _ Ex). simpl. rewrite (IH _ eq_refl). reflexivity.
Qed.

Lemma mapM_length {A B} (f : A -> result B) (l : list A) (l' : list B) :
  mapM f l = Ok l' -> length l' = length l.
Proof.
  revert l'. induction l as [|x l IH]; intros l' H; simpl in H.
  - inversion H. reflexivity.
  - destruct (f x) as [y|]; [|discriminate].
    destruct (mapM f l) as [ys|]; [|discriminate].
    simpl in H. inversion H; subst. simpl. rewrite (IH _ eq_refl). reflexivity.
Qed.

Lemma truncate_truthy (field : String.string) (v v' : value) (limit : Z)
    (keep : nat) :
  0 <= limit -> truthy v = true ->
  truncate field v limit keep = Ok v' -> truthy v' = true.
Proof.
  intros Hl T H.
  destruct v as [| b | x | s | l | kv];
    try (assert (E : v' = _)
           by (eapply truncate_other; [|exact H]; intros ? ?; discriminate);
         subst v'; exact T).
  rewrite truncate_string in H by assumption. inversion H; subst; clear H.
  destruct (limit <? _); [|exact T].
  destruct (substring s 0 keep); reflexivity.
Qed.

(** The default taken before [truncate] is not taken again after it. *)
Lemma truncate_or_else (field : String.string) (a : option value)
    (d v' : value) (limit : Z) (keep : nat) :
  0 <= limit ->
  truncate field (or_else a d) limit keep = Ok v' ->
  or_else (Some v') d = v'.
Proof.
  intros Hl H.
  destruct (truthy (or_else a d)) eqn:T.
  - unfold or_else at 1. rewrite (truncate_truthy _ _ _ _ _ Hl T H). reflexivity.
  - unfold truncate in H. rewrite T in H. inversion H; subst.
    apply or_else_idem.
Qed.

(** What a successful run of the sanitizer on an object went through. *)
Lemma sanitize_inv (kv : list (jsstring * value)) (fileName : jsstring)
    (out : value) :
  validateAndSanitizeAnalysis (VObj kv) fileName = Ok out ->
  exists rt we ed pr ce su ia,
    validateRating (lookup (lit "resume_rating") kv) = Ok rt /\
    mapM sanitize_work
      (array_or_empty (lookup (lit "work_experience") kv)) = Ok we /\
    mapM sanitize_education
      (array_or_empty (lookup (lit "education") kv)) = Ok ed /\
    mapM sanitize_project
      (array_or_empty (lookup (lit "projects") kv)) = Ok pr /\
    mapM sanitize_certification
      (array_or_empty (lookup (lit "certifications") kv)) = Ok ce /\
    truncate "summary" (or_else (lookup (lit "summary") kv) VNull)
      1000 997 = Ok su /\
    truncate "improvement_areas"
      (or_else (lookup (lit "improvement_areas") kv)
         (str "No specific improvement areas identified.")) 2000 1997
      = Ok ia /\
    out = sanitized
      (or_else (lookup (lit "name") kv) VNull)
      (or_else (lookup (lit "email") kv) VNull)
      (or_else (lookup (lit "phone") kv) VNull)
      (or_else (lookup (lit "linkedin_url") kv) VNull)
      (or_else (lookup (lit "portfolio_url") kv) VNull)
      su we ed
      (array_or_empty (lookup (lit "technical_skills") kv))
      (array_or_empty (lookup (lit "soft_skills") kv))
      pr ce rt ia
      (array_or_empty (lookup (lit "upskill_suggestions") kv)).
Proof.
  unfold validateAndSanitizeAnalysis, get, bind. intros H.
  destruct (validateRating _) as [rt|]; [|discriminate].
  destruct (mapM sanitize_work _) as [we|]; [|discriminate].
  destruct (mapM sanitize_education _) as [ed|]; [|discriminate].
  destruct (mapM sanitize_project _) as [pr|]; [|discriminate].
  destruct (mapM sanitize_certification _) as [ce|]; [|discriminate].
  destruct (truncate "summary" _ _ _) as [su|]; [|discriminate].
  destruct (truncate "improvement_areas" _ _ _) as [ia|]; [|discriminate].
  exists rt, we, ed, pr, ce, su, ia. inversion H. repeat split; reflexivity.
Qed.

Lemma sanitize_intro (kv : list (jsstring * value)) (fileName : jsstring)
    (rt : Z) (we ed pr ce : list value) (su ia : value) :
  validateRating (lookup (lit "resume_rating") kv) = Ok rt ->
  mapM sanitize_work
    (array_or_empty (lookup (lit "work_experience") kv)) = Ok we ->
  mapM sanitize_education
    (array_or_empty (lookup (lit "education") kv)) = Ok ed ->
  mapM sanitize_project
    (array_or_empty (lookup (lit "projects") kv)) = Ok pr ->
  mapM sanitize_certification
    (array_or_empty (lookup (lit "certifications") kv)) = Ok ce ->
  truncate "summary" (or_else (lookup (lit "summary") kv) VNull)
    1000 997 = Ok su ->
  truncate "improvement_areas"
    (or_else (lookup (lit "improvement_areas") kv)
       (str "No specific improvement areas identified.")) 2000 1997
    = Ok ia ->
  validateAndSanitizeAnalysis (VObj kv) fileName =
  Ok (sanitized
      (or_else (lookup (lit "name") kv) VNull)
      (or_else (lookup (lit "email") kv) VNull)
      (or_else (lookup (lit "phone") kv) VNull)
      (or_else (lookup (lit "linkedin_url") kv) VNull)
      (or_else (lookup (lit "portfolio_url") kv) VNull)
      su we ed
      (array_or_empty (lookup (lit "technical_skills") kv))
      (array_or_empty (lookup (lit "soft_skills") kv))
      pr ce rt ia
      (array_or_empty (lookup (lit "upskill_suggestions") kv))).
Proof.
  intros H0 H1 H2 H3 H4 H5 H6.
  unfold validateAndSanitizeAnalysis, get, bind.
  rewrite H0, H1, H2, H3, H4, H5, H6. reflexivity.
Qed.

End SanitizerFacts.

(* ================================================================== *)
(** ** The sanitizer: shape, totality, caps, idempotence *)

Ltac eval_string_eqb :=
  repeat match goal with
         | |- context [String.eqb ?a ?b] =>
             let r := eval vm_compute in (String.eqb a b) in
             change (String.eqb a b) with r
         end;
  cbv iota.

Section SanitizerTheorems.
Context {engine : Engine}.

(** Whatever value the sanitizer is given, what it returns is the object of
    the fifteen fields, the list fields arrays and the rating from 1 to 10. *)
Lemma sanitize_is_sanitized (analysis : value) (fileName : jsstring)
    (out : value) :
  validateAndSanitizeAnalysis analysis fileName = Ok out ->
  exists n e p l o su we ed ts ss pr ce r ia us,
    out = sanitized n e p l o su we ed ts ss pr ce r ia us /\ 1 <= r <= 10.
Proof.
  unfold validateAndSanitizeAnalysis.
  destruct analysis; [discriminate| | | | |];
    unfold get, bind; eval_string_eqb; intros H;
    (destruct (validateRating _) as [rt|] eqn:R; [|discriminate]);
    (destruct (mapM sanitize_work _) as [we|]; [|discriminate]);
    (destruct (mapM sanitize_education _) as [ed|]; [|discriminate]);
    (destruct (mapM sanitize_project _) as [pr|]; [|discriminate]);
    (destruct (mapM sanitize_certification _) as [ce|]; [|discriminate]);
    (destruct (truncate "summary" _ _ _) as [su|]; [|discriminate]);
    (destruct (truncate "improvement_areas" _ _ _) as [ia|]; [|discriminate]);
    inversion H; subst; clear H;
    do 15 eexists; (split; [reflexivity|exact (validateRating_range _ _ R)]).
Qed.

Lemma sanitized_schema (n e p l o su : value)
    (we ed ts ss pr ce : list value) (r : Z) (ia : value) (us : list value) :
  1 <= r <= 10 ->
  Analysis_schema (sanitized n e p l o su we ed ts ss pr ce r ia us).
Proof.
  intros Hr. repeat split.
  - intros k Hk. simpl in Hk.
    repeat (destruct Hk as [Hk|Hk]; [subst k; eexists; reflexivity|]).
    destruct Hk.
  - intros k Hk. simpl in Hk.
    repeat (destruct Hk as [Hk|Hk]; [subst k; eexists; reflexivity|]).
    destruct Hk.
  - exists r. split; [reflexivity|exact Hr].
Qed.

Lemma mapM_Forall {A B} (f : A -> result B) (P : B -> Prop) :
  (forall x y, f x = Ok y -> P y) ->
  forall l l', mapM f l = Ok l' -> Forall P l'.
Proof.
  intros Hf. induction l as [|x l IH]; intros l' H; simpl in H.
  - inversion H. constructor.
  - destruct (f x) as [y|] eqn:Ex; [|discriminate].
    destruct (mapM f l) as [ys|]; [|discriminate].
    simpl in H. inversion H; subst. constructor; [eapply Hf, Ex|].
    apply IH. reflexivity.
Qed.

Ltac item_shape f :=
  intros x y; unfold f; destruct x; [discriminate|..];
  unfold get, bind; intros H; inversion H; repeat eexists.

Lemma sanitize_work_shape :
  forall x y, sanitize_work x = Ok y -> work_item y.
Proof. item_shape sanitize_work. Qed.

Lemma sanitize_education_shape :
  forall x y, sanitize_education x = Ok y -> education_item y.
Proof. item_shape sanitize_education. Qed.

Lemma sanitize_project_shape :
  forall x y, sanitize_project x = Ok y -> project_item y.
Proof. item_shape sanitize_project. Qed.

Lemma sanitize_certification_shape :
  forall x y, sanitize_certification x = Ok y -> certification_item y.
Proof. item_shape sanitize_certification. Qed.

(** Every record in the lists of an output of the sanitizer is complete. *)
Lemma sanitizer_output_items (analysis : value) (fileName : jsstring)
    (out : value) :
  validateAndSanitizeAnalysis analysis fileName = Ok out ->
  Analysis_items out.
Proof.
  unfold validateAndSanitizeAnalysis.
  destruct analysis; [discriminate| | | | |];
    unfold get, bind; eval_string_eqb; intros H;
    (destruct (validateRating _) as [rt|]; [|discriminate]);
    (destruct (mapM sanitize_work _) as [we|] eqn:E1; [|discriminate]);
    (destruct (mapM sanitize_education _) as [ed|] eqn:E2; [|discriminate]);
    (destruct (mapM sanitize_project _) as [pr|] eqn:E3; [|discriminate]);
    (destruct (mapM sanitize_certification _) as [ce|] eqn:E4;
       [|discriminate]);
    (destruct (truncate "summary" _ _ _) as [su|]; [|discriminate]);
    (destruct (truncate "improvement_areas" _ _ _) as [ia|]; [|discriminate]);
    inversion H; subst; clear H;
    (split; [|split; [|split]]); intros items F; inversion F; subst items.
  all: first [ exact (mapM_Forall _ _ sanitize_work_shape _ _ E1)
             | exact (mapM_Forall _ _ sanitize_education_shape _ _ E2)
             | exact (mapM_Forall _ _ sanitize_project_shape _ _ E3)
             | exact (mapM_Forall _ _ sanitize_certification_shape _ _ E4) ].
Qed.

(** Every output of the sanitizer has the schema of the analysis. *)
Lemma sanitizer_output_schema (analysis : value) (fileName : jsstring)
    (out : value) :
  validateAndSanitizeAnalysis analysis fileName = Ok out ->
  Analysis_schema out.
Proof.
  intros H. apply sanitize_is_sanitized in H.
  destruct H as (n & e & p & l & o & su & we & ed & ts & ss & pr & ce & r
                 & ia & us & -> & Hr).
  apply sanitized_schema. exact Hr.
Qed.

Lemma mapM_total {A B} (f : A -> result B) (l : list A) :
  Forall (fun x => exists y, f x = Ok y) l -> exists l', mapM f l = Ok l'.
Proof.
  induction 1 as [|x l [y Hy] _ [l' Hl']]; simpl.
  - eexists; reflexivity.
  - rewrite Hy. simpl. rewrite Hl'. simpl. eexists; reflexivity.
Qed.

Lemma items_total (f : value -> result value) (l : list value) :
  (forall x, x <> VNull -> exists y, f x = Ok y) ->
  Forall (fun x => x <> VNull) l -> exists l', mapM f l = Ok l'.
Proof.
  intros Hf Hl. apply mapM_total.
  eapply Forall_impl; [|exact Hl]. exact Hf.
Qed.

Ltac item_total f :=
  intros x Hx; unfold f;
  destruct x; [destruct (Hx eq_refl)| | | | |];
  eexists; reflexivity.

Lemma sanitize_work_total (x : value) :
  x <> VNull -> exists y, sanitize_work x = Ok y.
Proof. revert x. item_total sanitize_work. Qed.

Lemma sanitize_education_total (x : value) :
  x <> VNull -> exists y, sanitize_education x = Ok y.
Proof. revert x. item_total sanitize_education. Qed.

Lemma sanitize_project_total (x : value) :
  x <> VNull -> exists y, sanitize_project x = Ok y.
Proof. revert x. item_total sanitize_project. Qed.

Lemma sanitize_certification_total (x : value) :
  x <> VNull -> exists y, sanitize_certification x = Ok y.
Proof. revert x. item_total sanitize_certification. Qed.

Lemma truncate_text_total (field : String.string) (a : option value)
    (d : jsstring) (limit : Z) (keep : nat) :
  0 <= limit -> text_or_absent a ->
  (exists v, truncate field (or_else a VNull) limit keep = Ok v) /\
  (exists v, truncate field (or_else a (VStr d)) limit keep = Ok v).
Proof.
  intros Hl [->|[->|[s ->]]]; simpl;
    try (split; eexists; first [reflexivity | apply truncate_string; exact Hl]).
  destruct s as [|c s]; simpl;
    (split; eexists; first [reflexivity | apply truncate_string; exact Hl]).
Qed.

(** Where the sanitizer does return: on every object whose four lists of
    records hold no [null], whose two capped texts are strings and whose
    rating is a number, a string, a boolean or [null].  Any subset of the
    fields may be missing. *)
Lemma sanitizer_returns (kv : list (jsstring * value)) (fileName : jsstring) :
  Forall (fun x => x <> VNull)
    (array_or_empty (lookup (lit "work_experience") kv)) ->
  Forall (fun x => x <> VNull)
    (array_or_empty (lookup (lit "education") kv)) ->
  Forall (fun x => x <> VNull)
    (array_or_empty (lookup (lit "projects") kv)) ->
  Forall (fun x => x <> VNull)
    (array_or_empty (lookup (lit "certifications") kv)) ->
  text_or_absent (lookup (lit "summary") kv) ->
  text_or_absent (lookup (lit "improvement_areas") kv) ->
  plain (lookup (lit "resume_rating") kv) ->
  exists out,
    validateAndSanitizeAnalysis (VObj kv) fileName = Ok out /\
    Analysis_schema out.
Proof.
  intros H1 H2 H3 H4 H5 H6 H7.
  destruct (validateRating_plain _ H7) as [rt Ert].
  destruct (items_total _ _ sanitize_work_total H1) as [we Ewe].
  destruct (items_total _ _ sanitize_education_total H2) as [ed Eed].
  destruct (items_total _ _ sanitize_project_total H3) as [pr Epr].
  destruct (items_total _ _ sanitize_certification_total H4) as [ce Ece].
  assert (L1 : 0 <= 1000) by lia.
  assert (L2 : 0 <= 2000) by lia.
  destruct (truncate_text_total "summary" _ [] 1000 997 L1 H5)
    as [[su Esu] _].
  destruct (truncate_text_total "improvement_areas" _
              (lit "No specific improvement areas identified.") 2000 1997
              L2 H6)
    as [_ [ia Eia]].
  eexists. split.
  - apply sanitize_intro; eassumption.
  - apply sanitized_schema. exact (validateRating_range _ _ Ert).
Qed.

(** C1 (the code departs from the claim).  The sanitizer is not total: on
    the decoded object [{"work_experience": [null]}] the read [exp.role]
    throws a TypeError, so no output is returned. *)
Theorem sanitizer_throws_on_null_item (fileName : jsstring) :
  validateAndSanitizeAnalysis
    (VObj [(lit "work_experience", VArr [VNull])]) fileName
  = Throw (EngineError (lit "Cannot read properties of null (reading 'role')")).
Proof. reflexivity. Qed.

(** C9 (the claim as amended).  After sanitization a summary that is a
    string is at most 1000 characters long and improvement areas that are a
    string at most 2000: a non-empty string longer than the cap is replaced
    by its first 997, respectively 1997, characters followed by "...", a
    shorter non-empty string passes through unchanged.  (Characters are
    those of a JavaScript string, UTF-16 code units.) *)
Theorem sanitized_text_is_capped (kv : list (jsstring * value))
    (fileName : jsstring) (out : value) :
  validateAndSanitizeAnalysis (VObj kv) fileName = Ok out ->
  (forall s, field "summary" out = Some (VStr s) ->
             (length s <= 1000)%nat) /\
  (forall s, field "improvement_areas" out = Some (VStr s) ->
             (length s <= 2000)%nat) /\
  (forall s, field "summary" (VObj kv) = Some (VStr s) -> s <> [] ->
     field "summary" out =
     Some (VStr (if (1000 <? length s)%nat
                 then firstn 997 s ++ lit "..." else s))) /\
  (forall s, field "improvement_areas" (VObj kv) = Some (VStr s) -> s <> [] ->
     field "improvement_areas" out =
     Some (VStr (if (2000 <? length s)%nat
                 then firstn 1997 s ++ lit "..." else s))).
Proof.
  intros H. apply sanitize_inv in H.
  destruct H as (rt & we & ed & pr & ce & su & ia
                 & _ & _ & _ & _ & _ & Hsu & Hia & ->).
  change (field "summary" (sanitized _ _ _ _ _ su _ _ _ _ _ _ _ _ _))
    with (Some su).
  change (field "improvement_areas" (sanitized _ _ _ _ _ _ _ _ _ _ _ _ _ ia _))
    with (Some ia).
  assert (L1 : 0 <= 1000) by lia. assert (K1 : Z.of_nat 997 + 3 <= 1000) by lia.
  assert (L2 : 0 <= 2000) by lia. assert (K2 : Z.of_nat 1997 + 3 <= 2000) by lia.
  repeat split.
  - intros s E. inversion E; subst.
    pose proof (@truncate_length _ _ _ _ _ _ L1 K1 Hsu). lia.
  - intros s E. inversion E; subst.
    pose proof (@truncate_length _ _ _ _ _ _ L2 K2 Hia). lia.
  - intros s E Hs. simpl in E. rewrite E in Hsu.
    assert (D : forall d, or_else (Some (VStr s)) d = VStr s)
      by (intros d; destruct s; [destruct (Hs eq_refl)|reflexivity]).
    rewrite D, truncate_string in Hsu by assumption.
    inversion Hsu; subst ; clear Hsu.
    destruct (1000 <? length s)%nat eqn:B.
    + apply Nat.ltb_lt in B.
      replace (1000 <? Z.of_nat (length s)) with true
        by (symmetry; apply Z.ltb_lt; lia).
      rewrite substring_prefix by lia. reflexivity.
    + apply Nat.ltb_ge in B.
      replace (1000 <? Z.of_nat (length s)) with false
        by (symmetry; apply Z.ltb_ge; lia).
      reflexivity.
  - intros s E Hs. simpl in E. rewrite E in Hia.
    assert (D : forall d, or_else (Some (VStr s)) d = VStr s)
      by (intros d; destruct s; [destruct (Hs eq_refl)|reflexivity]).
    rewrite D, truncate_string in Hia by assumption.
    inversion Hia; subst ; clear Hia.
    destruct (2000 <? length s)%nat eqn:B.
    + apply Nat.ltb_lt in B.
      replace (2000 <? Z.of_nat (length s)) with true
        by (symmetry; apply Z.ltb_lt; lia).
      rewrite substring_prefix by lia. reflexivity.
    + apply Nat.ltb_ge in B.
      replace (2000 <? Z.of_nat (length s)) with false
        by (symmetry; apply Z.ltb_ge; lia).
      reflexivity.
Qed.

Ltac eval_key_eqb :=
  repeat match goal with
         | |- context [jsstring_eqb ?a ?b] =>
             let r := eval vm_compute in (jsstring_eqb a b) in
             change (jsstring_eqb a b) with r
         end;
  cbv iota.

(** The sanitizer on an object of the fifteen fields whose parts are each
    left alone by their own rule. *)
Lemma sanitize_sanitized (n e p l o su : value)
    (we ed ts ss pr ce : list value) (r : Z) (ia : value) (us : list value)
    (fileName : jsstring) :
  or_else (Some n) VNull = n -> or_else (Some e) VNull = e ->
  or_else (Some p) VNull = p -> or_else (Some l) VNull = l ->
  or_else (Some o) VNull = o ->
  mapM sanitize_work we = Ok we ->
  mapM sanitize_education ed = Ok ed ->
  mapM sanitize_project pr = Ok pr ->
  mapM sanitize_certification ce = Ok ce ->
  truncate "summary" (or_else (Some su) VNull) 1000 997 = Ok su ->
  truncate "improvement_areas"
    (or_else (Some ia) (str "No specific improvement areas identified."))
    2000 1997 = Ok ia ->
  validateRating (Some (VNum (number_of_Z r))) = Ok r ->
  validateAndSanitizeAnalysis
    (sanitized n e p l o su we ed ts ss pr ce r ia us) fileName
  = Ok (sanitized n e p l o su we ed ts ss pr ce r ia us).
Proof.
  intros Hn He Hp Hl Ho Hwe Hed Hpr Hce Hsu Hia Hr.
  unfold validateAndSanitizeAnalysis, sanitized, get.
  cbn [lookup]. eval_key_eqb. cbn [bind array_or_empty].
  rewrite Hr. cbn [bind].
  rewrite Hwe, Hed, Hpr, Hce. cbn [bind].
  rewrite Hsu, Hia. cbn [bind].
  rewrite Hn, He, Hp, Hl, Ho. reflexivity.
Qed.

(** C10.  The sanitizer is idempotent: run on its own output, under any file
    name, it returns that output unchanged. *)
Theorem sanitizer_idempotent (kv : list (jsstring * value))
    (fileName fileName' : jsstring) (out : value) :
  validateAndSanitizeAnalysis (VObj kv) fileName = Ok out ->
  validateAndSanitizeAnalysis out fileName' = Ok out.
Proof.
  intros H. apply sanitize_inv in H.
  destruct H as (rt & we & ed & pr & ce & su & ia
                 & Hrt & Hwe & Hed & Hpr & Hce & Hsu & Hia & ->).
  assert (L1 : 0 <= 1000) by lia. assert (K1 : Z.of_nat 997 + 3 <= 1000) by lia.
  assert (L2 : 0 <= 2000) by lia. assert (K2 : Z.of_nat 1997 + 3 <= 2000) by lia.
  apply sanitize_sanitized; try apply or_else_idem.
  - eapply mapM_idem; [apply sanitize_work_idem|exact Hwe].
  - eapply mapM_idem; [apply sanitize_education_idem|exact Hed].
  - eapply mapM_idem; [apply sanitize_project_idem|exact Hpr].
  - eapply mapM_idem; [apply sanitize_certification_idem|exact Hce].
  - rewrite (@truncate_or_else _ _ _ _ _ _ _ L1 Hsu).
    exact (@truncate_idem _ _ _ _ _ _ L1 K1 Hsu).
  - rewrite (@truncate_or_else _ _ _ _ _ _ _ L2 Hia).
    exact (@truncate_idem _ _ _ _ _ _ L2 K2 Hia).
  - apply validateRating_fixed. exact (validateRating_range _ _ Hrt).
Qed.

End SanitizerTheorems.

(** C2 (the code departs from the claim).  The rating [5e21] is above 10,
    yet it is sanitized to 5, not 10: [parseInt] reads the string form
    ["5e+21"] and stops at the [e]. *)
Theorem validateRating_exponent_form :
  Number_toString (Finite false 5 21) = lit "5e+21" /\
  number_gt (Finite false 5 21) 10 = true /\
  validateRating (Some (VNum (Finite false 5 21))) = Ok 5.
Proof. repeat split; reflexivity. Qed.

(** The same slip below 1: [5e-7] prints as ["5e-7"] and is rated 5. *)
Lemma validateRating_small_exponent_form :
  Number_toString (Finite false 5 (-7)) = lit "5e-7" /\
  number_gt (Finite false 5 (-7)) 0 = true /\
  number_gt (Finite false 5 (-7)) 1 = false /\
  validateRating (Some (VNum (Finite false 5 (-7)))) = Ok 5.
Proof. repeat split; reflexivity. Qed.

(** A rating that is an object with a [toString] property of its own has
    no string form: [parseInt] throws. *)
Lemma validateRating_unprintable :
  validateRating (Some (VObj [(lit "toString", VNull)])) =
  Throw (EngineError (lit "Cannot convert object to primitive value")).
Proof. reflexivity. Qed.

(** The boundary inputs of the specification: 0, 11, "abc", null and 7.9
    are rated 1, 10, 1, 1 and 7; a missing rating is rated 1. *)
Lemma validateRating_boundary_inputs :
  validateRating (Some (VNum (Finite false 0 0))) = Ok 1 /\
  validateRating (Some (VNum (Finite false 11 0))) = Ok 10 /\
  validateRating (Some (VStr (lit "abc"))) = Ok 1 /\
  validateRating (Some VNull) = Ok 1 /\
  validateRating (Some (VNum (Finite false 79 (-1)))) = Ok 7 /\
  validateRating undefined = Ok 1.
Proof. repeat split; reflexivity. Qed.

(** The sanitizer run on [Demo.answer]. *)
Lemma sanitize_answer (fileName : jsstring) :
  validateAndSanitizeAnalysis (engine := Demo.engine) (VObj Demo.answer)
    fileName = Ok Demo.answer_sanitized.
Proof. vm_compute. reflexivity. Qed.

Lemma sanitized_text_is_capped_witness :
  validateAndSanitizeAnalysis (engine := Demo.engine) (VObj Demo.answer)
    (lit "cv.pdf") = Ok Demo.answer_sanitized /\
  field "summary" Demo.answer_sanitized =
  Some (VStr (repeat 65%N 997 ++ lit "...")).
Proof.
  split; [apply sanitize_answer|].
  apply (proj1 (proj2 (proj2
           (sanitized_text_is_capped (engine := Demo.engine) Demo.answer
              (lit "cv.pdf") Demo.answer_sanitized (sanitize_answer _))))
           (repeat 65%N 1200) eq_refl).
  discriminate.
Defined.

(** C9, the claim as stated fails twice.  A shorter value does not always
    pass through unchanged: the empty summary comes out as [null] and empty
    improvement areas as the placeholder.  And a summary is not always
    capped: one that is not a string passes the test on its [length]
    untouched, so an array that holds 5000 characters comes back whole (its
    [length] is 1, and its string has the 5000 characters). *)
Lemma sanitized_text_is_not_always_capped :
  (validateAndSanitizeAnalysis (engine := Demo.engine)
     (VObj [ (lit "summary", VStr []); (lit "improvement_areas", VStr []) ])
     (lit "cv.pdf")
   = Ok (sanitized VNull VNull VNull VNull VNull VNull [] [] [] [] [] [] 1
           (str "No specific improvement areas identified.") [])) /\
  (validateAndSanitizeAnalysis (engine := Demo.engine)
     (VObj [ (lit "summary", VArr [VStr (repeat 65%N 5000)]) ])
     (lit "cv.pdf")
   = Ok (sanitized VNull VNull VNull VNull VNull
           (VArr [VStr (repeat 65%N 5000)]) [] [] [] [] [] [] 1
           (str "No specific improvement areas identified.") [])) /\
  ToString (VArr [VStr (repeat 65%N 5000)]) = Ok (repeat 65%N 5000) /\
  length (repeat 65%N 5000) = 5000%nat.
Proof.
  split; [reflexivity|]. split; [reflexivity|]. split; [reflexivity|].
  apply repeat_length.
Qed.

Lemma sanitizer_idempotent_witness :
  validateAndSanitizeAnalysis (engine := Demo.engine) (VObj Demo.answer)
    (lit "cv.pdf") = Ok Demo.answer_sanitized /\
  validateAndSanitizeAnalysis (engine := Demo.engine) Demo.answer_sanitized
    (lit "again.pdf") = Ok Demo.answer_sanitized.
Proof.
  split; [apply sanitize_answer|].
  apply (sanitizer_idempotent (engine := Demo.engine) Demo.answer
           (lit "cv.pdf") (lit "again.pdf") Demo.answer_sanitized
           (sanitize_answer _)).
Defined.

(* ================================================================== *)
(** ** The upload endpoint when the pipeline fails *)

Lemma jsstring_eqb_refl (s : jsstring) : jsstring_eqb s s = true.
Proof.
  induction s as [|c s IH]; [reflexivity|].
  simpl. rewrite N.eqb_refl. exact IH.
Qed.

Lemma jsstring_eqb_eq (a b : jsstring) : jsstring_eqb a b = true -> a = b.
Proof.
  revert b. induction a as [|x a IH]; intros [|y b] H;
    try discriminate; [reflexivity|].
  simpl in H. apply andb_prop in H. destruct H as [Hx Hr].
  apply N.eqb_eq in Hx. subst y. rewrite (IH _ Hr). reflexivity.
Qed.

Section UploadFailures.
Context {engine : Engine} {postgres : Postgres}.

(** A file that passes the three checks at the head of [uploadResume]. *)
Lemma uploadResume_accepted (db : database) (w : world) (f : file) :
  mimetype f = lit "application/pdf" ->
  size f <= 5 * 1024 * 1024 ->
  uploadResume db w (Some f) =
  match
    (let* analysisResult := analyzeResume w (buffer f) (originalname f) in
     upload_values f analysisResult)
  with
  | Throw error => (uploadResume_catch error, db)
  | Ok values =>
      let '(result, db') :=
        insert_resume db (CURRENT_TIMESTAMP w) (map param values) in
      match (let* row := result in
             let* savedResume := driver_row row in
             parse_lists savedResume) with
      | Throw error => (uploadResume_catch error, db')
      | Ok savedResume =>
          (Res.mk 201 true (lit "Resume uploaded and analyzed successfully!")
             (Some (Resume savedResume)) None, db')
      end
  end.
Proof.
  intros Hm Hs. unfold uploadResume.
  rewrite Hm, jsstring_eqb_refl. cbv [negb].
  destruct (5 * 1024 * 1024 <? size f) eqn:E; [|reflexivity].
  apply Z.ltb_lt in E. lia.
Qed.

(** Extraction of a text of at least fifty characters (once trimmed). *)
Lemma extractTextFromPDF_ok (w : world) (pdfBuffer : list N)
    (fileName text : jsstring) :
  pdf w pdfBuffer = Ok text ->
  (50 <= length (trim text))%nat ->
  extractTextFromPDF w pdfBuffer fileName = Ok text.
Proof.
  intros Hp Hl. unfold extractTextFromPDF. rewrite Hp. cbn [bind].
  destruct text as [|c text]; [simpl in Hl; lia|].
  change (truthy (VStr (c :: text))) with true. cbv [negb orb].
  destruct (length (trim (c :: text)) =? 0)%nat eqn:E0;
    [apply Nat.eqb_eq in E0; lia|].
  destruct (length (trim (c :: text)) <? 50)%nat eqn:E1;
    [apply Nat.ltb_lt in E1; lia|].
  reflexivity.
Qed.

(** Extraction of a text shorter than fifty characters (once trimmed)
    throws one of the two 400 errors of [extractTextFromPDF]. *)
Lemma extractTextFromPDF_short (w : world) (pdfBuffer : list N)
    (fileName text : jsstring) :
  pdf w pdfBuffer = Ok text ->
  (length (trim text) < 50)%nat ->
  extractTextFromPDF w pdfBuffer fileName =
  Throw (if (length (trim text) =? 0)%nat
         then AppError "PDF appears to be empty or contains only images. Please upload a PDF with text content." 400
         else AppError "PDF contains very little text content. Please ensure the PDF is a proper resume document." 400).
Proof.
  intros Hp Hl. unfold extractTextFromPDF. rewrite Hp. cbn [bind].
  destruct text as [|c text]; [reflexivity|].
  change (truthy (VStr (c :: text))) with true. cbv [negb orb].
  destruct (length (trim (c :: text)) =? 0)%nat eqn:E0; [reflexivity|].
  destruct (length (trim (c :: text)) <? 50)%nat eqn:E1; [reflexivity|].
  apply Nat.ltb_ge in E1. lia.
Qed.

(** An error of the AI call that [analyzeWithAI] takes for a timeout is
    rethrown as the 408 AppError. *)
Lemma analyzeWithAI_timeout (w : world) (text fileName : jsstring)
    (e : error) :
  GOOGLE_API_KEY w = true ->
  generateContent w (createAnalysisPrompt text) = Throw e ->
  instanceof_AppError e = false ->
  msg_includes e "API key" = false ->
  msg_includes e "quota" = false ->
  msg_includes e "QUOTA_EXCEEDED" = false ->
  msg_includes e "RATE_LIMIT" = false ->
  msg_includes e "timeout" || code_is e "ECONNRESET" = true ->
  analyzeWithAI w text fileName =
  Throw (AppError "AI analysis is taking longer than expected. Please try again." 408).
Proof.
  intros Hk Hg Ha H1 H2 H3 H4 H5. unfold analyzeWithAI.
  rewrite Hk, Hg. cbn [negb bind try_catch].
  rewrite Ha, H1, H2, H3, H4, H5. reflexivity.
Qed.

(** Whatever error the AI call throws, [analyzeWithAI] throws an AppError
    that [uploadResume] answers with its generic 500. *)
Lemma analyzeWithAI_failure (w : world) (text fileName : jsstring)
    (e : error) :
  GOOGLE_API_KEY w = true ->
  generateContent w (createAnalysisPrompt text) = Throw e ->
  instanceof_AppError e = false ->
  exists e',
    analyzeWithAI w text fileName = Throw e' /\
    uploadResume_catch e' =
    respond 500 false "An error occurred while processing your resume. Please try again.".
Proof.
  intros Hk Hg Ha. unfold analyzeWithAI.
  rewrite Hk, Hg. cbn [negb bind try_catch]. rewrite Ha.
  destruct (msg_includes e "API key");
    [eexists; split; [reflexivity|vm_compute; reflexivity]|].
  destruct (msg_includes e "quota" || msg_includes e "QUOTA_EXCEEDED");
    [eexists; split; [reflexivity|vm_compute; reflexivity]|].
  destruct (msg_includes e "RATE_LIMIT");
    [eexists; split; [reflexivity|vm_compute; reflexivity]|].
  destruct (msg_includes e "timeout" || code_is e "ECONNRESET");
    eexists; (split; [reflexivity|vm_compute; reflexivity]).
Qed.

(** C3 (the code departs from the claim).  When the AI call of an accepted
    upload times out, no row is created, but the response is the generic
    500 of [uploadResume]'s catch, not 408. *)
Theorem upload_timeout_responds_500 (db : database) (w : world) (f : file)
    (text : jsstring) (e : error) :
  mimetype f = lit "application/pdf" ->
  size f <= 5 * 1024 * 1024 ->
  pdf w (buffer f) = Ok text ->
  (50 <= length (trim text))%nat ->
  GOOGLE_API_KEY w = true ->
  generateContent w (createAnalysisPrompt text) = Throw e ->
  instanceof_AppError e = false ->
  msg_includes e "timeout" || code_is e "ECONNRESET" = true ->
  uploadResume db w (Some f) =
  (respond 500 false "An error occurred while processing your resume. Please try again.", db).
Proof.
  intros Hm Hs Hp Hl Hk Hg Ha _.
  rewrite uploadResume_accepted by assumption.
  unfold analyzeResume.
  rewrite (extractTextFromPDF_ok w (buffer f) (originalname f) text Hp Hl).
  cbn [bind].
  destruct (analyzeWithAI_failure w text (originalname f) e Hk Hg Ha)
    as (e' & E1 & E2).
  rewrite E1. cbn [bind]. rewrite E2. reflexivity.
Qed.

(** C4 (the code departs from the claim).  When the text extracted from an
    accepted upload is shorter than fifty characters, no row is created, but
    the response is the generic 500 of [uploadResume]'s catch, not 400. *)
Theorem upload_short_text_responds_500 (db : database) (w : world)
    (f : file) (text : jsstring) :
  mimetype f = lit "application/pdf" ->
  size f <= 5 * 1024 * 1024 ->
  pdf w (buffer f) = Ok text ->
  (0 < length (trim text) < 50)%nat ->
  extractTextFromPDF w (buffer f) (originalname f) =
    Throw (AppError "PDF contains very little text content. Please ensure the PDF is a proper resume document." 400) /\
  uploadResume db w (Some f) =
  (respond 500 false "An error occurred while processing your resume. Please try again.", db).
Proof.
  intros Hm Hs Hp Hl.
  assert (E : extractTextFromPDF w (buffer f) (originalname f) =
              Throw (AppError "PDF contains very little text content. Please ensure the PDF is a proper resume document." 400)).
  { rewrite (extractTextFromPDF_short w (buffer f) (originalname f) text Hp)
      by lia.
    destruct (length (trim text) =? 0)%nat eqn:E0; [|reflexivity].
    apply Nat.eqb_eq in E0. lia. }
  split; [exact E|].
  rewrite uploadResume_accepted by assumption.
  unfold analyzeResume. rewrite E. reflexivity.
Qed.

End UploadFailures.

(* ================================================================== *)
(** ** The statistics endpoint *)

Section Statistics.
Context {engine : Engine} {postgres : Postgres}.

(** C5 (the code departs from the claim).  On an empty table the statistics
    endpoint answers 200 with [total_resumes] 0, but [avg_rating] is NaN:
    AVG is NULL and [parseFloat(null)] is NaN, which nothing replaces by 0. *)
Theorem stats_of_empty_table (next : Z) :
  getResumeStats (mkDatabase [] next) =
  Res.mk 200 true (lit "Resume statistics retrieved successfully")
    (Some (Statistics
       (mkStats (Some 0) NaN None None (Some 0) (Some 0) (Some 0))))
    None.
Proof. reflexivity. Qed.

(** The statistics endpoint always answers 200; with no rating in the table
    its [total_resumes] is the number of rows and its [avg_rating] is NaN. *)
Lemma stats_status (db : database) : Res.status (getResumeStats db) = 200.
Proof.
  unfold getResumeStats, parseInt, parseFloat, opt_str, opt_int.
  destruct (q_avg_rating (select_stats db));
    destruct (q_max_rating (select_stats db));
    destruct (q_min_rating (select_stats db)); reflexivity.
Qed.

Lemma stats_without_ratings (db : database) :
  ratings db = [] ->
  getResumeStats db =
  Res.mk 200 true (lit "Resume statistics retrieved successfully")
    (Some (Statistics
       (mkStats (Some (Z.of_nat (length (rows db)))) NaN None None
          (Some 0) (Some 0) (Some 0))))
    None.
Proof.
  intros H. unfold getResumeStats, select_stats. rewrite H.
  cbn [q_total_resumes q_avg_rating q_max_rating q_min_rating
       q_high_rated_count q_medium_rated_count q_low_rated_count extreme].
  unfold parseInt at 1. cbn [ToString_opt ToString bind].
  rewrite parseInt_string_decimal, nat_N_Z. reflexivity.
Qed.

End Statistics.

Lemma upload_timeout_responds_500_witness :
  uploadResume (engine := Demo.engine) (postgres := Demo.postgres)
    Demo.empty_table Demo.timed_out (Some Demo.cv) =
  (respond 500 false "An error occurred while processing your resume. Please try again.",
   Demo.empty_table).
Proof.
  apply (upload_timeout_responds_500 (engine := Demo.engine)
           (postgres := Demo.postgres) Demo.empty_table Demo.timed_out
           Demo.cv Demo.resume_text
           (mkError (lit "Request timeout") None None));
    vm_compute; first [reflexivity | discriminate | lia].
Defined.

Lemma upload_short_text_responds_500_witness :
  uploadResume (engine := Demo.engine) (postgres := Demo.postgres)
    Demo.empty_table Demo.short_pdf (Some Demo.cv) =
  (respond 500 false "An error occurred while processing your resume. Please try again.",
   Demo.empty_table).
Proof.
  apply (upload_short_text_responds_500 (engine := Demo.engine)
           (postgres := Demo.postgres) Demo.empty_table Demo.short_pdf
           Demo.cv (lit "John Smith"));
    vm_compute; first [reflexivity | discriminate | lia].
Defined.

(* ================================================================== *)
(** ** Reading and deleting by id *)

Lemma filter_nil {A} (p : A -> bool) (l : list A) :
  (forall x, In x l -> p x = false) -> filter p l = [].
Proof.
  induction l as [|x l IH]; intros H; [reflexivity|].
  simpl. rewrite (H x (or_introl eq_refl)). apply IH.
  intros y Hy. apply H. right. exact Hy.
Qed.

Lemma filter_all {A} (p : A -> bool) (l : list A) :
  (forall x, In x l -> p x = true) -> filter p l = l.
Proof.
  induction l as [|x l IH]; intros H; [reflexivity|].
  simpl. rewrite (H x (or_introl eq_refl)). f_equal. apply IH.
  intros y Hy. apply H. right. exact Hy.
Qed.

Section ById.
Context {engine : Engine} {postgres : Postgres}.

Lemma parsed_id_not_empty (id : jsstring) (n : Z) :
  parseInt_string id = Some n -> truthy (VStr id) = true.
Proof. destruct id; [discriminate|reflexivity]. Qed.

Lemma parsed_id_valid (id : jsstring) (n : Z) :
  parseInt_string id = Some n -> invalid_id id = false.
Proof.
  intros H. unfold invalid_id.
  rewrite (parsed_id_not_empty id n H), H. reflexivity.
Qed.

Lemma select_absent (db : database) (id : jsstring) (n : Z) :
  integer_in id = Ok n ->
  (forall r, In r (rows db) -> Row.id r <> n) ->
  select_by_id db id = Ok [].
Proof.
  intros Hi Ha. unfold select_by_id. rewrite Hi. cbn [bind].
  rewrite filter_nil; [reflexivity|].
  intros r Hr. apply Z.eqb_neq. apply Ha. exact Hr.
Qed.

Lemma delete_absent (db : database) (id : jsstring) (n : Z) :
  integer_in id = Ok n ->
  (forall r, In r (rows db) -> Row.id r <> n) ->
  delete_by_id db id = (Ok [], db).
Proof.
  intros Hi Ha. unfold delete_by_id. rewrite Hi.
  rewrite filter_nil, filter_all.
  - destruct db; reflexivity.
  - intros r Hr. apply negb_true_iff, Z.eqb_neq, Ha, Hr.
  - intros r Hr. apply Z.eqb_neq, Ha, Hr.
Qed.

(** An id text that [parseInt] and the server both read as the positive
    integer [n], with no row of that id. *)
Lemma absent_id_text (db : database) (id : jsstring) (n : Z) (k : nat) :
  parseInt_string id = Some n -> 0 < n ->
  integer_in id = Ok n ->
  (forall r, In r (rows db) -> Row.id r <> n) ->
  validateResumeId id = None /\
  getResumeById db id = respond 404 false "Resume not found." /\
  deleteResume db id = (respond 404 false "Resume not found.", db) /\
  delete_times k db id =
    (repeat (respond 404 false "Resume not found.") k, db).
Proof.
  intros Hp Hn Hi Ha.
  assert (D : deleteResume db id =
              (respond 404 false "Resume not found.", db)).
  { unfold deleteResume.
    rewrite (parsed_id_valid id n Hp), (delete_absent db id n Hi Ha).
    reflexivity. }
  repeat split.
  - unfold validateResumeId.
    rewrite (parsed_id_not_empty id n Hp), Hp. cbv [negb].
    destruct (n <=? 0) eqn:E; [apply Z.leb_le in E; lia|reflexivity].
  - unfold getResumeById.
    rewrite (parsed_id_valid id n Hp), (select_absent db id n Hi Ha).
    reflexivity.
  - exact D.
  - induction k as [|k IH]; [reflexivity|].
    cbn [delete_times]. rewrite D, IH. reflexivity.
Qed.

(** What holds of an absent id.  For every positive integer [n] with no
    row of that id that the server reads as [n], the request for
    [/api/resumes/n] passes the route check, and both GET and DELETE answer
    404 with [{ success: false, message: "Resume not found." }]; DELETE
    leaves the table as it was, so the answer is the same however often it
    is repeated. *)
Lemma absent_id_is_not_found (db : database) (n : Z) (k : nat) :
  0 < n ->
  integer_in (decimal (Z.to_N n)) = Ok n ->
  (forall r, In r (rows db) -> Row.id r <> n) ->
  validateResumeId (decimal (Z.to_N n)) = None /\
  getResumeById db (decimal (Z.to_N n)) =
    respond 404 false "Resume not found." /\
  deleteResume db (decimal (Z.to_N n)) =
    (respond 404 false "Resume not found.", db) /\
  delete_times k db (decimal (Z.to_N n)) =
    (repeat (respond 404 false "Resume not found.") k, db).
Proof.
  intros Hn Hi Ha. apply (absent_id_text db _ n k); try assumption.
  rewrite parseInt_string_decimal. f_equal. lia.
Qed.

Lemma route_check_valid (id : jsstring) :
  validateResumeId id = None -> invalid_id id = false.
Proof.
  unfold validateResumeId, invalid_id.
  destruct (negb (truthy (VStr id))); [discriminate|].
  destruct (parseInt_string id); [reflexivity|discriminate].
Qed.

(** C7 (the code departs from the claim).  An id that passes the route
    check and the check of the controller but that the server cannot read
    as an [integer] is answered 500 by GET and by DELETE, not 404: so it is
    with the positive integer 2147483648, the first beyond the range of the
    [id] column, which no row can have. *)
Theorem unreadable_id_responds_500 (db : database) (id : jsstring)
    (e : error) :
  validateResumeId id = None ->
  integer_in id = Throw e ->
  getResumeById db id =
    respond 500 false "An error occurred while fetching the resume." /\
  deleteResume db id =
    (respond 500 false "An error occurred while deleting the resume.", db).
Proof.
  intros Hv Hi. apply route_check_valid in Hv. split.
  - unfold getResumeById, select_by_id. rewrite Hv, Hi. reflexivity.
  - unfold deleteResume, delete_by_id. rewrite Hv, Hi. reflexivity.
Qed.

End ById.

(** The server reads a decimal numeral below [2^31] as its number; with
    [absent_id_is_not_found], an absent id from 1 to 2147483647 is answered
    404 on such a server. *)
Lemma decimal_digits_all (ds : list N) (acc : N) :
  Forall (fun d => (d < 10)%N) ds ->
  decimal_digits (map digit_char ds) acc = (digits_value ds acc, []).
Proof.
  intros H. revert acc.
  induction H as [|d ds Hlt _ IH]; intros acc; [reflexivity|].
  assert (C : (d = 0 \/ d = 1 \/ d = 2 \/ d = 3 \/ d = 4 \/ d = 5 \/ d = 6
               \/ d = 7 \/ d = 8 \/ d = 9)%N) by lia.
  repeat destruct C as [C|C]; subst d;
    cbn [map decimal_digits digit_char N.add N.leb N.compare Pos.compare
         Pos.compare_cont andb];
    rewrite IH; reflexivity.
Qed.

Lemma int4in_decimal (n : N) :
  (n < 2 ^ 31)%N -> int4in (decimal n) = Ok (Z.of_N n).
Proof.
  intros Hn. unfold decimal.
  pose proof (digits_value_digits n) as V.
  pose proof (uint_digits_lt10 (N.to_uint n)) as F. fold (digits n) in F.
  destruct (digits n) as [|d ds] eqn:E; [destruct (digits_not_nil n E)|].
  pose proof (@decimal_digits_all (d :: ds) 0%N F) as D.
  pose proof (Forall_inv F) as Hlt. cbv beta in Hlt.
  assert (C : (d = 0 \/ d = 1 \/ d = 2 \/ d = 3 \/ d = 4 \/ d = 5 \/ d = 6
               \/ d = 7 \/ d = 8 \/ d = 9)%N) by lia.
  unfold int4in.
  repeat destruct C as [C|C]; subst d; cbn [map] in D |- *;
    match goal with
    | |- context [digit_char ?k :: _] =>
        let c := eval vm_compute in (digit_char k) in
        change (digit_char k) with c in *
    end;
    cbn [skip_spaces is_space existsb N.eqb Pos.eqb orb
         N.leb N.compare Pos.compare Pos.compare_cont andb];
    rewrite D, V; cbn [skip_spaces];
    (destruct ((- 2 ^ 31 <=? Z.of_N n) && (Z.of_N n <? 2 ^ 31)) eqn:R;
     [reflexivity|];
     apply andb_false_iff in R;
     destruct R as [R|R]; [apply Z.leb_gt in R|apply Z.ltb_ge in R]; lia).
Qed.

(** [GET /api/resumes/999999] and [DELETE /api/resumes/999999] on a table
    without that id. *)
Lemma absent_id_is_not_found_example :
  getResumeById (engine := Demo.engine) (postgres := Demo.postgres)
    Demo.empty_table (lit "999999") =
    respond 404 false "Resume not found." /\
  delete_times (postgres := Demo.postgres) 3
    Demo.empty_table (lit "999999") =
    (repeat (respond 404 false "Resume not found.") 3, Demo.empty_table).
Proof.
  pose proof (absent_id_is_not_found (engine := Demo.engine)
                (postgres := Demo.postgres) Demo.empty_table
                999999 3 eq_refl (int4in_decimal 999999 eq_refl)
                (fun r (H : In r []) => match H with end)) as W.
  split; [exact (proj1 (proj2 W))|exact (proj2 (proj2 (proj2 W)))].
Qed.

(** [GET /api/resumes/2147483648] and [DELETE /api/resumes/2147483648]. *)
Lemma unreadable_id_responds_500_witness :
  validateResumeId (lit "2147483648") = None /\
  getResumeById (engine := Demo.engine) (postgres := Demo.postgres)
    Demo.empty_table (lit "2147483648") =
    respond 500 false "An error occurred while fetching the resume." /\
  deleteResume (postgres := Demo.postgres)
    Demo.empty_table (lit "2147483648") =
    (respond 500 false "An error occurred while deleting the resume.",
     Demo.empty_table).
Proof.
  split; [reflexivity|].
  exact (unreadable_id_responds_500 (engine := Demo.engine)
           (postgres := Demo.postgres) Demo.empty_table (lit "2147483648")
           (integer_out_of_range (lit "2147483648")) eq_refl eq_refl).
Defined.

(* ================================================================== *)
(** ** The list endpoint *)

Section Listing.
Context {engine : Engine} {postgres : Postgres}.

Lemma insert_desc_perm (r : stored) (l : list stored) :
  Permutation (insert_desc r l) (r :: l).
Proof.
  induction l as [|x l IH]; simpl; [apply Permutation_refl|].
  destruct (Row.uploaded_at x <? Row.uploaded_at r).
  - apply Permutation_refl.
  - eapply perm_trans; [apply perm_skip, IH|apply perm_swap].
Qed.

Lemma order_by_perm (l : list stored) :
  Permutation (order_by_uploaded_at_desc l) l.
Proof.
  induction l as [|x l IH]; simpl; [apply perm_nil|].
  eapply perm_trans; [apply insert_desc_perm|apply perm_skip, IH].
Qed.

Lemma insert_desc_sorted (r : stored) (l : list stored) :
  StronglySorted stored_newer_first l ->
  StronglySorted stored_newer_first (insert_desc r l).
Proof.
  induction 1 as [|x l Hl IH Hx]; simpl.
  - constructor; constructor.
  - destruct (Row.uploaded_at x <? Row.uploaded_at r) eqn:E.
    + apply Z.ltb_lt in E. constructor; [constructor; assumption|].
      constructor; [unfold stored_newer_first; lia|].
      eapply Forall_impl; [|exact Hx].
      unfold stored_newer_first. intros y Hy. lia.
    + apply Z.ltb_ge in E. constructor; [exact IH|].
      apply (Permutation_Forall (Permutation_sym (insert_desc_perm r l))).
      constructor; [exact E|exact Hx].
Qed.

Lemma order_by_sorted (l : list stored) :
  StronglySorted stored_newer_first (order_by_uploaded_at_desc l).
Proof.
  induction l as [|x l IH]; simpl; [constructor|].
  apply insert_desc_sorted, IH.
Qed.

Lemma summaries_sorted (l : list stored) :
  StronglySorted stored_newer_first l ->
  StronglySorted newer_first (map summary_of l).
Proof.
  induction 1 as [|x l Hl IH Hx]; simpl; constructor; [exact IH|].
  apply Forall_map. exact Hx.
Qed.

Lemma select_summaries_length (db : database) :
  length (select_summaries db) = length (rows db).
Proof.
  unfold select_summaries. rewrite length_map.
  apply Permutation_length, order_by_perm.
Qed.

Lemma uploadResume_catch_status (e : error) :
  Res.status (uploadResume_catch e) <> 201.
Proof.
  unfold uploadResume_catch.
  destruct (msg_includes e "PDF parsing failed"); [discriminate|].
  destruct (msg_includes e "AI analysis failed"); [discriminate|].
  destruct (code_is e "23505"); discriminate.
Qed.

(** What [INSERT ... RETURNING] does to the table: a returned row has the
    next id, which no older row has, and is added at the end; a failed
    statement adds nothing. *)
Lemma insert_resume_rows (db : database) (now : Z)
    (values : list (option jsstring)) (res : result stored)
    (db' : database) :
  insert_resume db now values = (res, db') ->
  match res with
  | Ok r => rows db' = rows db ++ [r] /\ Row.id r = next_id db /\
            (forall x, In x (rows db) -> Row.id x <> next_id db)
  | Throw _ => rows db' = rows db
  end.
Proof.
  unfold insert_resume.
  do 16 (destruct values as [|? values];
         [intros H; inversion H; subst; reflexivity|]).
  destruct values; [|intros H; inversion H; subst; reflexivity].
  destruct (integer_param _) as [rating|e];
    [|intros H; inversion H; subst; reflexivity].
  destruct (constraint_violation _);
    [intros H; inversion H; subst; reflexivity|].
  destruct (existsb (fun x => Row.id x =? next_id db) (rows db)) eqn:E;
    intros H; inversion H; subst; [reflexivity|].
  repeat split. intros x Hx Hid.
  assert (T : existsb (fun x => Row.id x =? next_id db) (rows db) = true).
  { apply existsb_exists. exists x. split; [exact Hx|].
    apply Z.eqb_eq. exact Hid. }
  congruence.
Qed.

(** An upload answered 201 has stored its record. *)
Lemma uploadResume_created (db : database) (w : world)
    (req_file : option file) (res : Res.t) (db' : database) :
  uploadResume db w req_file = (res, db') ->
  Res.status res = 201 ->
  stores_record db db'.
Proof.
  unfold uploadResume. intros H S.
  destruct req_file as [f|];
    [|inversion H; subst; discriminate S].
  destruct (negb _); [inversion H; subst; discriminate S|].
  destruct (_ <? size f); [inversion H; subst; discriminate S|].
  destruct (bind _ _) as [values|e];
    [|inversion H; subst; destruct (uploadResume_catch_status e S)].
  destruct (insert_resume db (CURRENT_TIMESTAMP w) (map param values))
    as [result db1] eqn:I.
  apply insert_resume_rows in I.
  destruct result as [saved|e]; cbn [bind] in H.
  - destruct I as (I & Id & _). exists saved.
    destruct (bind (driver_row saved) _); inversion H; subst;
      [split; [exact I|exact Id]|].
    destruct (uploadResume_catch_status _ S).
  - inversion H; subst. destruct (uploadResume_catch_status _ S).
Qed.

(** Strings by pairs of code units, and the characters of a string. *)
Lemma pair_induction (P : jsstring -> Prop) :
  P [] -> (forall h, P [h]) ->
  (forall h l s, P s -> P (l :: s) -> P (h :: l :: s)) ->
  forall s, P s.
Proof.
  intros H0 H1 H2 s.
  assert (A : P s /\ forall h, P (h :: s)); [|exact (proj1 A)].
  induction s as [|c s [IH1 IH2]]; [split; [exact H0|exact H1]|].
  split; [apply IH2|]. intros h. apply H2; [exact IH1|apply IH2].
Qed.

Lemma characters_eq (h l : N) (s : jsstring) :
  characters (h :: l :: s) =
  if is_high_surrogate h && is_low_surrogate l
  then [h; l] :: characters s
  else [h] :: characters (l :: s).
Proof. reflexivity. Qed.

Lemma concat_characters (s : jsstring) : concat (characters s) = s.
Proof.
  induction s as [| h | h l s IH1 IH2] using pair_induction;
    [reflexivity|reflexivity|].
  rewrite characters_eq.
  destruct (is_high_surrogate h && is_low_surrogate l); cbn [concat app].
  - rewrite IH1. reflexivity.
  - rewrite IH2. reflexivity.
Qed.

Lemma characters_shape (s : jsstring) :
  Forall (fun c => (exists u, c = [u]) \/
                   (exists h l, c = [h; l] /\ is_high_surrogate h = true
                                /\ is_low_surrogate l = true))
    (characters s).
Proof.
  induction s as [| h | h l s IH1 IH2] using pair_induction.
  - constructor.
  - constructor; [left; eexists; reflexivity|constructor].
  - rewrite characters_eq.
    destruct (is_high_surrogate h && is_low_surrogate l) eqn:E.
    + apply andb_prop in E. constructor; [|exact IH1].
      right. exists h, l. tauto.
    + constructor; [left; eexists; reflexivity|exact IH2].
Qed.

(** No two neighbours among the characters of a string are the halves of
    a pair: the pairs are all taken. *)
Lemma characters_first (l : N) (s : jsstring) (c : jsstring)
    (cs : list jsstring) :
  characters (l :: s) = c :: cs -> exists r, c = l :: r.
Proof.
  destruct s as [|l2 s]; [intros H; inversion H; eexists; reflexivity|].
  rewrite characters_eq.
  destruct (is_high_surrogate l && is_low_surrogate l2);
    intros H; inversion H; eexists; reflexivity.
Qed.

Lemma characters_maximal (s : jsstring) :
  forall (a : list jsstring) (h l : N) (b : list jsstring),
    characters s = a ++ [h] :: [l] :: b ->
    is_high_surrogate h && is_low_surrogate l = false.
Proof.
  induction s as [| h0 | h0 l0 s IH1 IH2] using pair_induction;
    intros a h l b H.
  - destruct a; discriminate H.
  - destruct a as [|c [|c' a]]; discriminate H.
  - rewrite characters_eq in H.
    destruct (is_high_surrogate h0 && is_low_surrogate l0) eqn:E.
    + destruct a as [|c a]; [discriminate H|].
      inversion H. eapply IH1. eassumption.
    + destruct a as [|c a].
      * cbn [app] in H. injection H as Hh Hc. subst h0.
        destruct (characters_first l0 s [l] b Hc) as [r Hr].
        injection Hr as Hl _. subst l0. exact E.
      * inversion H. eapply IH2. eassumption.
Qed.

(** A text that does not start with a low surrogate. *)
Definition starts_apart (b : jsstring) : Prop :=
  match b with
  | l :: _ => is_low_surrogate l = false
  | [] => True
  end.

Lemma characters_single (h : N) (b : jsstring) :
  starts_apart b -> characters (h :: b) = [h] :: characters b.
Proof.
  destruct b as [|l b]; [reflexivity|]. cbn [starts_apart]. intros Hb.
  rewrite characters_eq, Hb, andb_false_r. reflexivity.
Qed.

Lemma characters_head (l : N) (s b : jsstring) (n : nat) :
  exists Y, concat (firstn (S n) (characters (l :: s))) ++ b = l :: Y.
Proof.
  destruct s as [|l2 s]; [eexists; reflexivity|].
  rewrite characters_eq.
  destruct (is_high_surrogate l && is_low_surrogate l2);
    eexists; reflexivity.
Qed.

(** The first [n] characters of a string, followed by such a text, are
    these characters and those of the text. *)
Lemma characters_cut (b : jsstring) :
  starts_apart b ->
  forall (s : jsstring) (n : nat),
    characters (concat (firstn n (characters s)) ++ b) =
    firstn n (characters s) ++ characters b.
Proof.
  intros Hb s.
  induction s as [| h | h l s IH1 IH2] using pair_induction; intros n.
  - cbn [characters]. rewrite firstn_nil. reflexivity.
  - destruct n as [|n]; [reflexivity|].
    cbn [characters firstn]. rewrite firstn_nil. cbn [concat app].
    apply characters_single, Hb.
  - destruct n as [|n]; [reflexivity|].
    rewrite characters_eq.
    destruct (is_high_surrogate h && is_low_surrogate l) eqn:E;
      cbn [firstn concat app].
    + rewrite characters_eq, E, IH1. reflexivity.
    + rewrite <- IH2. destruct n as [|n].
      * cbn [firstn concat app]. apply characters_single, Hb.
      * destruct (characters_head l s b n) as [Y ->].
        rewrite characters_eq, E. reflexivity.
Qed.

Lemma preview_characters (t : jsstring) :
  (length (characters (concat (firstn 100 (characters t)) ++ lit "..."))
   <= 103)%nat.
Proof.
  rewrite characters_cut by reflexivity.
  rewrite length_app. pose proof (firstn_le_length 100 (characters t)).
  change (length (characters (lit "..."))) with 3%nat. lia.
Qed.

(** C8.  The list endpoint answers 200 with one summary per stored row,
    newest [uploaded_at] first, and with their count.  A summary is the
    projection of its row: the id, file name, upload time, name, email
    and rating of the row, and its improvement areas cut to their first 100
    characters and "..." when they have more than 100 characters; the
    characters of a text are its code units, a surrogate pair taken as one
    character.  An
    upload answered 201 has stored its record, and after three uploads
    that stored their records on an empty table the endpoint returns
    exactly three summaries. *)
Theorem list_returns_all_newest_first :
  (forall db : database,
     exists rs : list stored,
       Permutation rs (rows db) /\
       StronglySorted stored_newer_first rs /\
       getAllResumes db =
         Res.mk 200 true (lit "Resumes retrieved successfully")
           (Some (Summaries
              (map (fun r =>
                      mkSummary (Row.id r) (Row.file_name r)
                        (Row.uploaded_at r) (Row.name r) (Row.email r)
                        (Row.resume_rating r)
                        (match Row.improvement_areas r with
                         | Some t =>
                             Some (if (100 <? length (characters t))%nat
                                   then concat (firstn 100 (characters t))
                                        ++ lit "..."
                                   else t)
                         | None => None
                         end)) rs)))
           (Some (length (rows db)))) /\
  (forall t : jsstring,
     concat (characters t) = t /\
     Forall (fun c => (exists u, c = [u]) \/
                      (exists h l, c = [h; l] /\ is_high_surrogate h = true
                                   /\ is_low_surrogate l = true))
       (characters t) /\
     (forall a h l b, characters t = a ++ [h] :: [l] :: b ->
                      is_high_surrogate h && is_low_surrogate l = false)) /\
  (forall (db : database) (w : world) (f : option file) (res : Res.t)
          (db' : database),
     uploadResume db w f = (res, db') -> Res.status res = 201 ->
     stores_record db db') /\
  (forall (next : Z) (w1 w2 w3 : world) (f1 f2 f3 : option file)
          (r1 r2 r3 : Res.t) (db1 db2 db3 : database),
     uploadResume (mkDatabase [] next) w1 f1 = (r1, db1) ->
     uploadResume db1 w2 f2 = (r2, db2) ->
     uploadResume db2 w3 f3 = (r3, db3) ->
     stores_record (mkDatabase [] next) db1 ->
     stores_record db1 db2 -> stores_record db2 db3 ->
     exists l,
       Res.data (getAllResumes db3) = Some (Summaries l) /\
       length l = 3%nat /\
       Res.count (getAllResumes db3) = Some 3%nat /\
       StronglySorted newer_first l).
Proof.
  split; [|split; [|split]].
  - intros db. exists (order_by_uploaded_at_desc (rows db)).
    split; [apply order_by_perm|]. split; [apply order_by_sorted|].
    unfold getAllResumes. rewrite select_summaries_length.
    unfold select_summaries. do 3 f_equal.
    apply map_ext. intros r. unfold summary_of, preview.
    destruct (Row.improvement_areas r) as [t|]; [|reflexivity].
    destruct (100 <? length (characters t))%nat; reflexivity.
  - intros t. split; [apply concat_characters|].
    split; [apply characters_shape|apply characters_maximal].
  - intros db w f res db'. apply uploadResume_created.
  - intros next w1 w2 w3 f1 f2 f3 r1 r2 r3 db1 db2 db3 _ _ _
           (x1 & E1 & _) (x2 & E2 & _) (x3 & E3 & _).
    assert (L : length (rows db3) = 3%nat)
      by (rewrite E3, E2, E1; reflexivity).
    exists (select_summaries db3). unfold getAllResumes.
    cbn [Res.data Res.count].
    rewrite select_summaries_length, L.
    repeat split. apply summaries_sorted, order_by_sorted.
Qed.

End Listing.

(** Three uploads that stored their records, the second the newest. *)
Lemma list_returns_all_newest_first_witness :
  Res.count (getAllResumes (snd Demo.up3)) = Some 3%nat /\
  map s_uploaded_at (select_summaries (snd Demo.up3)) = [30; 20; 10].
Proof.
  assert (S1 : stores_record Demo.empty_table (snd Demo.up1))
    by (eexists; split; vm_compute; reflexivity).
  assert (S2 : stores_record (snd Demo.up1) (snd Demo.up2))
    by (eexists; split; vm_compute; reflexivity).
  assert (S3 : stores_record (snd Demo.up2) (snd Demo.up3))
    by (eexists; split; vm_compute; reflexivity).
  destruct (proj2 (proj2 (proj2 (list_returns_all_newest_first
              (engine := Demo.engine) (postgres := Demo.postgres))))
            1 (Demo.fine 10) (Demo.fine 30) (Demo.fine 20)
            (Some Demo.cv) (Some Demo.cv) (Some Demo.cv)
            (fst Demo.up1) (fst Demo.up2) (fst Demo.up3)
            (snd Demo.up1) (snd Demo.up2) (snd Demo.up3)
            (surjective_pairing Demo.up1) (surjective_pairing Demo.up2)
            (surjective_pairing Demo.up3) S1 S2 S3)
    as (l & _ & _ & C & _).
  split; [exact C|vm_compute; reflexivity].
Defined.

(* ================================================================== *)
(** ** Storing an analysis and reading it back *)

Section RoundTrip.
Context {engine : Engine} {postgres : Postgres}.

(** [analyzeWithAI] only returns what the sanitizer returned. *)
Lemma analyzeWithAI_sanitized (w : world) (text fileName : jsstring)
    (a : value) :
  analyzeWithAI w text fileName = Ok a ->
  exists analysis, validateAndSanitizeAnalysis analysis fileName = Ok a.
Proof.
  unfold analyzeWithAI, try_catch.
  match goal with
  | |- match ?body with _ => _ end = _ -> _ => destruct body as [r|e] eqn:B
  end.
  - intros H. inversion H; subst. clear H.
    destruct (negb (GOOGLE_API_KEY w)); [discriminate|].
    destruct (generateContent w _) as [aiResponse|]; [|discriminate].
    cbn [bind] in B.
    destruct (indexOf _ 123%N) as [firstBrace|]; [|discriminate].
    destruct (lastIndexOf _ 125%N) as [lastBrace|]; [|discriminate].
    destruct (JSON_parse _) as [analysis|]; [|discriminate].
    cbn [bind] in B. exists analysis. exact B.
  - destruct (instanceof_AppError e); [discriminate|].
    destruct (msg_includes e "API key"); [discriminate|].
    destruct (msg_includes e "quota" || msg_includes e "QUOTA_EXCEEDED");
      [discriminate|].
    destruct (msg_includes e "RATE_LIMIT"); [discriminate|].
    destruct (msg_includes e "timeout" || code_is e "ECONNRESET");
      discriminate.
Qed.

(** [analyzeResume] returns the annotated object of the fifteen fields. *)
Lemma analyzeResume_shape (w : world) (pdfBuffer : list N)
    (fileName : jsstring) (a : value) :
  analyzeResume w pdfBuffer fileName = Ok a ->
  exists n e p l o su we ed ts ss pr ce r ia us t,
    a = annotated (sanitized n e p l o su we ed ts ss pr ce r ia us)
          (toISOString w) fileName t.
Proof.
  unfold analyzeResume. intros H.
  destruct (extractTextFromPDF w pdfBuffer fileName) as [text|];
    [|discriminate].
  cbn [bind] in H.
  destruct (analyzeWithAI w text fileName) as [a0|] eqn:A; [|discriminate].
  cbn [bind] in H. inversion H; subst; clear H.
  apply analyzeWithAI_sanitized in A. destruct A as [analysis A].
  apply sanitize_is_sanitized in A.
  destruct A as (n & e & p & l & o & su & we & ed & ts & ss & pr & ce & r
                 & ia & us & -> & _).
  do 15 eexists. exists (length text). reflexivity.
Qed.

(** The parameters of the INSERT for such a record. *)
Lemma upload_values_annotated (f : file) (n e p l o su : value)
    (we ed ts ss pr ce : list value) (r : Z) (ia : value) (us : list value)
    (at_ fn : jsstring) (t : nat) :
  upload_values f
    (annotated (sanitized n e p l o su we ed ts ss pr ce r ia us) at_ fn t)
  = Ok [ Some (VStr (originalname f));
         Some n; Some e; Some p; Some l; Some o; Some su;
         stringify (Some (VArr we)); stringify (Some (VArr ed));
         stringify (Some (VArr ts)); stringify (Some (VArr ss));
         stringify (Some (VArr pr)); stringify (Some (VArr ce));
         Some (VNum (number_of_Z r)); Some ia;
         stringify (Some (VArr us)) ].
Proof. reflexivity. Qed.

Lemma field_annotated (n e p l o su : value)
    (we ed ts ss pr ce : list value) (r : Z) (ia : value) (us : list value)
    (at_ fn : jsstring) (t : nat) :
  let a := annotated (sanitized n e p l o su we ed ts ss pr ce r ia us)
             at_ fn t in
  field "work_experience" a = Some (VArr we) /\
  field "education" a = Some (VArr ed) /\
  field "technical_skills" a = Some (VArr ts) /\
  field "soft_skills" a = Some (VArr ss) /\
  field "projects" a = Some (VArr pr) /\
  field "certifications" a = Some (VArr ce) /\
  field "upskill_suggestions" a = Some (VArr us).
Proof. repeat split; reflexivity. Qed.

Lemma filter_last_only (l : list stored) (r : stored) (n : Z) :
  (forall x, In x l -> Row.id x <> n) -> Row.id r = n ->
  filter (fun x => Row.id x =? n) (l ++ [r]) = [r].
Proof.
  intros H E. rewrite filter_app, filter_nil.
  - simpl. rewrite E, Z.eqb_refl. reflexivity.
  - intros x Hx. apply Z.eqb_neq, H, Hx.
Qed.

(** The string of an array of records is not JSON: it is empty, or starts
    [[object Object]] (or the conversion itself throws, on a record that
    has a property named [toString]). *)
Lemma ToString_records (l : list value) :
  Forall is_record l ->
  ToString (VArr l) =
    Throw (EngineError (lit "Cannot convert object to primitive value")) \/
  exists s, ToString (VArr l) = Ok s /\ not_JSON s = true.
Proof.
  cbn [ToString].
  match goal with |- _ -> ?j l = _ \/ _ => set (join := j) end.
  induction 1 as [|x l Hx Hl IH].
  - right. exists []. split; reflexivity.
  - destruct Hx as [kv ->].
    assert (X : ToString (VObj kv) =
                  Throw (EngineError
                           (lit "Cannot convert object to primitive value"))
                \/ ToString (VObj kv) = Ok (lit "[object Object]"))
      by (cbn [ToString]; destruct (has_key _ kv); tauto).
    destruct l as [|y l].
    + change (join [VObj kv]) with (ToString (VObj kv)).
      destruct X as [X|X]; rewrite X; [left; reflexivity|].
      right. eexists. split; reflexivity.
    + change (join (VObj kv :: y :: l))
        with (let* a := ToString (VObj kv) in
              let* b := join (y :: l) in Ok (a ++ lit "," ++ b)).
      destruct X as [X|X]; rewrite X; cbn [bind]; [left; reflexivity|].
      destruct IH as [IH|(s & IH & _)]; rewrite IH; cbn [bind];
        [left; reflexivity|].
      right. eexists. split; reflexivity.
Qed.

(** So [JSON.parse(column || '[]')] throws on a column that the driver
    returned as an array of records. *)
Lemma parse_column_records (l : list value) :
  JSON_parse_refuses -> Forall is_record l ->
  exists m, parse_column (VArr l) = Throw (EngineError m) /\
            includes m (lit "PDF parsing failed") = false /\
            includes m (lit "AI analysis failed") = false.
Proof.
  intros HJ Hl. unfold parse_column. cbn [or_else truthy].
  destruct (ToString_records l Hl) as [T|(s & T & N)]; rewrite T; cbn [bind].
  - eexists. split; [reflexivity|]. split; vm_compute; reflexivity.
  - exact (HJ s N).
Qed.

(** The catch of [uploadResume] on such an error. *)
Lemma uploadResume_catch_engine (m : jsstring) :
  includes m (lit "PDF parsing failed") = false ->
  includes m (lit "AI analysis failed") = false ->
  uploadResume_catch (EngineError m) =
  respond 500 false "An error occurred while processing your resume. Please try again.".
Proof.
  intros H1 H2. unfold uploadResume_catch, msg_includes, code_is.
  cbn [message code EngineError]. rewrite H1, H2. reflexivity.
Qed.

(** C6 (the code departs from the claim).  The driver returns a JSONB
    column parsed, and [JSON.parse(column || '[]')] then throws on the list
    of [work_experience], which is an array of records: an upload that
    stored its record is answered with the generic 500 of the catch, not
    with the record, and reading the record by its id is answered 500, so
    no list is ever read back.  This holds whenever [JSON.parse] refuses
    what is not JSON and the seven lists come back from the server as
    arrays, those of [work_experience] as records. *)
Theorem stored_record_is_answered_500 (db : database) (w : world) (f : file)
    (a : value) (res : Res.t) (db' : database) :
  JSON_parse_refuses ->
  analyzeResume w (buffer f) (originalname f) = Ok a ->
  lists_come_back a ->
  uploadResume db w (Some f) = (res, db') ->
  rows db' <> rows db ->
  res = respond 500 false "An error occurred while processing your resume. Please try again." /\
  exists r : stored,
    rows db' = rows db ++ [r] /\ Row.id r = next_id db /\
    forall id : jsstring,
      invalid_id id = false ->
      integer_in id = Ok (Row.id r) ->
      getResumeById db' id =
      respond 500 false "An error occurred while fetching the resume.".
Proof.
  intros HJ HA [HL HR] HU HN.
  destruct (analyzeResume_shape _ _ _ _ HA)
    as (n & e & p & l & o & su & we & ed & ts & ss & pr & ce & r & ia & us
        & t & ->).
  destruct (field_annotated n e p l o su we ed ts ss pr ce r ia us
              (toISOString w) (originalname f) t)
    as (F1 & F2 & F3 & F4 & F5 & F6 & F7).
  destruct (HL "work_experience"%string _ ltac:(simpl; tauto) F1) as [l1 P1].
  destruct (HL "education"%string _ ltac:(simpl; tauto) F2) as [l2 P2].
  destruct (HL "technical_skills"%string _ ltac:(simpl; tauto) F3)
    as [l3 P3].
  destruct (HL "soft_skills"%string _ ltac:(simpl; tauto) F4) as [l4 P4].
  destruct (HL "projects"%string _ ltac:(simpl; tauto) F5) as [l5 P5].
  destruct (HL "certifications"%string _ ltac:(simpl; tauto) F6) as [l6 P6].
  destruct (HL "upskill_suggestions"%string _ ltac:(simpl; tauto) F7)
    as [l7 P7].
  pose proof (HR _ _ F1 P1) as R1.
  destruct (parse_column_records l1 HJ R1) as (m & PC & M1 & M2).
  clear HL HR F1 F2 F3 F4 F5 F6 F7. unfold read_back in *.
  unfold uploadResume in HU.
  destruct (negb _); [inversion HU; subst; destruct (HN eq_refl)|].
  destruct (_ <? size f); [inversion HU; subst; destruct (HN eq_refl)|].
  rewrite HA in HU. cbn [bind] in HU.
  rewrite upload_values_annotated in HU.
  destruct (insert_resume db (CURRENT_TIMESTAMP w) _) as [result db1] eqn:I.
  pose proof (insert_resume_rows _ _ _ _ _ I) as IR.
  destruct result as [row|err]; cbn [bind] in HU;
    [|inversion HU; subst; destruct (HN IR)].
  destruct IR as (Rows & Id & Fresh).
  assert (PL : exists x, driver_row row = Ok x /\
                         parse_lists x = Throw (EngineError m)).
  { unfold insert_resume in I. cbn [map param stringify option_map] in I.
    destruct (integer_param _) as [rating|]; [|inversion I].
    destruct (constraint_violation _); [inversion I|].
    destruct (existsb (fun x => Row.id x =? next_id db) (rows db));
      inversion I; subst.
    unfold driver_row. cbn [Row.work_experience Row.education
      Row.technical_skills Row.soft_skills Row.projects Row.certifications
      Row.upskill_suggestions json_column].
    rewrite P1, P2, P3, P4, P5, P6, P7. cbn [bind].
    eexists. split; [reflexivity|].
    unfold parse_lists. cbn [Row.work_experience]. rewrite PC.
    reflexivity. }
  destruct PL as (x & DR & PL). rewrite DR in HU. cbn [bind] in HU.
  rewrite PL in HU. inversion HU; subst res db1; clear HU.
  split; [apply uploadResume_catch_engine; assumption|].
  exists row. split; [exact Rows|]. split; [exact Id|].
  intros id Hv Hi. unfold getResumeById, select_by_id.
  rewrite Hv, Hi. cbn [bind]. rewrite Rows, Id.
  rewrite (filter_last_only _ _ _ Fresh Id). cbn [mapM bind].
  rewrite DR. cbn [bind]. rewrite PL. reflexivity.
Qed.

End RoundTrip.

(** The small engine refuses what is not JSON. *)
Lemma Demo_JSON_parse_refuses : JSON_parse_refuses (engine := Demo.engine).
Proof.
  intros s H. exists (lit "Unexpected token in JSON").
  split; [|split; vm_compute; reflexivity].
  destruct s as [|c1 s]; [reflexivity|].
  cbn [not_JSON] in H.
  change (lit "[object Object]")
    with (91%N :: 111%N :: lit "bject Object]") in H.
  destruct s as [|c2 s]; cbn [starts_with] in H;
    [rewrite andb_false_r in H; discriminate H|].
  apply andb_prop in H. destruct H as [H1 H].
  apply andb_prop in H. destruct H as [H2 _].
  apply N.eqb_eq in H1, H2. subst c1 c2.
  vm_compute. reflexivity.
Qed.

(** The upload of the small example: its record is stored, with the list
    of skills in its column, and neither the upload nor a read by id
    returns it. *)
Lemma stored_record_is_answered_500_witness :
  fst Demo.up1 =
    respond 500 false "An error occurred while processing your resume. Please try again." /\
  map (fun r => (Row.id r, Row.technical_skills r)) (rows (snd Demo.up1))
    = [(1, Some Demo.skills_text)] /\
  getResumeById (engine := Demo.engine) (postgres := Demo.postgres)
    (snd Demo.up1) (lit "1") =
    respond 500 false "An error occurred while fetching the resume.".
Proof.
  destruct (stored_record_is_answered_500 (engine := Demo.engine)
              (postgres := Demo.postgres) Demo.empty_table (Demo.fine 10)
              Demo.cv Demo.record (fst Demo.up1) (snd Demo.up1))
    as (A & r & R & I & G).
  - exact Demo_JSON_parse_refuses.
  - vm_compute. reflexivity.
  - split.
    + intros k v Hk. simpl in Hk.
      repeat (destruct Hk as [Hk|Hk];
              [subst k; intros E; vm_compute in E; inversion E; subst v;
               eexists; vm_compute; reflexivity|]).
      destruct Hk.
    + intros v l E. vm_compute in E. inversion E; subst v.
      intros P. vm_compute in P. inversion P; subst l. constructor.
  - apply surjective_pairing.
  - vm_compute. discriminate.
  - split; [exact A|]. split; [vm_compute; reflexivity|].
    apply G; [reflexivity|].
    change (Row.id r) with (Row.id r). rewrite I. reflexivity.
Defined.

(* ================================================================== *)
(** * More of the code *)

(* ================================================================== *)
(** ** The rating and the sanitizer *)

Lemma trimStart_whitespace (ws s : jsstring) :
  Forall (fun c => is_whitespace c = true) ws ->
  trimStart (ws ++ s) = trimStart s.
Proof.
  induction 1 as [|c ws Hc _ IH]; [reflexivity|].
  cbn [app trimStart]. rewrite Hc. exact IH.
Qed.

Lemma parseInt_string_whitespace (ws s : jsstring) :
  Forall (fun c => is_whitespace c = true) ws ->
  parseInt_string (ws ++ s) = parseInt_string s.
Proof.
  intros H. unfold parseInt_string.
  rewrite (trimStart_whitespace ws s H). reflexivity.
Qed.

(** [parseInt] of a sign and one digit from 1 to 9, followed by anything
    that is not a digit. *)
Lemma parseInt_string_nonzero_digit (neg : bool) (d : N) (rest : jsstring) :
  (0 < d < 10)%N -> stops rest ->
  parseInt_string (sign neg ++ digit_char d :: rest) =
  Some (signed neg (Z.of_N d)).
Proof.
  intros Hd Hr.
  assert (C : (d = 1 \/ d = 2 \/ d = 3 \/ d = 4 \/ d = 5 \/ d = 6
               \/ d = 7 \/ d = 8 \/ d = 9)%N) by lia.
  assert (R : forall a, read_digits 10 rest (Some a) = Some a).
  { intros a. destruct rest as [|c rest]; [reflexivity|].
    simpl in Hr |- *. rewrite Hr. reflexivity. }
  repeat destruct C as [C|C]; subst d; destruct neg;
    unfold parseInt_string; cbn [sign app];
    try (change (lit "-") with [45%N]; cbn [app]);
    match goal with
    | |- context [trimStart (?c :: ?x)] =>
        change (trimStart (c :: x)) with (c :: x)
    end;
    cbv beta iota zeta;
    match goal with
    | |- context [digit_char ?k] =>
        let c := eval vm_compute in (digit_char k) in
        change (digit_char k) with c
    end;
    cbv beta iota zeta; cbn [read_digits];
    match goal with
    | |- context [digit_value ?r ?c] =>
        let v := eval vm_compute in (digit_value r c) in
        change (digit_value r c) with v
    end;
    cbv beta iota zeta; rewrite R; reflexivity.
Qed.

(** [parseInt] of a decimal numeral, with or without a minus sign, followed
    by anything that is not a digit (nor, after a lone [0], the [x] of a
    hexadecimal prefix). *)
Lemma parseInt_string_numeral (neg : bool) (n : N) (rest : jsstring) :
  stops rest ->
  (n = 0%N -> match rest with
              | c :: _ => ((c =? 120) || (c =? 88))%N = false
              | [] => True
              end) ->
  parseInt_string (sign neg ++ decimal n ++ rest) =
  Some (signed neg (Z.of_N n)).
Proof.
  intros Hr Hx. unfold decimal.
  pose proof (uint_digits_lt10 (N.to_uint n)) as L. fold (digits n) in L.
  pose proof (digits_value_digits n) as V.
  destruct (digits n) as [|d ds] eqn:E; [destruct (digits_not_nil n E)|].
  destruct ds as [|d2 ds].
  - unfold digits_value in V. cbn [fold_left] in V.
    assert (Hd : d = n) by lia. subst d.
    destruct (N.eq_dec n 0) as [Z0|NZ].
    + rewrite (parseInt_string_signed_digits neg n [] rest L Hr
                 (fun _ => Hx Z0)).
      reflexivity.
    + cbn [map app]. apply parseInt_string_nonzero_digit; [|exact Hr].
      inversion L; subst. lia.
  - rewrite (parseInt_string_signed_digits neg d (d2 :: ds) rest L Hr);
      [|discriminate].
    rewrite V. reflexivity.
Qed.

(** X1.  [validateRating]: every rating it returns is an integer from 1 to
    10, and it returns one for every rating that is missing, [null], a
    boolean, a number or a string. *)
Theorem rating_is_from_1_to_10 (rating : option value) :
  (forall r, validateRating rating = Ok r -> 1 <= r <= 10) /\
  (plain rating -> exists r, validateRating rating = Ok r).
Proof.
  split; [exact (validateRating_range rating)|exact (validateRating_plain rating)].
Qed.

(** X2.  [validateRating] on a number that prints without an exponent
    (zero, or from 1e-6 up to 1e21 in size): the rating is the integer part
    of the number, taken as 1 below 1 and as 10 above 10. *)
Theorem rating_of_number_is_its_integer_part (neg : bool) (m : N) (e : Z) :
  prints_plainly m e ->
  validateRating (Some (VNum (Finite neg m e))) =
  Ok (clamp (signed neg (integer_part m e))).
Proof. exact (validateRating_truncates neg m e). Qed.

Lemma rating_of_number_is_its_integer_part_witness :
  validateRating (Some (VNum (Finite false 79 (-1)))) = Ok 7.
Proof.
  apply (rating_of_number_is_its_integer_part false 79 (-1)).
  unfold prints_plainly. vm_compute. split; [reflexivity|discriminate].
Defined.

(** X3.  [validateRating] on a string: after leading white space, a
    decimal numeral (with or without a minus sign) followed by anything
    that does not start with a digit, such as ["8/10"], is rated by that
    integer, taken as 1 below 1 and as 10 above 10.  The numeral 0 followed
    by [x] or [X] is excepted: [parseInt] reads these as the prefix of a
    hexadecimal numeral (["0x1F"] is rated 10). *)
Theorem rating_of_text_is_its_leading_integer (ws : jsstring) (neg : bool)
    (n : N) (rest : jsstring) :
  Forall (fun c => is_whitespace c = true) ws ->
  stops rest ->
  (n = 0%N -> match rest with
              | c :: _ => ((c =? 120) || (c =? 88))%N = false
              | [] => True
              end) ->
  validateRating (Some (VStr (ws ++ sign neg ++ decimal n ++ rest))) =
  Ok (clamp (signed neg (Z.of_N n))).
Proof.
  intros Hw Hr Hx. unfold validateRating, parseInt.
  cbn [ToString_opt ToString bind].
  rewrite (parseInt_string_whitespace ws _ Hw).
  rewrite (parseInt_string_numeral neg n rest Hr Hx).
  unfold clamp.
  destruct (signed neg (Z.of_N n) <? 1); [reflexivity|].
  destruct (10 <? signed neg (Z.of_N n)); reflexivity.
Qed.

(** The excepted case: a hexadecimal numeral is read as such. *)
Lemma hexadecimal_prefix_is_read :
  validateRating (Some (VStr (lit "0x1F"))) = Ok 10 /\
  validateResumeId (lit "0x10") = None.
Proof. split; reflexivity. Qed.

Lemma rating_of_text_is_its_leading_integer_witness :
  validateRating (Some (VStr (lit " 8/10"))) = Ok 8.
Proof.
  apply (rating_of_text_is_its_leading_integer (lit " ") false 8 (lit "/10")).
  - repeat constructor.
  - reflexivity.
  - discriminate.
Defined.

Ltac eval_keys :=
  repeat match goal with
         | |- context [jsstring_eqb ?a ?b] =>
             let r := eval vm_compute in (jsstring_eqb a b) in
             change (jsstring_eqb a b) with r
         end;
  cbv iota.

Section MoreSanitizer.
Context {engine : Engine}.

(** X4.  Whenever [validateAndSanitizeAnalysis] returns, whatever value it
    was given, its output has every field of the analysis, the seven list
    fields are arrays, the rating is an integer from 1 to 10, and every
    record of the four lists of records is complete: a work item has its
    four fields with [description] an array, an education item and a
    certification their three fields, a project its three fields with
    [technologies] an array. *)
Theorem sanitizer_output_is_well_formed (analysis : value)
    (fileName : jsstring) (out : value) :
  validateAndSanitizeAnalysis analysis fileName = Ok out ->
  Analysis_schema out /\ Analysis_items out.
Proof.
  intros H. split.
  - exact (sanitizer_output_schema analysis fileName out H).
  - exact (sanitizer_output_items analysis fileName out H).
Qed.

(** X5.  [validateAndSanitizeAnalysis] returns on every object, with any
    subset of the fields missing, whose lists of records hold no [null],
    whose summary and improvement areas are strings, [null] or missing, and
    whose rating is not an array or an object. *)
Theorem sanitizer_returns_without_null_records
    (kv : list (jsstring * value)) (fileName : jsstring) :
  (forall k l, In k record_list_fields ->
     field k (VObj kv) = Some (VArr l) -> Forall (fun x => x <> VNull) l) ->
  text_or_absent (field "summary" (VObj kv)) ->
  text_or_absent (field "improvement_areas" (VObj kv)) ->
  plain (field "resume_rating" (VObj kv)) ->
  exists out, validateAndSanitizeAnalysis (VObj kv) fileName = Ok out.
Proof.
  intros Hl Hs Hi Hr.
  assert (A : forall k, In k record_list_fields ->
            Forall (fun x => x <> VNull) (array_or_empty (lookup (lit k) kv))).
  { intros k Hk. specialize (Hl k). cbn [field] in Hl.
    destruct (lookup (lit k) kv) as [[| | | |l|]|]; try constructor.
    exact (Hl l Hk eq_refl). }
  destruct (sanitizer_returns kv fileName
              (A "work_experience"%string ltac:(simpl; tauto))
              (A "education"%string ltac:(simpl; tauto))
              (A "projects"%string ltac:(simpl; tauto))
              (A "certifications"%string ltac:(simpl; tauto))
              Hs Hi Hr) as (out & H & _).
  exists out. exact H.
Qed.

(** X6.  What the sanitizer passes through: a name, email, phone or URL
    that is truthy is kept as it is; a list of skills or of suggestions that
    is an array is kept as it is, element for element; a list of records
    that is an array keeps its length. *)
Theorem sanitizer_passes_good_fields_through (kv : list (jsstring * value))
    (fileName : jsstring) (out : value) :
  validateAndSanitizeAnalysis (VObj kv) fileName = Ok out ->
  (forall k v, In k contact_fields ->
     field k (VObj kv) = Some v -> truthy v = true -> field k out = Some v) /\
  (forall k l, In k flat_list_fields ->
     field k (VObj kv) = Some (VArr l) -> field k out = Some (VArr l)) /\
  (forall k l, In k record_list_fields ->
     field k (VObj kv) = Some (VArr l) ->
     exists l', field k out = Some (VArr l') /\ length l' = length l).
Proof.
  intros H. apply sanitize_inv in H.
  destruct H as (rt & we & ed & pr & ce & su & ia
                 & _ & Hwe & Hed & Hpr & Hce & _ & _ & ->).
  split; [|split].
  - intros k v Hk E T. cbn [field] in E. simpl in Hk.
    repeat (destruct Hk as [Hk|Hk];
            [subst k; cbn [field sanitized lookup]; eval_keys;
             rewrite E; unfold or_else; rewrite T; reflexivity|]).
    destruct Hk.
  - intros k l Hk E. cbn [field] in E. simpl in Hk.
    repeat (destruct Hk as [Hk|Hk];
            [subst k; cbn [field sanitized lookup]; eval_keys;
             rewrite E; reflexivity|]).
    destruct Hk.
  - intros k l Hk E. cbn [field] in E. simpl in Hk.
    repeat (destruct Hk as [Hk|Hk];
            [subst k; rewrite E in *; cbn [array_or_empty] in *;
             eexists; split;
             [cbn [field sanitized lookup]; eval_keys; reflexivity|
              eapply mapM_length; eassumption]|]).
    destruct Hk.
Qed.

End MoreSanitizer.

Lemma sanitizer_output_is_well_formed_witness :
  Analysis_schema Demo.answer_sanitized /\ Analysis_items Demo.answer_sanitized.
Proof.
  exact (sanitizer_output_is_well_formed (engine := Demo.engine)
           (VObj Demo.answer) (lit "cv.pdf") Demo.answer_sanitized
           (sanitize_answer _)).
Defined.

Lemma sanitizer_returns_without_null_records_witness :
  exists out,
    validateAndSanitizeAnalysis (engine := Demo.engine) (VObj Demo.answer)
      (lit "cv.pdf") = Ok out.
Proof.
  apply (sanitizer_returns_without_null_records (engine := Demo.engine)).
  - intros k l Hk. simpl in Hk.
    repeat (destruct Hk as [Hk|Hk];
            [subst k; intros E; vm_compute in E; inversion E; subst l;
             repeat constructor; discriminate|]).
    destruct Hk.
  - right. right. eexists. reflexivity.
  - left. reflexivity.
  - exact I.
Defined.

Lemma sanitizer_passes_good_fields_through_witness :
  field "name" Demo.answer_sanitized = Some (str "Jane Roe") /\
  field "technical_skills" Demo.answer_sanitized = Some (VArr [str "Rocq"]).
Proof.
  pose proof (sanitizer_passes_good_fields_through (engine := Demo.engine)
                Demo.answer (lit "cv.pdf") Demo.answer_sanitized
                (sanitize_answer _)) as (P1 & P2 & _).
  split.
  - apply (P1 "name"%string); [simpl; tauto|reflexivity|reflexivity].
  - apply (P2 "technical_skills"%string); [simpl; tauto|reflexivity].
Defined.

(* ================================================================== *)
(** ** Extraction and the AI call *)

Section MorePipeline.
Context {engine : Engine}.

Lemma analyzeWithAI_span (w : world) (resumeText fileName : jsstring) :
  analyzeWithAI w resumeText fileName =
  try_catch
    (if negb (GOOGLE_API_KEY w) then
       Throw (AppError "Google AI API key not configured. Please contact support." 500)
     else
       let* aiResponse :=
         generateContent w (createAnalysisPrompt resumeText) in
       match json_span aiResponse with
       | Some cleanResponse =>
           let* analysisResult :=
             try_catch (JSON_parse cleanResponse)
               (fun parseError =>
                  Throw (AppError "AI returned invalid JSON format. Please try again." 500)) in
           validateAndSanitizeAnalysis analysisResult fileName
       | None =>
           Throw (AppError "AI did not return a valid JSON response." 500)
       end)
    analyzeWithAI_catch.
Proof.
  unfold analyzeWithAI, json_span, analyzeWithAI_catch.
  destruct (negb (GOOGLE_API_KEY w)); [reflexivity|].
  destruct (generateContent w _) as [r|e]; [|reflexivity].
  cbn [bind].
  destruct (indexOf _ 123%N); [|reflexivity].
  destruct (lastIndexOf _ 125%N); reflexivity.
Qed.


(** *** Strings *)

Lemma indexOf_none (s : jsstring) (c : N) : ~ In c s -> indexOf s c = None.
Proof.
  induction s as [|x s IH]; intros H; [reflexivity|].
  cbn [indexOf]. destruct (N.eqb x c) eqn:E.
  - apply N.eqb_eq in E. destruct H. left. exact E.
  - rewrite IH; [reflexivity|]. intros I. apply H. right. exact I.
Qed.

Lemma indexOf_app (p x : jsstring) (c : N) :
  ~ In c p -> indexOf (p ++ c :: x) c = Some (length p).
Proof.
  induction p as [|a p IH]; intros H; cbn [app indexOf length].
  - rewrite N.eqb_refl. reflexivity.
  - destruct (N.eqb a c) eqn:E.
    + apply N.eqb_eq in E. destruct H. left. exact E.
    + rewrite IH; [reflexivity|]. intros I. apply H. right. exact I.
Qed.

Lemma lastIndexOf_none (s : jsstring) (c : N) :
  ~ In c s -> lastIndexOf s c = None.
Proof.
  induction s as [|x s IH]; intros H; [reflexivity|].
  cbn [lastIndexOf]. rewrite IH by (intros I; apply H; right; exact I).
  destruct (N.eqb x c) eqn:E; [|reflexivity].
  apply N.eqb_eq in E. destruct H. left. exact E.
Qed.

Lemma lastIndexOf_app (x q : jsstring) (c : N) :
  ~ In c q -> lastIndexOf (x ++ c :: q) c = Some (length x).
Proof.
  intros H. induction x as [|a x IH]; cbn [app lastIndexOf length].
  - rewrite (lastIndexOf_none q c H), N.eqb_refl. reflexivity.
  - rewrite IH. reflexivity.
Qed.

Lemma trimStart_incl (s : jsstring) (x : N) : In x (trimStart s) -> In x s.
Proof.
  induction s as [|c s IH]; [intros []|].
  cbn [trimStart]. destruct (is_whitespace c); [|exact (fun H => H)].
  intros H. right. exact (IH H).
Qed.

Lemma trim_incl (s : jsstring) (x : N) : In x (trim s) -> In x s.
Proof.
  unfold trim. intros H.
  apply in_rev, trimStart_incl in H. apply in_rev, trimStart_incl in H.
  exact H.
Qed.

Lemma trimStart_app (p x : jsstring) (c : N) :
  is_whitespace c = false ->
  trimStart (p ++ c :: x) = trimStart p ++ c :: x.
Proof.
  intros H. induction p as [|a p IH]; cbn [app trimStart].
  - rewrite H. reflexivity.
  - destruct (is_whitespace a); [exact IH|reflexivity].
Qed.

(** [trim] only takes white space off the two ends. *)
Lemma trim_around (pre m post : jsstring) (c d : N) :
  is_whitespace c = false -> is_whitespace d = false ->
  trim (pre ++ c :: m ++ d :: post) =
  trimStart pre ++ c :: m ++ d :: rev (trimStart (rev post)).
Proof.
  intros Hc Hd. unfold trim. rewrite (trimStart_app pre _ c Hc).
  replace (trimStart pre ++ c :: m ++ d :: post)
    with ((trimStart pre ++ c :: m) ++ d :: post)
    by (rewrite <- app_assoc; reflexivity).
  rewrite rev_app_distr. cbn [rev]. rewrite <- app_assoc. cbn [app].
  rewrite (trimStart_app (rev post) _ d Hd).
  rewrite rev_app_distr. cbn [rev]. rewrite rev_involutive.
  rewrite <- !app_assoc. reflexivity.
Qed.

Lemma remove_fence_incl (pat s : jsstring) (k : nat) (x : N) :
  In x (remove_fence pat s k) -> In x s.
Proof.
  revert k. induction s as [|c s IH]; intros k; [intros []|].
  cbn [remove_fence]. destruct k as [|k].
  - destruct (starts_with pat (c :: s)).
    + intros H. right. exact (IH _ H).
    + intros [H|H]; [left; exact H|right; exact (IH _ H)].
  - intros H. right. exact (IH _ H).
Qed.

(** A text without a backtick before the next fence is kept as it is. *)
Lemma remove_fence_no_tick (pat a b : jsstring) :
  ~ In 96%N a ->
  remove_fence (96%N :: pat) (a ++ b) 0 =
  a ++ remove_fence (96%N :: pat) b 0.
Proof.
  induction a as [|c a IH]; intros H; [reflexivity|].
  cbn [app remove_fence starts_with].
  destruct (N.eqb 96 c) eqn:E.
  - apply N.eqb_eq in E. destruct H. left. symmetry. exact E.
  - cbn [andb]. rewrite IH; [reflexivity|].
    intros I. apply H. right. exact I.
Qed.

Lemma substring_span (p mid q : jsstring) :
  substring (p ++ mid ++ q) (length p) (length p + length mid) = mid.
Proof.
  unfold substring. rewrite !length_app.
  rewrite (Nat.min_l (length p)) by lia.
  rewrite (Nat.min_l (length p + length mid)) by lia.
  rewrite Nat.min_l, Nat.max_r by lia.
  replace (length p + length mid - length p)%nat with (length mid) by lia.
  rewrite skipn_app, skipn_all, Nat.sub_diag. cbn [skipn app].
  rewrite firstn_app, firstn_all, Nat.sub_diag. cbn [firstn].
  apply app_nil_r.
Qed.

(** *** What [analyzeWithAI] reads in an answer *)

(** An answer without backticks: the prose before the first [{] and after
    the last [}] is dropped. *)
Lemma json_span_prose (pre m post : jsstring) :
  ~ In 96%N (pre ++ 123%N :: m ++ 125%N :: post) ->
  ~ In 123%N pre -> ~ In 125%N post ->
  json_span (pre ++ 123%N :: m ++ 125%N :: post) = Some (123%N :: m ++ [125%N]).
Proof.
  intros Ht Hp Hq. unfold json_span.
  rewrite (trim_around pre m post 123 125 eq_refl eq_refl).
  set (pre' := trimStart pre). set (post' := rev (trimStart (rev post))).
  assert (Ht' : ~ In 96%N (pre' ++ 123%N :: m ++ 125%N :: post')).
  { intros I. apply Ht.
    apply in_app_or in I. apply in_or_app.
    destruct I as [I|I]; [left; exact (trimStart_incl _ _ I)|right].
    destruct I as [I|I]; [left; exact I|right].
    apply in_app_or in I. apply in_or_app.
    destruct I as [I|I]; [left; exact I|right].
    destruct I as [I|I]; [left; exact I|right].
    unfold post' in I. rewrite <- in_rev in I. apply trimStart_incl in I.
    rewrite <- in_rev in I. exact I. }
  change (lit "```json") with (96%N :: lit "``json").
  change (lit "```") with (96%N :: lit "``").
  rewrite <- (app_nil_r (pre' ++ _)).
  rewrite !(remove_fence_no_tick _ _ [] Ht'). cbn [remove_fence].
  rewrite !app_nil_r.
  rewrite indexOf_app
    by (intros I; apply Hp; exact (trimStart_incl _ _ I)).
  replace (pre' ++ 123%N :: m ++ 125%N :: post')
    with ((pre' ++ 123%N :: m) ++ 125%N :: post')
    by (rewrite <- app_assoc; reflexivity).
  rewrite lastIndexOf_app.
  2:{ intros I. apply Hq. unfold post' in I. rewrite <- in_rev in I.
      apply trimStart_incl in I. rewrite <- in_rev in I. exact I. }
  f_equal.
  replace ((pre' ++ 123%N :: m) ++ 125%N :: post')
    with (pre' ++ (123%N :: m ++ [125%N]) ++ post')
    by (cbn [app]; rewrite <- !app_assoc; reflexivity).
  replace (length (pre' ++ 123%N :: m) + 1)%nat
    with (length pre' + length (123%N :: m ++ [125%N]))%nat
    by (cbn [length]; rewrite !length_app; cbn [length]; lia).
  apply substring_span.
Qed.

Lemma remove_fence_skip (pat l s : jsstring) :
  remove_fence pat (l ++ s) (length l) = remove_fence pat s 0.
Proof.
  induction l as [|c l IH]; [reflexivity|].
  cbn [app length remove_fence]. exact IH.
Qed.

Lemma starts_with_app (p s : jsstring) : starts_with p (p ++ s) = true.
Proof.
  induction p as [|c p IH]; [reflexivity|].
  cbn [app starts_with]. rewrite N.eqb_refl. exact IH.
Qed.

(** A fence followed by a newline is dropped with the newline. *)
Lemma remove_fence_at (c : N) (pat rest : jsstring) :
  remove_fence (c :: pat) ((c :: pat) ++ nl ++ rest) 0 =
  remove_fence (c :: pat) rest 0.
Proof.
  change ((c :: pat) ++ nl ++ rest) with (c :: (pat ++ nl ++ rest)).
  cbn [remove_fence].
  change (c :: pat ++ nl ++ rest) with ((c :: pat) ++ nl ++ rest).
  rewrite starts_with_app, skipn_app, skipn_all, Nat.sub_diag.
  cbn [skipn app nl length].
  replace (S (length pat) - 1 + 1)%nat with (length (pat ++ nl))
    by (rewrite length_app; cbn [length nl]; lia).
  change (pat ++ 10%N :: rest) with (pat ++ nl ++ rest).
  rewrite app_assoc. apply remove_fence_skip.
Qed.

(** A fenced answer: the fence is dropped. *)
Lemma json_span_fenced (m : jsstring) :
  ~ In 96%N m ->
  json_span (fenced (123%N :: m ++ [125%N])) = Some (123%N :: m ++ [125%N]).
Proof.
  intros Ht. unfold json_span, fenced.
  assert (Hb : ~ In 96%N (123%N :: m ++ [125%N])).
  { intros [I|I]; [discriminate I|].
    apply in_app_or in I.
    destruct I as [I|[I|[]]]; [exact (Ht I)|discriminate I]. }
  set (body := 123%N :: m ++ [125%N]) in *.
  assert (T : trim (lit "```json" ++ nl ++ body ++ nl ++ lit "```")
              = lit "```json" ++ nl ++ body ++ nl ++ lit "```").
  { replace (lit "```json" ++ nl ++ body ++ nl ++ lit "```")
      with ([] ++ 96%N :: (lit "``json" ++ nl ++ body ++ nl ++ lit "``")
               ++ 96%N :: []).
    - rewrite (trim_around [] _ [] 96 96 eq_refl eq_refl). reflexivity.
    - change (lit "```json") with (96%N :: lit "``json").
      change (lit "```") with (lit "``" ++ [96%N]).
      cbn [app]. rewrite <- !app_assoc. reflexivity. }
  rewrite T.
  change (lit "```json") with (96%N :: lit "``json").
  rewrite remove_fence_at, (remove_fence_no_tick _ _ _ Hb).
  change (remove_fence (96%N :: lit "``json") (nl ++ lit "```") 0)
    with (nl ++ lit "```").
  change (remove_fence (lit "```")) with (remove_fence (96%N :: lit "``")).
  rewrite (remove_fence_no_tick _ _ _ Hb).
  change (remove_fence (96%N :: lit "``") (nl ++ lit "```") 0) with nl.
  unfold body at 1. cbn [app indexOf]. rewrite N.eqb_refl.
  change (123%N :: m ++ [125%N]) with body.
  assert (L : lastIndexOf (body ++ nl) 125 = Some (S (length m))).
  { unfold body.
    replace ((123%N :: m ++ [125%N]) ++ nl)
      with ((123%N :: m) ++ 125%N :: nl)
      by (cbn [app]; rewrite <- app_assoc; reflexivity).
    rewrite lastIndexOf_app; [reflexivity|].
    intros [I|[]]. discriminate I. }
  rewrite L. f_equal.
  rewrite <- (app_nil_l (body ++ nl)).
  replace (S (length m) + 1)%nat with (length (@nil N) + length body)%nat
    by (unfold body; cbn [length]; rewrite length_app; cbn [length]; lia).
  apply substring_span.
Qed.


(** *** What the sanitizer throws *)

Lemma ToString_throws :
  forall (v : value) (e : error),
    ToString v = Throw e ->
    e = EngineError (lit "Cannot convert object to primitive value").
Proof.
  fix IH 1. intros v e. destruct v as [| [|] | x | s | l | kv];
    try discriminate.
  - cbn [ToString].
    match goal with |- ?j l = _ -> _ => set (join := j) end.
    revert e. induction l as [|x l IHl]; intros e; [discriminate|].
    assert (X : forall a,
              (match x with VNull => Ok [] | _ => ToString x end) = Throw a ->
              a = EngineError (lit "Cannot convert object to primitive value")).
    { pose proof (IH x) as Hx. intros a.
      destruct x; try discriminate; exact (Hx a). }
    destruct l as [|y l].
    + exact (X e).
    + change (join (x :: y :: l))
        with (let* a := match x with VNull => Ok [] | _ => ToString x end in
              let* b := join (y :: l) in Ok (a ++ lit "," ++ b)).
      destruct (match x with VNull => Ok [] | _ => ToString x end)
        as [a|a]; cbn [bind].
      * destruct (join (y :: l)) as [b|b] eqn:Ej; cbn [bind];
          [discriminate|].
        intros H. inversion H; subst. apply IHl. reflexivity.
      * intros H. inversion H; subst. apply X. reflexivity.
  - cbn [ToString]. destruct (has_key _ kv); [|discriminate].
    intros H. inversion H. reflexivity.
Qed.

Lemma validateRating_throws (rating : option value) (e : error) :
  validateRating rating = Throw e ->
  e = EngineError (lit "Cannot convert object to primitive value").
Proof.
  unfold validateRating, parseInt, ToString_opt.
  destruct rating as [v|]; cbn [bind];
    [destruct (ToString v) as [s|a] eqn:E; cbn [bind]|].
  - destruct (parseInt_string s) as [n|]; [|discriminate].
    destruct (n <? 1); [discriminate|]. destruct (10 <? n); discriminate.
  - intros H. inversion H; subst. exact (ToString_throws v e E).
  - destruct (parseInt_string _) as [n|]; [|discriminate].
    destruct (n <? 1); [discriminate|]. destruct (10 <? n); discriminate.
Qed.

Lemma gt_throws (a : option value) (b : Z) (e : error) :
  gt a b = Throw e ->
  e = EngineError (lit "Cannot convert object to primitive value").
Proof.
  unfold gt, ToNumber. destruct a as [v|]; [|discriminate].
  destruct v as [| c | x | s | l | kv]; try discriminate.
  - destruct (ToString (VArr l)) as [s|a] eqn:E; cbn [bind]; [discriminate|].
    intros H. inversion H; subst. exact (ToString_throws _ e E).
  - destruct (ToString (VObj kv)) as [s|a] eqn:E; cbn [bind]; [discriminate|].
    intros H. inversion H; subst. exact (ToString_throws _ e E).
Qed.

Lemma truncate_throws (field : String.string) (v : value) (limit : Z)
    (keep : nat) (e : error) :
  truncate field v limit keep = Throw e ->
  e = EngineError (lit "Cannot convert object to primitive value") \/
  e = EngineError (lit "sanitized." ++ lit field
                   ++ lit ".substring is not a function").
Proof.
  unfold truncate. destruct (truthy v) eqn:T; [|discriminate].
  destruct (get v "length") as [len|a] eqn:G; cbn [bind].
  - destruct (gt len limit) as [[|]|a] eqn:L; cbn [bind].
    + destruct v; try discriminate;
        intros H; inversion H; right; reflexivity.
    + discriminate.
    + intros H. inversion H; subst. left. exact (gt_throws _ _ _ L).
  - destruct v; try discriminate G. discriminate T.
Qed.

Lemma mapM_throws {A B} (f : A -> result B) (P : error -> Prop) :
  (forall x e, f x = Throw e -> P e) ->
  forall l e, mapM f l = Throw e -> P e.
Proof.
  intros Hf. induction l as [|x l IH]; intros e; [discriminate|].
  cbn [mapM]. destruct (f x) as [y|a] eqn:Ex; cbn [bind].
  - destruct (mapM f l) as [ys|a]; cbn [bind]; [discriminate|].
    intros H. inversion H; subst. apply IH. reflexivity.
  - intros H. inversion H; subst. exact (Hf x e Ex).
Qed.

Ltac item_throws f :=
  intros x e; unfold f; destruct x; try discriminate;
  intros H; inversion H; reflexivity.

Lemma sanitize_work_throws :
  forall x e, sanitize_work x = Throw e ->
  e = EngineError (lit "Cannot read properties of null (reading 'role')").
Proof. item_throws sanitize_work. Qed.

Lemma sanitize_education_throws :
  forall x e, sanitize_education x = Throw e ->
  e = EngineError (lit "Cannot read properties of null (reading 'degree')").
Proof. item_throws sanitize_education. Qed.

Lemma sanitize_project_throws :
  forall x e, sanitize_project x = Throw e ->
  e = EngineError (lit "Cannot read properties of null (reading 'name')").
Proof. item_throws sanitize_project. Qed.

Lemma sanitize_certification_throws :
  forall x e, sanitize_certification x = Throw e ->
  e = EngineError (lit "Cannot read properties of null (reading 'name')").
Proof. item_throws sanitize_certification. Qed.

(** Every error of the sanitizer is one of [sanitizer_errors]. *)
Lemma sanitizer_throws (analysis : value) (fileName : jsstring) (e : error) :
  validateAndSanitizeAnalysis analysis fileName = Throw e ->
  In e sanitizer_errors.
Proof.
  unfold validateAndSanitizeAnalysis.
  destruct analysis;
    [intros H; inversion H; left; reflexivity|..];
    unfold get; cbn [bind]; eval_string_eqb;
    (destruct (validateRating _) as [rt|a] eqn:R; cbn [bind];
     [|intros H; inversion H; subst;
       rewrite (validateRating_throws _ _ R); simpl; tauto]);
    (destruct (mapM sanitize_work _) as [we|a] eqn:E1; cbn [bind];
     [|intros H; inversion H; subst;
       rewrite (mapM_throws _ _ sanitize_work_throws _ _ E1);
       simpl; tauto]);
    (destruct (mapM sanitize_education _) as [ed|a] eqn:E2; cbn [bind];
     [|intros H; inversion H; subst;
       rewrite (mapM_throws _ _ sanitize_education_throws _ _ E2);
       simpl; tauto]);
    (destruct (mapM sanitize_project _) as [pr|a] eqn:E3; cbn [bind];
     [|intros H; inversion H; subst;
       rewrite (mapM_throws _ _ sanitize_project_throws _ _ E3);
       simpl; tauto]);
    (destruct (mapM sanitize_certification _) as [ce|a] eqn:E4; cbn [bind];
     [|intros H; inversion H; subst;
       rewrite (mapM_throws _ _ sanitize_certification_throws _ _ E4);
       simpl; tauto]);
    (destruct (truncate "summary" _ _ _) as [su|a] eqn:T1; cbn [bind];
     [|intros H; inversion H; subst;
       destruct (truncate_throws _ _ _ _ _ T1) as [->| ->]; simpl; tauto]);
    (destruct (truncate "improvement_areas" _ _ _) as [ia|a] eqn:T2;
     cbn [bind];
     [discriminate|intros H; inversion H; subst;
       destruct (truncate_throws _ _ _ _ _ T2) as [->| ->]; simpl; tauto]).
Qed.


(** *** Extraction *)

(** What [extractTextFromPDF] returns is the text of the library, at least
    fifty characters long once trimmed. *)
Lemma extractTextFromPDF_returns (w : world) (pdfBuffer : list N)
    (fileName text : jsstring) :
  extractTextFromPDF w pdfBuffer fileName = Ok text ->
  pdf w pdfBuffer = Ok text /\ (50 <= length (trim text))%nat.
Proof.
  unfold extractTextFromPDF.
  destruct (pdf w pdfBuffer) as [t|e]; cbn [bind try_catch].
  - destruct (negb (truthy (VStr t)) || (length (trim t) =? 0)%nat);
      [cbn [try_catch instanceof_AppError AppError statusCode]; discriminate|].
    destruct (length (trim t) <? 50)%nat eqn:E;
      [cbn [try_catch instanceof_AppError AppError statusCode]; discriminate|].
    cbn [try_catch]. intros H. inversion H; subst.
    apply Nat.ltb_ge in E. split; [reflexivity|exact E].
  - destruct (instanceof_AppError e); [discriminate|].
    destruct (msg_includes e "Invalid PDF"); [discriminate|].
    destruct (msg_includes e "password" || msg_includes e "encrypted");
      [discriminate|].
    destruct (msg_includes e "damaged" || msg_includes e "corrupted");
      discriminate.
Qed.

Lemma extractTextFromPDF_throws (w : world) (pdfBuffer : list N)
    (fileName : jsstring) (e : error) :
  (forall e0, pdf w pdfBuffer = Throw e0 -> instanceof_AppError e0 = false) ->
  extractTextFromPDF w pdfBuffer fileName = Throw e ->
  statusCode e = Some 400.
Proof.
  intros Hlib. unfold extractTextFromPDF.
  destruct (pdf w pdfBuffer) as [t|e0]; cbn [bind try_catch].
  - destruct (negb (truthy (VStr t)) || (length (trim t) =? 0)%nat);
      [intros H; inversion H; reflexivity|].
    destruct (length (trim t) <? 50)%nat;
      [intros H; inversion H; reflexivity|discriminate].
  - rewrite (Hlib e0 eq_refl).
    destruct (msg_includes e0 "Invalid PDF");
      [intros H; inversion H; reflexivity|].
    destruct (msg_includes e0 "password" || msg_includes e0 "encrypted");
      [intros H; inversion H; reflexivity|].
    destruct (msg_includes e0 "damaged" || msg_includes e0 "corrupted");
      intros H; inversion H; reflexivity.
Qed.

(** X7.  [extractTextFromPDF] returns a text exactly when the PDF library
    returned that text and the text, once trimmed, has at least fifty
    characters; and, the errors of the library not being AppErrors, every
    error it throws is an AppError of status 400. *)
Theorem extraction_outcome (w : world) (pdfBuffer : list N)
    (fileName : jsstring) :
  (forall text,
     extractTextFromPDF w pdfBuffer fileName = Ok text <->
     pdf w pdfBuffer = Ok text /\ (50 <= length (trim text))%nat) /\
  ((forall e0, pdf w pdfBuffer = Throw e0 ->
               instanceof_AppError e0 = false) ->
   forall e, extractTextFromPDF w pdfBuffer fileName = Throw e ->
             statusCode e = Some 400).
Proof.
  split.
  - intros text. split.
    + apply extractTextFromPDF_returns.
    + intros [Hp Hl].
      exact (extractTextFromPDF_ok w pdfBuffer fileName text Hp Hl).
  - intros Hlib e. apply extractTextFromPDF_throws. exact Hlib.
Qed.

(** *** The AI call *)

Lemma analyzeWithAI_catch_status (e : error) :
  instanceof_AppError e = false ->
  exists e', analyzeWithAI_catch e = Throw e' /\
             In (statusCode e') [Some 408; Some 429; Some 500; Some 503].
Proof.
  intros Ha. unfold analyzeWithAI_catch. rewrite Ha.
  destruct (msg_includes e "API key");
    [eexists; split; [reflexivity|simpl; tauto]|].
  destruct (msg_includes e "quota" || msg_includes e "QUOTA_EXCEEDED");
    [eexists; split; [reflexivity|simpl; tauto]|].
  destruct (msg_includes e "RATE_LIMIT");
    [eexists; split; [reflexivity|simpl; tauto]|].
  destruct (msg_includes e "timeout" || code_is e "ECONNRESET");
    eexists; (split; [reflexivity|simpl; tauto]).
Qed.

(** An error of the sanitizer is rethrown as the 503 of the last resort. *)
Lemma analyzeWithAI_catch_sanitizer (e : error) :
  In e sanitizer_errors ->
  analyzeWithAI_catch e =
  Throw (AppError "AI analysis service is temporarily unavailable. Please try again later." 503).
Proof.
  intros H. simpl in H.
  repeat (destruct H as [H|H]; [subst e; vm_compute; reflexivity|]).
  destruct H.
Qed.

(** X8.  Every error [analyzeWithAI] throws is an AppError of status 408,
    429, 500 or 503 (the errors of the AI client not being AppErrors),
    whatever failed: the key, the call, the answer, the JSON or the
    sanitizer. *)
Theorem analysis_fails_with_an_AppError (w : world)
    (resumeText fileName : jsstring) (e : error) :
  (forall p e0, generateContent w p = Throw e0 ->
                instanceof_AppError e0 = false) ->
  analyzeWithAI w resumeText fileName = Throw e ->
  In (statusCode e) [Some 408; Some 429; Some 500; Some 503].
Proof.
  intros Hlib. rewrite analyzeWithAI_span.
  destruct (negb (GOOGLE_API_KEY w));
    [intros H; inversion H; simpl; tauto|].
  destruct (generateContent w _) as [r|e0] eqn:G; cbn [bind try_catch].
  - destruct (json_span r) as [span|];
      [|intros H; inversion H; simpl; tauto].
    destruct (JSON_parse span) as [analysis|e1]; cbn [bind try_catch];
      [|intros H; inversion H; simpl; tauto].
    destruct (validateAndSanitizeAnalysis analysis fileName) as [a|e1] eqn:S;
      cbn [bind try_catch]; [discriminate|].
    rewrite (analyzeWithAI_catch_sanitizer e1 (sanitizer_throws _ _ _ S)).
    intros H. inversion H. simpl. tauto.
  - destruct (analyzeWithAI_catch_status e0 (Hlib _ _ G)) as (e' & -> & Hs).
    intros H. inversion H; subst. exact Hs.
Qed.

(** X9.  An answer of the AI without a [{] or without a [}] is refused:
    [analyzeWithAI] throws the AppError "AI did not return a valid JSON
    response." of status 500. *)
Theorem answer_without_braces_is_refused (w : world)
    (resumeText fileName response : jsstring) :
  GOOGLE_API_KEY w = true ->
  generateContent w (createAnalysisPrompt resumeText) = Ok response ->
  ~ In 123%N response \/ ~ In 125%N response ->
  analyzeWithAI w resumeText fileName =
  Throw (AppError "AI did not return a valid JSON response." 500).
Proof.
  intros Hk Hg Hb. rewrite analyzeWithAI_span, Hk, Hg. cbn [negb bind].
  assert (N : json_span response = None).
  { unfold json_span.
    set (clean := remove_fence _ _ _).
    assert (Hin : forall x, In x clean -> In x response).
    { intros x I. unfold clean in I.
      apply remove_fence_incl, remove_fence_incl, trim_incl in I. exact I. }
    destruct Hb as [Hb|Hb].
    - rewrite indexOf_none; [reflexivity|].
      intros I. exact (Hb (Hin _ I)).
    - rewrite (lastIndexOf_none clean 125);
        [destruct (indexOf clean 123); reflexivity|].
      intros I. exact (Hb (Hin _ I)). }
  rewrite N. reflexivity.
Qed.

(** Two answers with the same JSON text in them are analyzed alike. *)
Lemma analyzeWithAI_same_span (w w' : world)
    (resumeText fileName response response' : jsstring) :
  GOOGLE_API_KEY w = GOOGLE_API_KEY w' ->
  generateContent w (createAnalysisPrompt resumeText) = Ok response ->
  generateContent w' (createAnalysisPrompt resumeText) = Ok response' ->
  json_span response = json_span response' ->
  analyzeWithAI w resumeText fileName = analyzeWithAI w' resumeText fileName.
Proof.
  intros Hk Hg Hg' Hs.
  rewrite !analyzeWithAI_span, Hk, Hg, Hg'. cbn [bind]. rewrite Hs.
  reflexivity.
Qed.

(** X10.  An answer inside a Markdown fence is analyzed as the bare
    answer: for a JSON text [{...}] without backticks, [analyzeWithAI] gives
    the same result when the AI wraps the text in [```json] and [```]
    lines as when it answers the text alone. *)
Theorem fenced_answer_reads_as_bare (w w' : world)
    (resumeText fileName m : jsstring) :
  ~ In 96%N m ->
  GOOGLE_API_KEY w = GOOGLE_API_KEY w' ->
  generateContent w (createAnalysisPrompt resumeText)
    = Ok (fenced (123%N :: m ++ [125%N])) ->
  generateContent w' (createAnalysisPrompt resumeText)
    = Ok (123%N :: m ++ [125%N]) ->
  analyzeWithAI w resumeText fileName = analyzeWithAI w' resumeText fileName.
Proof.
  intros Ht Hk Hg Hg'.
  apply (analyzeWithAI_same_span w w' resumeText fileName _ _ Hk Hg Hg').
  rewrite (json_span_fenced m Ht).
  assert (Hb : ~ In 96%N ([] ++ 123%N :: m ++ 125%N :: [])).
  { intros [I|I]; [discriminate I|].
    apply in_app_or in I.
    destruct I as [I|[I|[]]]; [exact (Ht I)|discriminate I]. }
  symmetry.
  exact (json_span_prose [] m [] Hb (fun I => I) (fun I => I)).
Qed.

(** X11.  Prose around the answer is ignored: for an answer without
    backticks, what stands before the first [{] and after the last [}]
    does not change the result of [analyzeWithAI]. *)
Theorem prose_around_answer_is_ignored (w w' : world)
    (resumeText fileName pre m post : jsstring) :
  ~ In 96%N (pre ++ 123%N :: m ++ 125%N :: post) ->
  ~ In 123%N pre -> ~ In 125%N post ->
  GOOGLE_API_KEY w = GOOGLE_API_KEY w' ->
  generateContent w (createAnalysisPrompt resumeText)
    = Ok (pre ++ 123%N :: m ++ 125%N :: post) ->
  generateContent w' (createAnalysisPrompt resumeText)
    = Ok (123%N :: m ++ [125%N]) ->
  analyzeWithAI w resumeText fileName = analyzeWithAI w' resumeText fileName.
Proof.
  intros Ht Hp Hq Hk Hg Hg'.
  apply (analyzeWithAI_same_span w w' resumeText fileName _ _ Hk Hg Hg').
  rewrite (json_span_prose pre m post Ht Hp Hq).
  assert (Hb : ~ In 96%N ([] ++ 123%N :: m ++ 125%N :: [])).
  { intros I. apply Ht. apply in_or_app. right.
    destruct I as [I|I]; [left; exact I|right].
    apply in_app_or in I. apply in_or_app.
    destruct I as [I|[I|[]]]; [left; exact I|right; left; exact I]. }
  symmetry.
  exact (json_span_prose [] m [] Hb (fun I => I) (fun I => I)).
Qed.

End MorePipeline.

Section MoreUpload.
Context {engine : Engine} {postgres : Postgres}.

(** X12.  An upload whose PDF the library cannot read (its error not
    being an AppError) creates no row; the answer is 400 "Unable to process
    PDF file. ..." when the error is not classified, and the generic 500
    when the error mentions an invalid, password-protected, encrypted,
    damaged or corrupted file. *)
Theorem upload_of_unreadable_pdf (db : database) (w : world) (f : file)
    (e : error) :
  mimetype f = lit "application/pdf" ->
  size f <= 5 * 1024 * 1024 ->
  pdf w (buffer f) = Throw e ->
  instanceof_AppError e = false ->
  uploadResume db w (Some f) =
  (if msg_includes e "Invalid PDF"
      || msg_includes e "password" || msg_includes e "encrypted"
      || msg_includes e "damaged" || msg_includes e "corrupted"
   then respond 500 false "An error occurred while processing your resume. Please try again."
   else respond 400 false "Unable to process PDF file. Please ensure it's a valid, non-encrypted PDF.",
   db).
Proof.
  intros Hm Hs Hp Ha.
  rewrite (uploadResume_accepted db w f Hm Hs).
  unfold analyzeResume, extractTextFromPDF.
  rewrite Hp. cbn [bind try_catch]. rewrite Ha.
  destruct (msg_includes e "Invalid PDF"); [reflexivity|].
  destruct (msg_includes e "password"); [reflexivity|].
  destruct (msg_includes e "encrypted"); [reflexivity|].
  destruct (msg_includes e "damaged"); [reflexivity|].
  destruct (msg_includes e "corrupted"); reflexivity.
Qed.

(** X13.  When the AI answers with JSON that parses but on which the
    sanitizer throws, [analyzeWithAI] throws the AppError "AI analysis
    service is temporarily unavailable. Please try again later." of status
    503, and the upload is answered with the generic 500 and creates no
    row. *)
Theorem upload_of_rejected_answer (db : database) (w : world) (f : file)
    (text response span : jsstring) (analysis : value) (e : error) :
  mimetype f = lit "application/pdf" ->
  size f <= 5 * 1024 * 1024 ->
  pdf w (buffer f) = Ok text ->
  (50 <= length (trim text))%nat ->
  GOOGLE_API_KEY w = true ->
  generateContent w (createAnalysisPrompt text) = Ok response ->
  json_span response = Some span ->
  JSON_parse span = Ok analysis ->
  validateAndSanitizeAnalysis analysis (originalname f) = Throw e ->
  analyzeWithAI w text (originalname f) =
    Throw (AppError "AI analysis service is temporarily unavailable. Please try again later." 503) /\
  uploadResume db w (Some f) =
    (respond 500 false "An error occurred while processing your resume. Please try again.", db).
Proof.
  intros Hm Hs Hp Hl Hk Hg Hj Hparse Hthrow.
  assert (A : analyzeWithAI w text (originalname f) =
              Throw (AppError "AI analysis service is temporarily unavailable. Please try again later." 503)).
  { rewrite analyzeWithAI_span, Hk, Hg. cbn [negb bind]. rewrite Hj, Hparse.
    cbn [bind try_catch]. rewrite Hthrow. cbn [try_catch].
    exact (analyzeWithAI_catch_sanitizer e (sanitizer_throws _ _ _ Hthrow)). }
  split; [exact A|].
  rewrite (uploadResume_accepted db w f Hm Hs).
  unfold analyzeResume.
  rewrite (extractTextFromPDF_ok w (buffer f) (originalname f) text Hp Hl).
  cbn [bind]. rewrite A. reflexivity.
Qed.

(** X14.  The record [analyzeResume] returns has every field of the
    analysis, the list fields arrays and the rating from 1 to 10, and three
    more: [processed_at] is the time of the call, [file_name] the name it
    was given, and [text_length] the length of the extracted text, not
    trimmed. *)
Theorem analysis_record_is_annotated (w : world) (pdfBuffer : list N)
    (fileName : jsstring) (a : value) :
  analyzeResume w pdfBuffer fileName = Ok a ->
  Analysis_schema a /\
  field "processed_at" a = Some (VStr (toISOString w)) /\
  field "file_name" a = Some (VStr fileName) /\
  exists text,
    pdf w pdfBuffer = Ok text /\
    field "text_length" a = Some (VNum (number_of_nat (length text))).
Proof.
  unfold analyzeResume. intros H.
  destruct (extractTextFromPDF w pdfBuffer fileName) as [text|] eqn:X;
    [|discriminate].
  cbn [bind] in H.
  destruct (analyzeWithAI w text fileName) as [a0|] eqn:A; [|discriminate].
  cbn [bind] in H. inversion H; subst; clear H.
  apply analyzeWithAI_sanitized in A. destruct A as [analysis A].
  apply sanitize_is_sanitized in A.
  destruct A as (n & e & p & l & o & su & we & ed & ts & ss & pr & ce & r
                 & ia & us & -> & Hr).
  apply extractTextFromPDF_returns in X. destruct X as [X _].
  split; [|split; [reflexivity|split; [reflexivity|]]].
  - repeat split.
    + intros k Hk. simpl in Hk.
      repeat (destruct Hk as [Hk|Hk]; [subst k; eexists; reflexivity|]).
      destruct Hk.
    + intros k Hk. simpl in Hk.
      repeat (destruct Hk as [Hk|Hk]; [subst k; eexists; reflexivity|]).
      destruct Hk.
    + exists r. split; [reflexivity|exact Hr].
  - exists text. split; [exact X|reflexivity].
Qed.

End MoreUpload.

(** *** The theorems at work *)

Lemma extraction_outcome_witness :
  extractTextFromPDF (Demo.fine 10) (buffer Demo.cv) (lit "cv.pdf")
    = Ok Demo.resume_text /\
  statusCode (AppError "PDF is password protected or encrypted. Please upload an unprotected PDF." 400)
    = Some 400.
Proof.
  split.
  - apply (proj2 (proj1 (extraction_outcome (Demo.fine 10) (buffer Demo.cv)
                           (lit "cv.pdf")) Demo.resume_text)).
    split; [reflexivity|vm_compute; lia].
  - apply (proj2 (extraction_outcome
                    (Cases.unreadable (lit "File is encrypted"))
                    (buffer Demo.cv) (lit "cv.pdf"))).
    + intros e0 H. inversion H. reflexivity.
    + vm_compute. reflexivity.
Defined.

Lemma analysis_fails_with_an_AppError_witness :
  In (Some 408) [Some 408; Some 429; Some 500; Some 503].
Proof.
  apply (analysis_fails_with_an_AppError (engine := Demo.engine)
           Demo.timed_out Demo.resume_text (lit "cv.pdf")
           (AppError "AI analysis is taking longer than expected. Please try again." 408)).
  - intros p e0 H. inversion H. reflexivity.
  - vm_compute. reflexivity.
Defined.

Lemma answer_without_braces_is_refused_witness :
  analyzeWithAI (engine := Demo.engine)
    (Cases.answering (lit "I cannot read this resume."))
    Demo.resume_text (lit "cv.pdf") =
  Throw (AppError "AI did not return a valid JSON response." 500).
Proof.
  apply (answer_without_braces_is_refused (engine := Demo.engine)
           (Cases.answering (lit "I cannot read this resume."))
           Demo.resume_text (lit "cv.pdf")
           (lit "I cannot read this resume.")).
  - reflexivity.
  - reflexivity.
  - left. vm_compute. intuition discriminate.
Defined.

Lemma fenced_answer_reads_as_bare_witness :
  analyzeWithAI (engine := Demo.engine)
    (Cases.answering (fenced Demo.answer_text)) Demo.resume_text (lit "cv.pdf")
  = analyzeWithAI (engine := Demo.engine)
    (Cases.answering Demo.answer_text) Demo.resume_text (lit "cv.pdf").
Proof.
  apply (fenced_answer_reads_as_bare (engine := Demo.engine)
           (Cases.answering (fenced Demo.answer_text))
           (Cases.answering Demo.answer_text)
           Demo.resume_text (lit "cv.pdf")
           (dq ++ lit "technical_skills" ++ dq ++ lit ":" ++ Demo.skills_text)).
  - vm_compute. intuition discriminate.
  - reflexivity.
  - reflexivity.
  - reflexivity.
Defined.

Lemma prose_around_answer_is_ignored_witness :
  analyzeWithAI (engine := Demo.engine)
    (Cases.answering
       (lit "Here is the analysis: " ++ Demo.answer_text ++ lit " Done."))
    Demo.resume_text (lit "cv.pdf")
  = analyzeWithAI (engine := Demo.engine)
    (Cases.answering Demo.answer_text) Demo.resume_text (lit "cv.pdf").
Proof.
  apply (prose_around_answer_is_ignored (engine := Demo.engine)
           (Cases.answering
              (lit "Here is the analysis: " ++ Demo.answer_text
               ++ lit " Done."))
           (Cases.answering Demo.answer_text)
           Demo.resume_text (lit "cv.pdf")
           (lit "Here is the analysis: ")
           (dq ++ lit "technical_skills" ++ dq ++ lit ":" ++ Demo.skills_text)
           (lit " Done.")).
  - vm_compute. intuition discriminate.
  - vm_compute. intuition discriminate.
  - vm_compute. intuition discriminate.
  - reflexivity.
  - reflexivity.
  - reflexivity.
Defined.

Lemma upload_of_unreadable_pdf_witness :
  uploadResume (engine := Demo.engine) (postgres := Demo.postgres)
    Demo.empty_table (Cases.unreadable (lit "File is encrypted"))
    (Some Demo.cv) =
  (respond 500 false "An error occurred while processing your resume. Please try again.",
   Demo.empty_table) /\
  uploadResume (engine := Demo.engine) (postgres := Demo.postgres)
    Demo.empty_table (Cases.unreadable (lit "bad XRef entry"))
    (Some Demo.cv) =
  (respond 400 false "Unable to process PDF file. Please ensure it's a valid, non-encrypted PDF.",
   Demo.empty_table).
Proof.
  split.
  - apply (upload_of_unreadable_pdf (engine := Demo.engine)
             (postgres := Demo.postgres) Demo.empty_table
             (Cases.unreadable (lit "File is encrypted")) Demo.cv
             (mkError (lit "File is encrypted") None None));
      first [reflexivity | vm_compute; discriminate].
  - apply (upload_of_unreadable_pdf (engine := Demo.engine)
             (postgres := Demo.postgres) Demo.empty_table
             (Cases.unreadable (lit "bad XRef entry")) Demo.cv
             (mkError (lit "bad XRef entry") None None));
      first [reflexivity | vm_compute; discriminate].
Defined.

Lemma upload_of_rejected_answer_witness :
  uploadResume (engine := Cases.engine) (postgres := Demo.postgres)
    Demo.empty_table (Cases.answering Cases.null_item_text) (Some Demo.cv) =
  (respond 500 false "An error occurred while processing your resume. Please try again.",
   Demo.empty_table).
Proof.
  apply (proj2 (upload_of_rejected_answer (engine := Cases.engine)
           (postgres := Demo.postgres) Demo.empty_table
           (Cases.answering Cases.null_item_text) Demo.cv
           Demo.resume_text Cases.null_item_text Cases.null_item_text
           (VObj [(lit "work_experience", VArr [VNull])])
           (EngineError (lit "Cannot read properties of null (reading 'role')"))
           eq_refl ltac:(vm_compute; discriminate) eq_refl
           ltac:(vm_compute; lia) eq_refl eq_refl eq_refl eq_refl eq_refl)).
Defined.

Lemma analysis_record_is_annotated_witness :
  field "file_name" Demo.record = Some (VStr (lit "cv.pdf")) /\
  field "text_length" Demo.record =
    Some (VNum (number_of_nat (length Demo.resume_text))).
Proof.
  destruct (analysis_record_is_annotated (engine := Demo.engine)
              (Demo.fine 10) (buffer Demo.cv) (lit "cv.pdf") Demo.record)
    as (_ & _ & F & text & P & L).
  - vm_compute. reflexivity.
  - split; [exact F|].
    assert (E : text = Demo.resume_text)
      by (cbn in P; inversion P; reflexivity).
    rewrite L, E. reflexivity.
Defined.

(* ================================================================== *)
(** ** The table, the list and the statistics *)

Section MoreController.
Context {engine : Engine} {postgres : Postgres}.

Lemma uploadResume_catch_answer (e : error) :
  In (Res.status (uploadResume_catch e)) [400; 500] /\
  Res.success (uploadResume_catch e) = false /\
  Res.data (uploadResume_catch e) = None.
Proof.
  unfold uploadResume_catch.
  destruct (msg_includes e "PDF parsing failed"); [simpl; tauto|].
  destruct (msg_includes e "AI analysis failed"); [simpl; tauto|].
  destruct (code_is e "23505"); simpl; tauto.
Qed.

(** What [INSERT ... RETURNING] does to the table and to the sequence. *)
Lemma insert_resume_effect (db : database) (now : Z)
    (values : list (option jsstring)) (res : result stored)
    (db' : database) :
  insert_resume db now values = (res, db') ->
  match res with
  | Ok r => rows db' = rows db ++ [r] /\ Row.id r = next_id db /\
            next_id db' = next_id db + 1
  | Throw _ => rows db' = rows db /\
               (next_id db' = next_id db \/ next_id db' = next_id db + 1)
  end.
Proof.
  unfold insert_resume.
  do 16 (destruct values as [|? values];
         [intros H; inversion H; subst; tauto|]).
  destruct values; [|intros H; inversion H; subst; tauto].
  destruct (integer_param _) as [rating|e];
    [|intros H; inversion H; subst; tauto].
  destruct (constraint_violation _);
    [intros H; inversion H; subst; simpl; tauto|].
  destruct (existsb (fun x => Row.id x =? next_id db) (rows db)) eqn:E;
    intros H; inversion H; subst; simpl; tauto.
Qed.

(** X15.  An upload is answered 201, 400 or 500, with [success] true
    exactly for 201; it never changes or removes a row and adds at most
    one, with the next id of the sequence, and it moves the sequence on by
    at most one. *)
Theorem upload_adds_at_most_one_row (db : database) (w : world)
    (req_file : option file) (res : Res.t) (db' : database) :
  uploadResume db w req_file = (res, db') ->
  In (Res.status res) [201; 400; 500] /\
  (Res.success res = true <-> Res.status res = 201) /\
  (rows db' = rows db \/
   exists r, rows db' = rows db ++ [r] /\ Row.id r = next_id db) /\
  next_id db <= next_id db' <= next_id db + 1.
Proof.
  assert (Refused : forall e d,
            (rows d = rows db \/
             exists r, rows d = rows db ++ [r] /\ Row.id r = next_id db) ->
            next_id db <= next_id d <= next_id db + 1 ->
            In (Res.status (uploadResume_catch e)) [201; 400; 500] /\
            (Res.success (uploadResume_catch e) = true <->
             Res.status (uploadResume_catch e) = 201) /\
            (rows d = rows db \/
             exists r, rows d = rows db ++ [r] /\ Row.id r = next_id db) /\
            next_id db <= next_id d <= next_id db + 1).
  { intros e d Hd Hn.
    destruct (uploadResume_catch_answer e) as (S & U & _).
    assert (N : Res.status (uploadResume_catch e) <> 201)
      by (simpl in S; lia).
    split; [simpl in S |- *; tauto|]. split; [|split; [exact Hd|exact Hn]].
    rewrite U. split; [discriminate|intros X; destruct (N X)]. }
  assert (Rejected : forall m,
            In (Res.status (respond 400 false m)) [201; 400; 500] /\
            (Res.success (respond 400 false m) = true <->
             Res.status (respond 400 false m) = 201) /\
            (rows db = rows db \/
             exists r, rows db = rows db ++ [r] /\ Row.id r = next_id db) /\
            next_id db <= next_id db <= next_id db + 1).
  { intros m. cbn [respond Res.status Res.success].
    split; [simpl; tauto|]. split; [split; discriminate|].
    split; [left; reflexivity|lia]. }
  unfold uploadResume. intros H.
  destruct req_file as [f|]; [|inversion H; subst; apply Rejected].
  destruct (negb _); [inversion H; subst; apply Rejected|].
  destruct (_ <? size f); [inversion H; subst; apply Rejected|].
  destruct (bind _ _) as [values|e];
    [|inversion H; subst; apply Refused; [left; reflexivity|lia]].
  destruct (insert_resume db (CURRENT_TIMESTAMP w) (map param values))
    as [result db1] eqn:I.
  apply insert_resume_effect in I.
  destruct result as [r|e]; cbn [bind] in H.
  - destruct I as (I1 & I2 & I3).
    destruct (bind (driver_row r) _) as [saved|e]; inversion H; subst.
    + cbn [Res.status Res.success].
      split; [simpl; tauto|]. split; [split; reflexivity|].
      split; [right; exists r; tauto|lia].
    + apply Refused; [right; exists r; tauto|lia].
  - inversion H; subst. destruct I as [I1 I2].
    apply Refused; [left; exact I1|lia].
Qed.


(** *** The ids of the table *)

Lemma uploadResume_table (db : database) (w : world)
    (req_file : option file) :
  let db' := snd (uploadResume db w req_file) in
  (rows db' = rows db /\ next_id db <= next_id db') \/
  (exists r, rows db' = rows db ++ [r] /\ Row.id r = next_id db /\
             next_id db' = next_id db + 1).
Proof.
  unfold uploadResume.
  destruct req_file as [f|]; [|left; simpl; split; [reflexivity|lia]].
  destruct (negb _); [left; simpl; split; [reflexivity|lia]|].
  destruct (_ <? size f); [left; simpl; split; [reflexivity|lia]|].
  destruct (bind _ _) as [values|e];
    [|left; simpl; split; [reflexivity|lia]].
  destruct (insert_resume db (CURRENT_TIMESTAMP w) (map param values))
    as [result db1] eqn:I.
  apply insert_resume_effect in I.
  assert (E : snd (let '(result, db') := (result, db1) in
                   match (let* row := result in
                          let* savedResume := driver_row row in
                          parse_lists savedResume) with
                   | Throw error => (uploadResume_catch error, db')
                   | Ok savedResume =>
                       (Res.mk 201 true
                          (lit "Resume uploaded and analyzed successfully!")
                          (Some (Resume savedResume)) None, db')
                   end) = db1).
  { cbv zeta iota beta. destruct (bind result _); reflexivity. }
  cbv zeta. rewrite E.
  destruct result as [r|e].
  - right. exists r. exact I.
  - left. destruct I as [I1 [I2|I2]]; split; try exact I1; lia.
Qed.

Lemma deleteResume_table (db : database) (id : jsstring) :
  let db' := snd (deleteResume db id) in
  next_id db' = next_id db /\
  (rows db' = rows db \/
   exists n, integer_in id = Ok n /\
             rows db' = filter (fun r => negb (Row.id r =? n)) (rows db)).
Proof.
  unfold deleteResume.
  destruct (invalid_id id); [simpl; tauto|].
  unfold delete_by_id.
  destruct (integer_in id) as [n|e]; [|simpl; tauto].
  cbv zeta.
  match goal with
  | |- context [match ?m with [] => _ | _ :: _ => _ end] =>
      destruct m as [|[a b] l]
  end; cbn [snd next_id rows];
    (split; [reflexivity|right; exists n; split; reflexivity]).
Qed.

Lemma kept_rows_ids (keep : stored -> bool) (table : list stored) :
  NoDup (map (fun r => Row.id r) table) ->
  NoDup (map (fun r => Row.id r) (filter keep table)).
Proof.
  induction table as [|x table IH]; intros H; [constructor|].
  cbn [map] in H. inversion H as [|? ? Hx Hl]; subst.
  cbn [filter]. destruct (keep x); [|exact (IH Hl)].
  cbn [map]. constructor; [|exact (IH Hl)].
  intros I. apply Hx. apply in_map_iff in I.
  destruct I as (y & Ey & Iy). apply filter_In in Iy.
  apply in_map_iff. exists y. tauto.
Qed.

Lemma fresh_ids_serve (db : database) (r : request) :
  fresh_ids db -> fresh_ids (snd (serve db r)).
Proof.
  intros [Hn Hb]. destruct r as [w req_file|id]; cbn [serve].
  - destruct (uploadResume_table db w req_file) as [[R N]|(r & R & I & N)];
      unfold fresh_ids, ids in *; rewrite R.
    + split; [exact Hn|].
      eapply Forall_impl; [|exact Hb]. cbv beta. intros; lia.
    + rewrite map_app. cbn [map]. rewrite I, N. split.
      * apply NoDup_app; [exact Hn|repeat constructor; intros []|].
        intros x Hx [Hx'|[]]. subst x.
        rewrite Forall_forall in Hb. specialize (Hb _ Hx). lia.
      * apply Forall_app. split; [|repeat constructor; lia].
        eapply Forall_impl; [|exact Hb]. cbv beta. intros; lia.
  - destruct (deleteResume_table db id) as [N [R|(n & _ & R)]];
      unfold fresh_ids, ids in *; rewrite R, N.
    + split; assumption.
    + split; [apply kept_rows_ids; exact Hn|].
      rewrite Forall_forall in *. intros x Hx. apply Hb.
      apply in_map_iff in Hx. destruct Hx as (y & Ey & Iy).
      apply filter_In in Iy. apply in_map_iff. exists y. tauto.
Qed.

Lemma filter_id_unique (l : list stored) (r : stored) :
  NoDup (map (fun x => Row.id x) l) -> In r l ->
  filter (fun x => Row.id x =? Row.id r) l = [r].
Proof.
  induction l as [|x l IH]; intros Hn Hr; [destruct Hr|].
  cbn [map] in Hn. inversion Hn as [|? ? Hx Hl]; subst.
  cbn [filter]. destruct Hr as [->|Hr].
  - rewrite Z.eqb_refl. apply (f_equal (cons r)). apply filter_nil.
    intros y Hy. apply Z.eqb_neq. intros E. apply Hx.
    apply in_map_iff. exists y. split; [exact E|exact Hy].
  - destruct (Row.id x =? Row.id r) eqn:E; [|exact (IH Hl Hr)].
    apply Z.eqb_eq in E. destruct Hx. apply in_map_iff.
    exists r. split; [symmetry; exact E|exact Hr].
Qed.

Lemma filter_id_at_most_one (l : list stored) (n : Z) :
  NoDup (map (fun x => Row.id x) l) ->
  (length (filter (fun x => (Row.id x =? n)%Z) l) <= 1)%nat.
Proof.
  intros Hn.
  destruct (filter (fun x => Row.id x =? n) l) as [|r rest] eqn:F;
    [simpl; lia|].
  assert (Hr : In r (filter (fun x => Row.id x =? n) l))
    by (rewrite F; left; reflexivity).
  apply filter_In in Hr. destruct Hr as [Hr E]. apply Z.eqb_eq in E.
  subst n. rewrite (filter_id_unique l r Hn Hr) in F.
  inversion F. simpl. lia.
Qed.

(** X16.  The ids of the table stay distinct and below the next value of
    the sequence over every run of uploads and deletions, from the empty
    table on; so a read by id finds at most one row. *)
Theorem ids_stay_distinct :
  (forall next, fresh_ids (mkDatabase [] next)) /\
  (forall db rs, fresh_ids db -> fresh_ids (serve_all db rs)) /\
  (forall db n, fresh_ids db ->
     (length (filter (fun r => (Row.id r =? n)%Z) (rows db)) <= 1)%nat).
Proof.
  split; [|split].
  - intros next. split; constructor.
  - intros db rs. revert db.
    induction rs as [|r rs IH]; intros db H; [exact H|].
    cbn [serve_all]. apply IH, fresh_ids_serve, H.
  - intros db n [Hn _]. apply filter_id_at_most_one. exact Hn.
Qed.

(** *** Deleting a record *)

(** X17.  Deleting a record that exists (in a table of distinct ids):
    the answer is 200 with the id and file name of the record and the
    message [Resume "<file name>" deleted successfully]; exactly that
    record is removed; reading or deleting the same id again is answered
    404. *)
Theorem delete_removes_the_record (db : database) (id : jsstring)
    (r : stored) :
  fresh_ids db -> In r (rows db) ->
  invalid_id id = false ->
  integer_in id = Ok (Row.id r) ->
  let db' := mkDatabase
               (filter (fun x => negb (Row.id x =? Row.id r)) (rows db))
               (next_id db) in
  deleteResume db id =
    (Res.mk 200 true
       (lit "Resume " ++ dq
        ++ match Row.file_name r with Some s => s | None => lit "null" end
        ++ dq ++ lit " deleted successfully")
       (Some (Deleted (Row.id r) (Row.file_name r))) None, db') /\
  (length (rows db') + 1 = length (rows db))%nat /\
  (forall x, In x (rows db') <-> In x (rows db) /\ x <> r) /\
  getResumeById db' id = respond 404 false "Resume not found." /\
  deleteResume db' id = (respond 404 false "Resume not found.", db').
Proof.
  intros [Hn Hb] Hr Hv Hi db'. unfold ids in Hn.
  assert (Gone : forall x, In x (rows db') -> Row.id x <> Row.id r).
  { intros x Hx. unfold db' in Hx. cbn [rows] in Hx.
    apply filter_In in Hx. destruct Hx as [_ Hx].
    apply negb_true_iff, Z.eqb_neq in Hx. exact Hx. }
  split; [|split; [|split; [|split]]].
  - unfold deleteResume, delete_by_id. rewrite Hv, Hi.
    rewrite (filter_id_unique (rows db) r Hn Hr). reflexivity.
  - unfold db'. cbn [rows].
    pose proof (filter_length (fun x => Row.id x =? Row.id r) (rows db)) as L.
    rewrite (filter_id_unique (rows db) r Hn Hr) in L. cbn [length] in L.
    unfold stored in *. lia.
  - intros x. unfold db'. cbn [rows]. rewrite filter_In.
    split.
    + intros [Hx Hd]. split; [exact Hx|].
      intros ->. rewrite Z.eqb_refl in Hd. discriminate Hd.
    + intros [Hx Hd]. split; [exact Hx|].
      apply negb_true_iff, Z.eqb_neq. intros E. apply Hd.
      pose proof (filter_id_unique (rows db) r Hn Hr) as U.
      assert (Ix : In x (filter (fun y => Row.id y =? Row.id r) (rows db)))
        by (apply filter_In; split; [exact Hx|apply Z.eqb_eq; exact E]).
      rewrite U in Ix. destruct Ix as [Ix|[]]. symmetry. exact Ix.
  - unfold getResumeById. rewrite Hv.
    rewrite (select_absent db' id (Row.id r) Hi Gone). reflexivity.
  - unfold deleteResume. rewrite Hv.
    rewrite (delete_absent db' id (Row.id r) Hi Gone). reflexivity.
Qed.

Lemma filter_other_id (l : list stored) (n m : Z) :
  n <> m ->
  filter (fun r => Row.id r =? m)
    (filter (fun r => negb (Row.id r =? n)) l) =
  filter (fun r => Row.id r =? m) l.
Proof.
  intros Hd. induction l as [|x l IH]; [reflexivity|].
  cbn [filter]. destruct (Row.id x =? n) eqn:En; cbn [negb filter].
  - apply Z.eqb_eq in En.
    replace (Row.id x =? m) with false; [exact IH|].
    symmetry. apply Z.eqb_neq. rewrite En. exact Hd.
  - destruct (Row.id x =? m); [f_equal|]; exact IH.
Qed.

(** X18.  A deletion does not touch the other records: reading any other
    id gives the same answer after the deletion as before, whether the
    deletion succeeded or not. *)
Theorem delete_spares_other_records (db : database) (id id' : jsstring)
    (m : Z) :
  integer_in id' = Ok m ->
  (forall n, integer_in id = Ok n -> n <> m) ->
  getResumeById (snd (deleteResume db id)) id' = getResumeById db id'.
Proof.
  intros Hm Hd.
  destruct (deleteResume_table db id) as [_ [R|(n & Hn & R)]];
    unfold getResumeById, select_by_id; rewrite Hm; cbn [bind]; rewrite R;
    [reflexivity|].
  rewrite (filter_other_id (rows db) n m (Hd n Hn)). reflexivity.
Qed.


(** *** Statistics *)

Lemma parseInt_count (n : nat) :
  parseInt (Some (VStr (decimal (N.of_nat n)))) = Ok (Some (Z.of_nat n)).
Proof.
  unfold parseInt. cbn [ToString_opt ToString bind].
  rewrite parseInt_string_decimal, nat_N_Z. reflexivity.
Qed.

Lemma rating_classes (l : list Z) :
  (length (filter high_rated l) + length (filter medium_rated l)
   + length (filter low_rated l) = length l)%nat.
Proof.
  induction l as [|z l IH]; [reflexivity|].
  cbn [filter length]. unfold high_rated, medium_rated, low_rated in *.
  destruct (8 <=? z) eqn:A, (5 <=? z) eqn:B, (z <=? 7) eqn:C,
           (z <? 5) eqn:D; cbn [andb length];
    rewrite ?Z.leb_le, ?Z.leb_gt, ?Z.ltb_lt, ?Z.ltb_ge in *; lia.
Qed.

(** X19.  The statistics endpoint always answers 200; [total_resumes] is
    the number of rows, and the three counts are the numbers of ratings
    from 8 up, from 5 to 7, and below 5, which together count every rated
    row once. *)
Theorem stats_count_every_record (db : database) :
  exists avg mx mn,
    getResumeStats db =
    Res.mk 200 true (lit "Resume statistics retrieved successfully")
      (Some (Statistics
         (mkStats (Some (Z.of_nat (length (rows db)))) avg mx mn
            (Some (Z.of_nat (length (filter high_rated (ratings db)))))
            (Some (Z.of_nat (length (filter medium_rated (ratings db)))))
            (Some (Z.of_nat (length (filter low_rated (ratings db))))))))
      None /\
    (length (filter high_rated (ratings db))
     + length (filter medium_rated (ratings db))
     + length (filter low_rated (ratings db))
     = length (ratings db))%nat.
Proof.
  unfold getResumeStats, select_stats, count_text.
  cbn [q_total_resumes q_avg_rating q_max_rating q_min_rating
       q_high_rated_count q_medium_rated_count q_low_rated_count].
  rewrite !parseInt_count. cbn [bind].
  unfold parseFloat, parseInt, opt_str, opt_int.
  destruct (match ratings db with [] => None | _ :: _ => Some (avg_text (ratings db)) end);
    destruct (extreme Z.max (ratings db));
    destruct (extreme Z.min (ratings db));
    cbn [ToString_opt ToString bind];
    do 3 eexists; (split; [reflexivity|apply rating_classes]).
Qed.


Lemma fold_left_max (l : list Z) (a : Z) :
  In (fold_left Z.max l a) (a :: l) /\
  a <= fold_left Z.max l a /\
  Forall (fun z => z <= fold_left Z.max l a) l.
Proof.
  revert a. induction l as [|x l IH]; intros a; cbn [fold_left].
  - split; [left; reflexivity|]. split; [lia|constructor].
  - destruct (IH (Z.max a x)) as (I & B & F).
    split; [|split; [lia|constructor; [lia|exact F]]].
    destruct I as [I|I]; [|right; right; exact I].
    rewrite <- I. destruct (Z.max_spec a x) as [[_ ->]|[_ ->]];
      [right; left|left]; reflexivity.
Qed.

Lemma fold_left_min (l : list Z) (a : Z) :
  In (fold_left Z.min l a) (a :: l) /\
  fold_left Z.min l a <= a /\
  Forall (fun z => fold_left Z.min l a <= z) l.
Proof.
  revert a. induction l as [|x l IH]; intros a; cbn [fold_left].
  - split; [left; reflexivity|]. split; [lia|constructor].
  - destruct (IH (Z.min a x)) as (I & B & F).
    split; [|split; [lia|constructor; [lia|exact F]]].
    destruct I as [I|I]; [|right; right; exact I].
    rewrite <- I. destruct (Z.min_spec a x) as [[_ ->]|[_ ->]];
      [left|right; left]; reflexivity.
Qed.

Lemma parseInt_rating (z : Z) :
  1 <= z <= 10 -> parseInt (opt_int (Some z)) = Ok (Some z).
Proof.
  intros H.
  assert (C : z = 1 \/ z = 2 \/ z = 3 \/ z = 4 \/ z = 5 \/ z = 6 \/ z = 7
              \/ z = 8 \/ z = 9 \/ z = 10) by lia.
  repeat destruct C as [C|C]; subst z; reflexivity.
Qed.

(** X20.  When the table holds a rating and the ratings are from 1 to 10
    (the CHECK of the column), [max_rating] and [min_rating] of the
    statistics are ratings of the table, the largest and the smallest. *)
Theorem stats_extremes_are_ratings (db : database) :
  ratings db <> [] ->
  Forall (fun z => 1 <= z <= 10) (ratings db) ->
  exists s M m,
    getResumeStats db =
    Res.mk 200 true (lit "Resume statistics retrieved successfully")
      (Some (Statistics s)) None /\
    max_rating s = Some M /\ min_rating s = Some m /\
    In M (ratings db) /\ In m (ratings db) /\
    Forall (fun z => m <= z <= M) (ratings db).
Proof.
  intros Hne Hr.
  destruct (ratings db) as [|a l] eqn:R; [destruct (Hne eq_refl)|].
  destruct (fold_left_max l a) as (IM & BM & FM).
  destruct (fold_left_min l a) as (Im & Bm & Fm).
  set (M := fold_left Z.max l a) in *. set (m := fold_left Z.min l a) in *.
  rewrite Forall_forall in Hr.
  unfold getResumeStats, select_stats, count_text. rewrite R.
  cbn [q_total_resumes q_avg_rating q_max_rating q_min_rating
       q_high_rated_count q_medium_rated_count q_low_rated_count extreme].
  fold M m.
  rewrite !parseInt_count. cbn [bind].
  rewrite (parseInt_rating M (Hr M IM)), (parseInt_rating m (Hr m Im)).
  unfold parseFloat, opt_str. cbn [ToString_opt ToString bind].
  eexists. exists M, m. split; [reflexivity|].
  cbn [max_rating min_rating].
  split; [reflexivity|]. split; [reflexivity|].
  split; [exact IM|]. split; [exact Im|].
  constructor; [lia|].
  rewrite Forall_forall in *. intros z Hz.
  specialize (FM z Hz). specialize (Fm z Hz). cbv beta in *. lia.
Qed.

(** *** The list endpoint *)

(** X21.  In the list endpoint every [improvement_summary] has at most
    103 characters (a surrogate pair counting as one character, as the
    server counts), is the preview of a stored row, and is the full text
    of the row when that has at most 100 characters. *)
Theorem list_previews_are_short (db : database) (s : summary_row)
    (t : jsstring) :
  In s (select_summaries db) ->
  improvement_summary s = Some t ->
  (length (characters t) <= 103)%nat /\
  exists r, In r (rows db) /\ s = summary_of r /\
            (forall full, Row.improvement_areas r = Some full ->
               (length (characters full) <= 100)%nat -> t = full).
Proof.
  intros Hs Ht. unfold select_summaries in Hs.
  apply in_map_iff in Hs. destruct Hs as (r & <- & Hr).
  apply (Permutation_in _ (order_by_perm (rows db))) in Hr.
  cbn [summary_of improvement_summary] in Ht. unfold preview in Ht.
  destruct (Row.improvement_areas r) as [full|] eqn:IA; [|discriminate].
  destruct (100 <? length (characters full))%nat eqn:E.
  - apply Nat.ltb_lt in E.
    replace t with (concat (firstn 100 (characters full)) ++ lit "...")
      by congruence.
    split; [apply preview_characters|].
    exists r. split; [exact Hr|]. split; [reflexivity|].
    intros full' F L. assert (full' = full) by congruence. subst. lia.
  - apply Nat.ltb_ge in E.
    replace t with full by congruence.
    split; [lia|].
    exists r. split; [exact Hr|]. split; [reflexivity|].
    intros full' F _. congruence.
Qed.

(** *** The id of a request *)

(** X22.  An id that passes [validateResumeId] also passes the check of
    the controllers: behind the route check, [getResumeById] and
    [deleteResume] never answer 400, only 200, 404 or 500. *)
Theorem route_check_covers_controller_check (db : database)
    (id : jsstring) :
  validateResumeId id = None ->
  invalid_id id = false /\
  In (Res.status (getResumeById db id)) [200; 404; 500] /\
  In (Res.status (fst (deleteResume db id))) [200; 404; 500].
Proof.
  unfold validateResumeId. intros H.
  assert (V : invalid_id id = false).
  { unfold invalid_id. destruct (negb (truthy (VStr id))); [discriminate|].
    destruct (parseInt_string id); [reflexivity|discriminate]. }
  split; [exact V|]. split.
  - unfold getResumeById. rewrite V.
    destruct (bind (select_by_id db id) _) as [[|r l]|e];
      [simpl; tauto| |simpl; tauto].
    destruct (parse_lists r); simpl; tauto.
  - unfold deleteResume. rewrite V.
    destruct (delete_by_id db id) as [[[|[a b] l]|e] d]; simpl; tauto.
Qed.

(** X23.  [validateResumeId] reads an id as [parseInt] does, up to its
    first character that is not a digit: a decimal numeral followed by
    anything that does not start with a digit is accepted exactly when the
    numeral is positive and carries no minus sign.  The numeral 0 followed
    by [x] or [X] is excepted: [parseInt] reads these as the prefix of a
    hexadecimal numeral (["0x10"] is accepted). *)
Theorem id_is_read_up_to_its_first_non_digit (neg : bool) (n : N)
    (rest : jsstring) :
  stops rest ->
  (n = 0%N -> match rest with
              | c :: _ => ((c =? 120) || (c =? 88))%N = false
              | [] => True
              end) ->
  validateResumeId (sign neg ++ decimal n ++ rest) =
  if (negb neg && (0 <? n)%N)%bool then None
  else Some (AppError "Invalid resume ID. ID must be a positive number." 400).
Proof.
  intros Hr Hx. unfold validateResumeId.
  rewrite (parseInt_string_numeral neg n rest Hr Hx).
  assert (T : truthy (VStr (sign neg ++ decimal n ++ rest)) = true).
  { destruct neg; [reflexivity|]. cbn [sign app]. unfold decimal.
    destruct (digits n) eqn:E; [destruct (digits_not_nil n E)|reflexivity]. }
  rewrite T. cbv [negb].
  destruct neg; cbn [signed negb andb].
  - destruct (- Z.of_N n <=? 0) eqn:E; [reflexivity|].
    apply Z.leb_gt in E. lia.
  - destruct (0 <? n)%N eqn:P.
    + apply N.ltb_lt in P.
      destruct (Z.of_N n <=? 0) eqn:E; [apply Z.leb_le in E; lia|reflexivity].
    + apply N.ltb_ge in P.
      destruct (Z.of_N n <=? 0) eqn:E; [reflexivity|apply Z.leb_gt in E; lia].
Qed.

End MoreController.

(** *** The theorems at work *)

Lemma first_upload_row :
  exists r, rows (snd Demo.up1) = [r] /\ Row.id r = 1 /\
            next_id (snd Demo.up1) = 2.
Proof. eexists. repeat split; vm_compute; reflexivity. Qed.

Lemma upload_adds_at_most_one_row_witness :
  exists r, rows (snd Demo.up1) = rows Demo.empty_table ++ [r] /\
            Row.id r = next_id Demo.empty_table.
Proof.
  destruct (upload_adds_at_most_one_row (engine := Demo.engine)
              (postgres := Demo.postgres) Demo.empty_table (Demo.fine 10)
              (Some Demo.cv) (fst Demo.up1) (snd Demo.up1)
              (surjective_pairing Demo.up1))
    as (_ & _ & [H|H] & _); [|exact H].
  vm_compute in H. discriminate H.
Defined.

Lemma delete_removes_the_record_witness :
  Res.status (fst (deleteResume (postgres := Demo.postgres)
                     (snd Demo.up1) (lit "1"))) = 200 /\
  getResumeById (engine := Demo.engine) (postgres := Demo.postgres)
    (snd (deleteResume (postgres := Demo.postgres) (snd Demo.up1) (lit "1")))
    (lit "1") = respond 404 false "Resume not found.".
Proof.
  destruct first_upload_row as (r & R & I & N).
  assert (F : fresh_ids (snd Demo.up1)).
  { unfold fresh_ids, ids. rewrite R, N. cbn [map]. rewrite I.
    split.
    - constructor; [intros []|constructor].
    - constructor; [lia|constructor]. }
  assert (Hr : In r (rows (snd Demo.up1))) by (rewrite R; left; reflexivity).
  destruct (delete_removes_the_record (engine := Demo.engine)
              (postgres := Demo.postgres) (snd Demo.up1) (lit "1") r F Hr
              eq_refl ltac:(rewrite I; reflexivity))
    as (D & _ & _ & G & _).
  rewrite D. split; [reflexivity|exact G].
Defined.

Lemma delete_spares_other_records_witness :
  getResumeById (engine := Demo.engine) (postgres := Demo.postgres)
    (snd (deleteResume (postgres := Demo.postgres) (snd Demo.up2) (lit "1")))
    (lit "2")
  = getResumeById (engine := Demo.engine) (postgres := Demo.postgres)
      (snd Demo.up2) (lit "2").
Proof.
  apply (delete_spares_other_records (engine := Demo.engine)
           (postgres := Demo.postgres) (snd Demo.up2) (lit "1") (lit "2") 2).
  - reflexivity.
  - intros n H. vm_compute in H. inversion H. discriminate.
Defined.

Lemma stats_extremes_are_ratings_witness :
  exists s M m,
    getResumeStats (engine := Demo.engine) (postgres := Demo.postgres)
      (snd Demo.up1) =
    Res.mk 200 true (lit "Resume statistics retrieved successfully")
      (Some (Statistics s)) None /\
    max_rating s = Some M /\ min_rating s = Some m /\
    In M (ratings (snd Demo.up1)) /\ In m (ratings (snd Demo.up1)) /\
    Forall (fun z => m <= z <= M) (ratings (snd Demo.up1)).
Proof.
  assert (R : ratings (snd Demo.up1) = [1]) by (vm_compute; reflexivity).
  apply (stats_extremes_are_ratings (engine := Demo.engine)
           (postgres := Demo.postgres) (snd Demo.up1)).
  - rewrite R. discriminate.
  - rewrite R. repeat constructor; lia.
Defined.

Lemma list_previews_are_short_witness :
  forallb (fun s => match improvement_summary s with
                    | Some t => (length (characters t) <=? 103)%nat
                    | None => true
                    end) (select_summaries (snd Demo.up3)) = true.
Proof.
  apply forallb_forall. intros s Hs.
  destruct (improvement_summary s) as [t|] eqn:E; [|reflexivity].
  apply Nat.leb_le.
  exact (proj1 (list_previews_are_short (snd Demo.up3) s t Hs E)).
Defined.

Lemma route_check_covers_controller_check_witness :
  invalid_id (lit "42") = false /\
  In (Res.status (getResumeById (engine := Demo.engine)
                    (postgres := Demo.postgres) Demo.empty_table (lit "42")))
     [200; 404; 500] /\
  In (Res.status (fst (deleteResume (postgres := Demo.postgres)
                         Demo.empty_table (lit "42"))))
     [200; 404; 500].
Proof.
  exact (route_check_covers_controller_check (engine := Demo.engine)
           (postgres := Demo.postgres) Demo.empty_table (lit "42") eq_refl).
Defined.

Lemma id_is_read_up_to_its_first_non_digit_witness :
  validateResumeId (lit "12abc") = None /\
  validateResumeId (lit "-3") =
    Some (AppError "Invalid resume ID. ID must be a positive number." 400).
Proof.
  split.
  - exact (id_is_read_up_to_its_first_non_digit false 12 (lit "abc")
             eq_refl (fun H => ltac:(discriminate H))).
  - exact (id_is_read_up_to_its_first_non_digit true 3 [] I
             (fun H => ltac:(discriminate H))).
Defined.

(* ================================================================== *)
(** ** The route checks and the error handler *)

Lemma lookup_set_key_other (k k' : jsstring) (v : value)
    (kv : list (jsstring * value)) :
  jsstring_eqb k k' = false ->
  lookup k (set_key k' v kv) = lookup k kv.
Proof.
  intros H. induction kv as [|[k2 v2] kv IH]; cbn [set_key lookup].
  - rewrite H. reflexivity.
  - destruct (jsstring_eqb k' k2) eqn:E; cbn [lookup].
    + apply jsstring_eqb_eq in E. subst k2. rewrite H. reflexivity.
    + rewrite IH. reflexivity.
Qed.

Lemma lookup_set_key_same (k : jsstring) (v : value)
    (kv : list (jsstring * value)) :
  lookup k (set_key k v kv) = Some v.
Proof.
  induction kv as [|[k2 v2] kv IH]; cbn [set_key lookup].
  - rewrite jsstring_eqb_refl. reflexivity.
  - destruct (jsstring_eqb k k2) eqn:E; cbn [lookup].
    + rewrite jsstring_eqb_refl. reflexivity.
    + rewrite E. exact IH.
Qed.

Lemma globalErrorHandler_finish (development : bool) (now : jsstring)
    (err : exception) (r : error_response) :
  globalErrorHandler development now err = Ok r ->
  exists error, r = finish development now err error.
Proof.
  unfold globalErrorHandler.
  repeat match goal with
         | |- bind ?x _ = Ok _ -> _ =>
             destruct x; cbn [bind]; [|discriminate]
         end.
  intros H. inversion H. eexists. reflexivity.
Qed.

Lemma send_AppError (development : bool) (now m : jsstring) (s : Z) :
  let r := if development then sendErrorDev (new_AppError m s) now
           else sendErrorProd (new_AppError m s) now in
  er_status r = Some (VNum (number_of_Z s)) /\ er_message r = m /\
  er_timestamp r = now.
Proof. destruct development; repeat split; reflexivity. Qed.

(** X24.  A request that passes [validateFileUpload] has a PDF file that is
    not empty and at most 5MB, and [uploadResume] does not answer it with
    any of its own three messages about the file. *)
Theorem file_checks_cover_controller_checks {engine : Engine}
    {postgres : Postgres} (db : database) (w : world)
    (req_file : option file) :
  validateFileUpload req_file = None ->
  exists f,
    req_file = Some f /\
    mimetype f = lit "application/pdf" /\
    size f <= 5 * 1024 * 1024 /\ size f <> 0 /\
    forall m,
      In m [ "No file uploaded. Please select a PDF file.";
             "Only PDF files are allowed.";
             "File size too large. Maximum size allowed is 5MB." ]%string ->
      Res.message (fst (uploadResume db w req_file)) <> lit m.
Proof.
  unfold validateFileUpload. destruct req_file as [f|]; [|discriminate].
  cbn [existsb]. rewrite orb_false_r.
  destruct (jsstring_eqb (mimetype f) (lit "application/pdf")) eqn:M;
    [|discriminate].
  apply jsstring_eqb_eq in M. cbv [negb].
  destruct (5 * 1024 * 1024 <? size f) eqn:S; [discriminate|].
  apply Z.ltb_ge in S.
  destruct (size f =? 0) eqn:Z0; [discriminate|]. apply Z.eqb_neq in Z0.
  intros _. exists f. repeat (split; [assumption || reflexivity|]).
  intros m Hm. rewrite (uploadResume_accepted db w f M S).
  assert (C : forall e, Res.message (uploadResume_catch e) <> lit m).
  { intros e. unfold uploadResume_catch.
    destruct (msg_includes e "PDF parsing failed");
      [|destruct (msg_includes e "AI analysis failed");
        [|destruct (code_is e "23505")]];
      simpl in Hm;
      repeat (destruct Hm as [Hm|Hm];
              [subst m; vm_compute; discriminate|]);
      destruct Hm. }
  destruct (bind _ _) as [values|e]; [|apply C].
  destruct (insert_resume _ _ _) as [result db1].
  destruct (bind result _) as [saved|e]; [|apply C].
  simpl in Hm.
  repeat (destruct Hm as [Hm|Hm]; [subst m; vm_compute; discriminate|]).
  destruct Hm.
Qed.

(** X25.  A rejection by [validateResumeId], passed to
    [globalErrorHandler], is answered with status 400 and the message of the
    rejection, in development and in production. *)
Theorem id_rejection_is_answered_as_given (development : bool)
    (now id : jsstring) (e : error) :
  validateResumeId id = Some e ->
  exists r,
    globalErrorHandler development now (thrown e) = Ok r /\
    er_status r = Some (VNum (number_of_Z 400)) /\
    er_message r = message e.
Proof.
  unfold validateResumeId.
  destruct (negb (truthy (VStr id)));
    [|destruct (parseInt_string id) as [n|]; [destruct (n <=? 0)|]];
    intros H; inversion H; subst;
    destruct development; eexists; (split; [reflexivity|split; reflexivity]).
Qed.

(** X26.  A rejection by [validateFileUpload] or by [fileFilter], passed
    to [globalErrorHandler], is answered with status 400; only "File too
    large. Maximum size is 5MB." reaches the client with its own message:
    the other four messages mention "PDF" and are replaced by "PDF
    processing failed. Please try with a different file.". *)
Theorem file_rejection_is_answered_as_a_PDF_failure (development : bool)
    (now : jsstring) (req_file : option file) (mimetype : jsstring)
    (e : error) :
  validateFileUpload req_file = Some e \/ fileFilter mimetype = Some e ->
  exists r,
    globalErrorHandler development now (thrown e) = Ok r /\
    er_status r = Some (VNum (number_of_Z 400)) /\
    er_message r =
      if jsstring_eqb (message e) (lit "File too large. Maximum size is 5MB.")
      then message e
      else lit "PDF processing failed. Please try with a different file.".
Proof.
  unfold validateFileUpload, fileFilter. intros [H|H]; revert H.
  - destruct req_file as [f|];
      [destruct (negb _);
       [|destruct (_ <? size f); [|destruct (size f =? 0)]]|];
      intros H; inversion H; subst;
      destruct development; eexists;
      (split; [reflexivity|split; reflexivity]).
  - destruct (jsstring_eqb mimetype _); intros H; inversion H; subst.
    destruct development; eexists;
      (split; [reflexivity|split; reflexivity]).
Qed.

Lemma handlePDFError_answer (error : error_object) :
  exists m, handlePDFError error = new_AppError m 400 /\ In m PDF_messages.
Proof.
  unfold handlePDFError, PDF_messages.
  destruct (_ || _); [eexists; split; [reflexivity|simpl; tauto]|].
  destruct (includes _ _); eexists; (split; [reflexivity|simpl; tauto]).
Qed.

Lemma handleAIServiceError_answer (error : error_object) :
  exists s m,
    handleAIServiceError error = new_AppError m s /\ In (s, m) AI_answers.
Proof.
  unfold handleAIServiceError, AI_answers.
  destruct (includes _ (lit "API key"));
    [do 2 eexists; split; [reflexivity|simpl; tauto]|].
  destruct (_ || _); [do 2 eexists; split; [reflexivity|simpl; tauto]|].
  destruct (includes _ _); do 2 eexists; (split; [reflexivity|simpl; tauto]).
Qed.

(** X27.  Whenever [globalErrorHandler] answers an error whose message
    mentions "PDF" or "pdf" (and not the AI), the status is 400 and the
    message one of the three of [handlePDFError], whatever the status and
    the kind of the error. *)
Theorem error_mentioning_PDF_is_answered_400 (development : bool)
    (now : jsstring) (err : exception) (r : error_response) :
  globalErrorHandler development now err = Ok r ->
  includes (ex_message err) (lit "PDF")
    || includes (ex_message err) (lit "pdf") = true ->
  includes (ex_message err) (lit "AI analysis")
    || includes (ex_message err) (lit "Gemini")
    || includes (ex_message err) (lit "API key") = false ->
  er_status r = Some (VNum (number_of_Z 400)) /\
  In (er_message r) PDF_messages.
Proof.
  intros H P A. apply globalErrorHandler_finish in H.
  destruct H as [error ->]. unfold finish. rewrite P, A.
  assert (T : truthy (VStr (ex_message err)) = true).
  { destruct (ex_message err); [discriminate P|reflexivity]. }
  rewrite T. cbn [andb].
  destruct (handlePDFError_answer error) as (m & -> & Hm).
  destruct (send_AppError development now m 400) as (S & M & _).
  cbv zeta in S, M. rewrite S, M. split; [reflexivity|exact Hm].
Qed.

(** X28.  Whenever [globalErrorHandler] answers an error whose message
    mentions "AI analysis", "Gemini" or "API key", the status and the
    message are one of the four pairs of [handleAIServiceError]. *)
Theorem error_mentioning_the_AI_is_answered_as_an_AI_failure
    (development : bool) (now : jsstring) (err : exception)
    (r : error_response) :
  globalErrorHandler development now err = Ok r ->
  includes (ex_message err) (lit "AI analysis")
    || includes (ex_message err) (lit "Gemini")
    || includes (ex_message err) (lit "API key") = true ->
  exists s, er_status r = Some (VNum (number_of_Z s)) /\
            In (s, er_message r) AI_answers.
Proof.
  intros H A. apply globalErrorHandler_finish in H.
  destruct H as [error ->]. unfold finish. rewrite A.
  assert (T : truthy (VStr (ex_message err)) = true).
  { destruct (ex_message err); [discriminate A|reflexivity]. }
  rewrite T. cbn [andb].
  match goal with
  | |- context [handleAIServiceError ?x] =>
      destruct (handleAIServiceError_answer x) as (s & m & -> & Hm)
  end.
  destruct (send_AppError development now m s) as (S & M & _).
  cbv zeta in S, M. rewrite S, M. exists s. split; [reflexivity|exact Hm].
Qed.

(** X29.  [globalErrorHandler] never answers an error whose [code] is
    truthy and not a string, such as the code 11000 its duplicate-key branch
    tests for: the handler itself throws, at the latest where it calls
    [err.code.startsWith]. *)
Theorem error_with_a_numeric_code_is_not_answered (development : bool)
    (now : jsstring) (err : exception) (v : value) :
  lookup (lit "code") (ex_props err) = Some v ->
  truthy v = true -> (forall s, v <> VStr s) ->
  exists e, globalErrorHandler development now err = Throw e.
Proof.
  intros Hc Ht Hs.
  assert (L : code_starts_with_LIMIT (Some v) =
              Throw (TypeError "err.code.startsWith is not a function")).
  { unfold code_starts_with_LIMIT. rewrite Ht.
    destruct v; try reflexivity. destruct (Hs s eq_refl). }
  unfold globalErrorHandler.
  rewrite !lookup_set_key_other by reflexivity. rewrite Hc, L.
  repeat match goal with
         | |- exists e, bind ?x _ = Throw e =>
             destruct x; cbn [bind]; [|eexists; reflexivity]
         end.
  eexists. reflexivity.
Qed.

(** X30.  An error without properties of its own whose name and message
    no branch recognizes is answered 500: in production with the message
    "Something went wrong! Please try again later.", never its own; in
    development with its own message. *)
Theorem unexpected_error_is_hidden_in_production (now : jsstring)
    (err : exception) :
  ex_props err = [] ->
  existsb (jsstring_eqb (ex_name err))
    [ lit "CastError"; lit "ValidationError"; lit "JsonWebTokenError";
      lit "TokenExpiredError" ] = false ->
  existsb (fun k => includes (ex_message err) (lit k))
    [ "PDF"; "pdf"; "AI analysis"; "Gemini"; "API key" ]%string = false ->
  globalErrorHandler false now err =
    Ok (mkErrorResponse (Some (VNum (number_of_Z 500)))
          (lit "Something went wrong! Please try again later.") now None) /\
  exists r,
    globalErrorHandler true now err = Ok r /\
    er_status r = Some (VNum (number_of_Z 500)) /\
    er_message r = ex_message err.
Proof.
  intros Hp Hn Hm. cbn [existsb] in Hn, Hm.
  repeat (apply orb_false_elim in Hn; destruct Hn as [? Hn]).
  repeat (apply orb_false_elim in Hm; destruct Hm as [? Hm]).
  unfold globalErrorHandler. rewrite Hp.
  repeat match goal with
         | H : _ = false |- _ => rewrite H; clear H
         end.
  cbn [set_key lookup or_else]. eval_keys.
  cbn [bind code_starts_with_LIMIT andb orb].
  rewrite !andb_false_r.
  split; [reflexivity|].
  eexists. split; [reflexivity|]. split; reflexivity.
Qed.


Lemma file_checks_cover_controller_checks_witness :
  Res.message (fst (uploadResume (engine := Demo.engine)
                      (postgres := Demo.postgres) Demo.empty_table
                      (Demo.fine 10) (Some Demo.cv)))
  <> lit "Only PDF files are allowed.".
Proof.
  destruct (file_checks_cover_controller_checks (engine := Demo.engine)
              (postgres := Demo.postgres) Demo.empty_table (Demo.fine 10)
              (Some Demo.cv) eq_refl) as (f & _ & _ & _ & _ & H).
  apply H. simpl. tauto.
Defined.

Lemma id_rejection_is_answered_as_given_witness :
  exists r,
    globalErrorHandler false (lit "2024-01-01T00:00:00.000Z")
      (thrown (AppError "Invalid resume ID. ID must be a positive number." 400))
    = Ok r /\
    er_status r = Some (VNum (number_of_Z 400)) /\
    er_message r = lit "Invalid resume ID. ID must be a positive number.".
Proof.
  exact (id_rejection_is_answered_as_given false
           (lit "2024-01-01T00:00:00.000Z") (lit "abc")
           (AppError "Invalid resume ID. ID must be a positive number." 400)
           eq_refl).
Defined.

Lemma file_rejection_is_answered_as_a_PDF_failure_witness :
  exists r,
    globalErrorHandler false (lit "2024-01-01T00:00:00.000Z")
      (thrown (AppError "No file uploaded. Please select a PDF file." 400))
    = Ok r /\
    er_status r = Some (VNum (number_of_Z 400)) /\
    er_message r =
      lit "PDF processing failed. Please try with a different file.".
Proof.
  exact (file_rejection_is_answered_as_a_PDF_failure false
           (lit "2024-01-01T00:00:00.000Z") None []
           (AppError "No file uploaded. Please select a PDF file." 400)
           (or_introl eq_refl)).
Defined.

Lemma error_mentioning_PDF_is_answered_400_witness :
  exists r,
    globalErrorHandler false [] Cases.missing_page = Ok r /\
    er_status r = Some (VNum (number_of_Z 400)) /\
    In (er_message r) PDF_messages.
Proof.
  eexists. split; [reflexivity|].
  apply (error_mentioning_PDF_is_answered_400 false [] Cases.missing_page);
    reflexivity.
Defined.

Lemma error_mentioning_the_AI_is_answered_as_an_AI_failure_witness :
  exists r s,
    globalErrorHandler true [] Cases.missing_key = Ok r /\
    er_status r = Some (VNum (number_of_Z s)) /\
    In (s, er_message r) AI_answers.
Proof.
  eexists.
  destruct (error_mentioning_the_AI_is_answered_as_an_AI_failure true []
              Cases.missing_key _ eq_refl eq_refl) as (s & S & M).
  exists s. split; [reflexivity|]. split; [exact S|exact M].
Defined.

Lemma error_with_a_numeric_code_is_not_answered_witness :
  exists e, globalErrorHandler false [] Cases.duplicate_key = Throw e.
Proof.
  apply (error_with_a_numeric_code_is_not_answered false []
           Cases.duplicate_key (VNum (Finite false 11000 0)));
    [reflexivity|reflexivity|discriminate].
Defined.

Lemma unexpected_error_is_hidden_in_production_witness :
  globalErrorHandler false [] Cases.type_error =
  Ok (mkErrorResponse (Some (VNum (number_of_Z 500)))
        (lit "Something went wrong! Please try again later.") [] None).
Proof.
  apply (unexpected_error_is_hidden_in_production [] Cases.type_error);
    reflexivity.
Defined.
